(** * Result fusion, session paging and community-core maintenance
      of the CDL platform backend ([backend/app/views/functional.py])

    The development embeds the request handlers of [functional.py] in Rocq:
    the search endpoint [search] with its helper [cache_search], the term
    derivation of [get_recommendations], and the community-core updates
    issued by [create_submission_helper] and by the [submission] handler.

    Python values are modelled as follows.
    - [str] is [string]; slicing, [split], [join], [re.sub] and [in] are
      written out below.
    - A backend score is a rational number [Q]; [+= 100] is [Qplus].
    - A call that may raise returns an [outcome]; handlers run in the monad
      [M], which threads the process state (the [neural_api] environment
      entry, the session cache, the log of external calls) and lets a
      raised exception skip the rest of the body, keeping the state.
    - Collaborators whose code is not part of [functional.py] are either
      fields of the class [Externals] (pure helpers), fields of the record
      [world] (services answering one request), or modelled from the
      specification where a property below is about them. *)

From Stdlib Require Import String Ascii List Bool Arith Lia ZArith QArith.
From Stdlib Require Import Sorting.Sorted Sorting.Permutation.
Import ListNotations.
Close Scope Q_scope.
Open Scope string_scope.

(* ================================================================== *)
(** * Python primitives *)
(* ================================================================== *)

(** A Python call either returns a value or raises. *)
Inductive outcome (A : Type) : Type :=
| Returns (a : A)
| Raises.
Arguments Returns {A} a.
Arguments Raises {A}.

(** [s[:n]] *)
Definition py_prefix (n : nat) (s : string) : string := substring 0 n s.

(** [not s] for a string *)
Definition py_not (s : string) : bool := s =? "".

(** [c in s] for a one-character needle *)
Fixpoint contains_char (c : ascii) (s : string) : bool :=
  match s with
  | EmptyString => false
  | String d s' => Ascii.eqb c d || contains_char c s'
  end.

(** [re.sub(c, r, s)] for a one-character pattern without metacharacters *)
Fixpoint re_sub_char (c r : ascii) (s : string) : string :=
  match s with
  | EmptyString => EmptyString
  | String d s' => String (if Ascii.eqb d c then r else d) (re_sub_char c r s')
  end.

Definition hash_char : ascii := "#"%char.
Definition space_char : ascii := " "%char.

(** [re.sub("#", " ", s)] *)
Definition strip_hashes (s : string) : string := re_sub_char hash_char space_char s.

(** [str.isspace] on the code points below 256 *)
Definition is_space (c : ascii) : bool :=
  let n := nat_of_ascii c in
  (Nat.leb 9 n && Nat.leb n 13) || (Nat.leb 28 n && Nat.leb n 32)
  || Nat.eqb n 133 || Nat.eqb n 160.

(** [s.split()]: the maximal runs of non-whitespace characters.
    [w] is the word read so far. *)
Fixpoint split_from (w : string) (s : string) : list string :=
  match s with
  | EmptyString => if py_not w then [] else [w]
  | String c s' =>
      if is_space c
      then (if py_not w then split_from "" s' else w :: split_from "" s')
      else split_from (w ++ String c "") s'
  end.

Definition py_split (s : string) : list string := split_from "" s.

(** [sep.join(xs)] *)
Definition py_join (sep : string) (xs : list string) : string := String.concat sep xs.

(** [x in xs] for a list of strings *)
Definition py_in (x : string) (xs : list string) : bool :=
  existsb (String.eqb x) xs.

(** [[x for x in xs if x != y]] *)
Definition py_without (y : string) (xs : list string) : list string :=
  filter (fun x => negb (x =? y)) xs.

(** [str(n)] for a non-negative integer *)
Fixpoint digits_fuel (fuel n : nat) (acc : string) : string :=
  match fuel with
  | O => acc
  | S fuel' =>
      let acc' := String (ascii_of_nat (48 + n mod 10)) acc in
      if Nat.eqb (n / 10) 0 then acc' else digits_fuel fuel' (n / 10) acc'
  end.

Definition py_str_nat (n : nat) : string := digits_fuel (S n) n "".

(** Insertion-ordered [dict] with string keys. *)
Definition dict (V : Type) : Type := list (string * V).

Fixpoint dict_get {V} (d : dict V) (k : string) : option V :=
  match d with
  | [] => None
  | (k', v) :: d' => if k' =? k then Some v else dict_get d' k
  end.

(** [d[k] = v]: an existing key keeps its position. *)
Fixpoint dict_set {V} (d : dict V) (k : string) (v : V) : dict V :=
  match d with
  | [] => [(k, v)]
  | (k', v') :: d' => if k' =? k then (k', v) :: d' else (k', v') :: dict_set d' k v
  end.

(** [del d[k]] *)
Definition dict_remove {V} (d : dict V) (k : string) : dict V :=
  filter (fun kv => negb (fst kv =? k)) d.

(** [list(d.keys())] *)
Definition dict_keys {V} (d : dict V) : list string := map fst d.

(* ================================================================== *)
(** * Scores, backend hits and result items *)
(* ================================================================== *)

(** [a < b] on scores *)
Definition Qltb (a b : Q) : bool := negb (Qle_bool b a).

(** One ranked hit of a search backend: [hit["_id"]], [hit["_score"]] and
    the fields of [hit["_source"]] the fusion needs. *)
Record hit : Type := mk_hit {
  hit_id : string;
  hit_score : Q;
  hit_url : string;
  hit_text : string
}.

(** [hit["_score"] += 100] *)
Definition core_boost : Q := inject_Z 100.

Definition boost (h : hit) : hit :=
  mk_hit (hit_id h) (Qplus (hit_score h) core_boost) (hit_url h) (hit_text h).

(** One entry of a result page, the dictionary [create_page] builds and
    the hydration steps complete. *)
Record item : Type := mk_item {
  submission_id : string;
  score : Q;
  canonical_url : string;
  display_text : string;
  hashtags : list string;
  result_hash : string;
  redirect_url : string
}.

(** Helpers imported from [app.helpers.helpers], from TextBlob and from
    [random]; their code is not in [functional.py].  The two laws say that
    [random.shuffle] permutes its list and that [list(set(xs))] lists every
    distinct member of [xs] once, in an order Python does not fix. *)
Class Externals : Type := {
  standardize_url : string -> string;
  extract_hashtags : string -> list string;
  create_page : list hit -> dict string -> list item;
  build_redirect_url : string -> string -> string -> string -> string;
  noun_phrases : string -> list string;
  list_set : list string -> list string;
  shuffle : list string -> list string;
  validate_submission : option string -> option string -> option string -> bool * string;
  shuffle_permutes : forall l, Permutation l (shuffle l);
  list_set_members : forall l x, In x (list_set l) <-> In x l;
  list_set_distinct : forall l, NoDup (list_set l)
}.

(* ================================================================== *)
(** * ResultFuser: merge, sort, deduplicate, hydrate *)
(* ================================================================== *)

(** Modelled from the spec: [combine_pages] is not in [functional.py];
    section 4.3 step 3 says "concatenate all candidate sets". *)
Definition combine_pages (a b : list item) : list item := a ++ b.

(** [sorted(pages, reverse=True, key=lambda x: x["score"])]: Python's sort
    is stable, also under [reverse=True]; an item is inserted in front of
    the first item whose score is not strictly higher. *)
Fixpoint insert_by_score (x : item) (l : list item) : list item :=
  match l with
  | [] => [x]
  | y :: l' =>
      if Qltb (score x) (score y) then y :: insert_by_score x l' else x :: l
  end.

Definition sorted_by_score (l : list item) : list item :=
  fold_right insert_by_score [] l.

Definition same_url (x y : item) : bool := canonical_url x =? canonical_url y.

(** [x] loses its place when an item of its URL group seen before it scores
    at least as much, or one coming after it scores strictly more. *)
Definition outranked (before : list item) (x : item) (after : list item) : bool :=
  existsb (fun y => same_url y x && Qle_bool (score x) (score y)) before
  || existsb (fun y => same_url y x && Qltb (score x) (score y)) after.

Fixpoint dedup_from (before l : list item) : list item :=
  match l with
  | [] => []
  | x :: l' =>
      if outranked before x l'
      then dedup_from (x :: before) l'
      else x :: dedup_from (x :: before) l'
  end.

(** Modelled from the spec: [deduplicate] is not in [functional.py];
    section 4.3 step 4 says "group by normalized URL; within a group, keep
    exactly one item - the one with the highest score; discard the rest".
    The survivors keep their places; among equal highest scores the first
    one seen survives. *)
Definition deduplicate (l : list item) : list item := dedup_from [] l.

(** Modelled from the spec: [build_result_hash] is not in [functional.py];
    section 6 gives the format ["{rank}_{sourceId}_{sessionId}"]. *)
Definition build_result_hash (rank : nat) (source_id session_id : string) : string :=
  py_str_nat rank ++ "_" ++ source_id ++ "_" ++ session_id.

Section Hydration.
Context {E : Externals}.

Definition hydrate_item (session_id method : string) (rank : nat) (x : item) : item :=
  let h := build_result_hash rank (submission_id x) session_id in
  mk_item (submission_id x) (score x) (canonical_url x) (display_text x)
          (hashtags x) h
          (build_redirect_url (canonical_url x) h (display_text x) method).

Fixpoint hydrate_from (session_id method : string) (rank : nat) (l : list item)
  : list item :=
  match l with
  | [] => []
  | x :: l' =>
      hydrate_item session_id method rank x :: hydrate_from session_id method (S rank) l'
  end.

(** Modelled from the spec: [hydrate_with_hash_url] is not in
    [functional.py]; section 4.3 step 7 says "assign rank = position in
    final list; compute resultHash and redirectUrl".  The keyword argument
    [page] of the calls has no part in that rule and is left out. *)
Definition hydrate_with_hash_url (results : list item) (session_id method : string)
  : list item :=
  hydrate_from session_id method 0 results.

(** Modelled from the spec: [hydrate_with_hashtags] is not in
    [functional.py]; section 4.3 step 7 says "attach hashtags extracted
    from each item's display text". *)
Definition hydrate_with_hashtags (results : list item) : list item :=
  map (fun x => mk_item (submission_id x) (score x) (canonical_url x)
                        (display_text x) (extract_hashtags (display_text x))
                        (result_hash x) (redirect_url x)) results.

(** Lines 1142-1148 of [cache_search]: the fused list of one session. *)
Definition fuse (submissions_pages : list item) (search_id : string) : list item :=
  let pages := sorted_by_score submissions_pages in
  let pages := deduplicate pages in
  let pages := hydrate_with_hash_url pages search_id "search" in
  hydrate_with_hashtags pages.
End Hydration.

(* ================================================================== *)
(** * Process state, external calls and the handler monad *)
(* ================================================================== *)

(** What [resp.json()] yields: not JSON at all, or an object that may or
    may not have the key ["pages"]. *)
Inductive json_body : Type :=
| BodyNotJson
| BodyJson (pages : option (list item)).

(** What [requests.post] does: raise (connection refused, timeout) or hand
    back a response with a status code and a body. *)
Inductive rerank_reply : Type :=
| PostRaises
| PostResponds (status_code : nat) (body : json_body).

(** The calls a handler makes to services outside the process. *)
Inductive event : Type :=
| EvSubmissionsSearch (query : string) (communities : list string)
| EvWebpagesSearch (query : string)
| EvGetSubmissions (user_id : string) (page : nat)
| EvGetCommunity (community : string) (page : nat)
| EvCoreFind (community : string)
| EvRerank (endpoint : string) (pages : list item) (query : string)
| EvCacheConnect
| EvLogSearch (query : string)
| EvFindSearch (search_id : string)
| EvCommunityInfo
| EvDatabase (operation : string)
| EvCoreUpdate (community url : string) (hashtags : list string) (submission : string).

(** The state shared by the requests one server process handles:
    [os.environ] restricted to the key ["neural_api"], the session-page
    cache, and the log of external calls made so far (latest first). *)
Record process : Type := mk_process {
  neural_api : option string;
  cache_store : list ((string * string) * list item);
  trace : list event
}.

Definition M (A : Type) : Type := process -> outcome A * process.

Definition ret {A} (a : A) : M A := fun p => (Returns a, p).

Definition bind {A B} (c : M A) (k : A -> M B) : M B :=
  fun p => match c p with
           | (Returns a, p') => k a p'
           | (Raises, p') => (Raises, p')
           end.

Definition raise {A} : M A := fun p => (Raises, p).

(** [try: c  except Exception: h] *)
Definition try_except {A} (c : M A) (h : M A) : M A :=
  fun p => match c p with
           | (Returns a, p') => (Returns a, p')
           | (Raises, p') => h p'
           end.

Declare Scope handler_scope.
Delimit Scope handler_scope with handler.
Notation "x <- c ;; k" := (bind c (fun x => k))
  (at level 61, c at next level, right associativity) : handler_scope.
Notation "' pat <- c ;; k" := (bind c (fun x => match x with pat => k end))
  (at level 61, pat pattern, c at next level, right associativity) : handler_scope.
Notation "c ;; k" := (bind c (fun _ => k))
  (at level 61, right associativity) : handler_scope.
Open Scope handler_scope.

Definition log_event (e : event) (p : process) : process :=
  mk_process (neural_api p) (cache_store p) (e :: trace p).

(** An external call: it is logged, and returns or raises as the service
    decides. *)
Definition external {A} (e : event) (r : outcome A) : M A :=
  fun p => (r, log_event e p).

(** ["neural_api" in os.environ], [os.environ["neural_api"]] *)
Definition get_neural_api : M (option string) := fun p => (Returns (neural_api p), p).

(** [del os.environ["neural_api"]] *)
Definition del_neural_api : M unit :=
  fun p => (Returns tt, mk_process None (cache_store p) (trace p)).

(** A stored search, as [SearchesClicks.find_one] returns it. *)
Record prior_search : Type := mk_prior {
  prior_query : string;
  prior_own_submissions : bool;
  prior_community : list string
}.

(** The services that answer one request.  [elastic_search] and
    [webpages_search] are the [search] methods of the two [ElasticManager]
    instances, with arguments (query, communities, page, page_size). *)
Record world : Type := mk_world {
  elastic_search : string -> list string -> nat -> nat -> outcome (nat * list hit);
  webpages_search : string -> list string -> nat -> nat -> outcome (nat * list hit);
  elastic_get_submissions : string -> nat -> outcome (nat * list hit);
  elastic_get_community : string -> nat -> outcome (nat * list hit);
  core_find_one : string -> outcome (option (dict (dict string)));
  cache_connects : bool;
  cache_alive : string -> string -> bool;
  rerank_post : string -> list item -> string -> rerank_reply;
  log_search : outcome string;
  find_prior_search : string -> outcome (option prior_search);
  community_info : outcome (dict string)
}.

(* ================================================================== *)
(** * SessionPageCache *)
(* ================================================================== *)

(** Modelled from the spec: the class [Cache] is not in [functional.py];
    section 4.4 says the full list is stored under the key (user, session)
    with a bounded lifetime, split into pages of a fixed size (10), that
    [insert] returns the page asked for (empty when out of range), and that
    [search] returns the total count and the cached page when the key is
    present and not expired, and an empty page otherwise. *)
Definition page_size : nat := 10.

Definition page_slice (full : list item) (index : nat) : list item :=
  firstn page_size (skipn (index * page_size) full).

Definition key_eqb (k1 k2 : string * string) : bool :=
  (fst k1 =? fst k2) && (snd k1 =? snd k2).

Fixpoint store_get (store : list ((string * string) * list item)) (k : string * string)
  : option (list item) :=
  match store with
  | [] => None
  | (k', v) :: store' => if key_eqb k' k then Some v else store_get store' k
  end.

Definition store_put (store : list ((string * string) * list item))
           (k : string * string) (v : list item) : list ((string * string) * list item) :=
  (k, v) :: filter (fun kv => negb (key_eqb (fst kv) k)) store.

(** Modelled from the spec: [Cache()], the constructor of the session-page
    cache; it connects to the store, and may raise. *)
Definition Cache (w : world) : M unit :=
  external EvCacheConnect (if cache_connects w then Returns tt else Raises).

(** Modelled from the spec: [cache.search(user_id, search_id, index)],
    section 4.4: the total count and the page when the key is present and
    not expired, an empty page otherwise. *)
Definition Cache_search (w : world) (user_id search_id : string) (index : nat)
  : M (nat * list item) :=
  fun p =>
    match store_get (cache_store p) (user_id, search_id) with
    | Some full =>
        if cache_alive w user_id search_id
        then (Returns (length full, page_slice full index), p)
        else (Returns (0, []), p)
    | None => (Returns (0, []), p)
    end.

(** Modelled from the spec: [cache.insert(user_id, search_id, pages,
    index)], section 4.4: store the full list under the key, return the
    page at [index]. *)
Definition Cache_insert (user_id search_id : string) (pages : list item) (index : nat)
  : M (list item) :=
  fun p =>
    (Returns (page_slice pages index),
     mk_process (neural_api p)
                (store_put (cache_store p) (user_id, search_id) pages)
                (trace p)).

(* ================================================================== *)
(** * cache_search (lines 1025-1155) *)
(* ================================================================== *)

Section CacheSearch.
Context {E : Externals}.

(** Lines 1086-1099: the loop over the scoped communities.  Every hit of
    the re-query has 100 added to its score and is appended to the
    submission hits. *)
Fixpoint core_retrieve (w : world) (url : string) (community_ids : list string)
         (submissions_hits : list hit) : M (list hit) :=
  match community_ids with
  | [] => ret submissions_hits
  | community_id :: rest =>
      community_core <- external (EvCoreFind community_id) (core_find_one w community_id) ;;
      submissions_hits <-
        match community_core with
        | Some core_content =>
            match dict_get core_content url with
            | Some tags =>
                let core_hashtags := list_set (dict_keys tags) in
                let terms := py_join " " core_hashtags in
                '(_, core_hits) <- external (EvSubmissionsSearch terms [community_id])
                                            (elastic_search w terms [community_id] 0 1000) ;;
                ret (submissions_hits ++ map boost core_hits)%list
            | None => ret submissions_hits
            end
        | None => ret submissions_hits
        end ;;
      core_retrieve w url rest submissions_hits
  end.

(** Lines 1125-1139: the optional rerank call.  The value is what the
    block leaves in the variable [pages]: the reranked list after a 200
    answer that parses and has the key ["pages"], nothing otherwise.
    An exception inside the [try] removes ["neural_api"] from the
    environment. *)
Definition rerank_step (w : world) (submissions_pages : list item) (query : string)
  : M (option (list item)) :=
  env <- get_neural_api ;;
  match env with
  | Some base =>
      let endpoint := base ++ "neural/rerank/" in
      try_except
        (resp <- external (EvRerank endpoint submissions_pages query)
                          (match rerank_post w endpoint submissions_pages query with
                           | PostRaises => Raises
                           | PostResponds status_code body => Returns (status_code, body)
                           end) ;;
         let '(status_code, body) := resp in
         if Nat.eqb status_code 200
         then match body with
              | BodyNotJson => raise
              | BodyJson None => raise
              | BodyJson (Some pages) => ret (Some pages)
              end
         else ret None)
        (del_neural_api ;; ret None)
  | None => ret None
  end.

(** Lines 1079-1152, the body of [if not page:]: query the indexes, fuse,
    store the fused list and cut the page out of it.  [cache] is the cache
    object, [None] when its construction failed. *)
Definition redo_search (w : world) (query search_id : string) (index : nat)
           (communities : dict string) (user_id : string)
           (toggle_webpage_results : bool) (url_core_retrieve : option string)
           (cache : option unit) : M (nat * list item) :=
  '(_, submissions_hits) <-
    external (EvSubmissionsSearch query (dict_keys communities))
             (elastic_search w query (dict_keys communities) 0 1000) ;;
  submissions_hits <-
    match url_core_retrieve with
    | Some target =>
        core_retrieve w (standardize_url target) (dict_keys communities)
                      submissions_hits
    | None => ret submissions_hits
    end ;;
  let submissions_pages := create_page submissions_hits communities in
  submissions_pages <-
    (if toggle_webpage_results
     then '(_, webpages_hits) <-
            external (EvWebpagesSearch query) (webpages_search w query [] 0 1000) ;;
          let webpages_index_pages := create_page webpages_hits communities in
          ret (combine_pages submissions_pages webpages_index_pages)
     else ret submissions_pages) ;;
  (* line 1130 binds [pages]; line 1142 binds it again without reading it *)
  reranked <- rerank_step w submissions_pages query ;;
  let pages := fuse submissions_pages search_id in
  let number_of_hits := List.length pages in
  page <-
    match cache with
    | Some _ => Cache_insert user_id search_id pages index
    | None => raise
    end ;;
  ret (number_of_hits, page).

Definition cache_search (w : world) (query search_id : string) (index : nat)
           (communities : dict string) (user_id : string)
           (own_submissions toggle_webpage_results : bool)
           (url_core_retrieve : option string) : M (nat * list item) :=
  if own_submissions || (query =? "") then
    '(number_of_hits, hits) <-
      (if own_submissions
       then external (EvGetSubmissions user_id index)
                     (elastic_get_submissions w user_id index)
       else match dict_keys communities with
            | community :: _ =>
                external (EvGetCommunity community index)
                         (elastic_get_community w community index)
            | [] => raise
            end) ;;
    let results := create_page hits communities in
    let results := hydrate_with_hash_url results search_id "search" in
    let results := hydrate_with_hashtags results in
    ret (number_of_hits, results)
  else
    cache <- try_except (Cache w ;; ret (Some tt)) (ret None) ;;
    '(number_of_hits, page) <-
      match cache with
      | Some _ => Cache_search w user_id search_id index
      | None => ret (0, [])
      end ;;
    match page with
    | [] => redo_search w query search_id index communities user_id
                        toggle_webpage_results url_core_retrieve cache
    | _ :: _ => ret (number_of_hits, page)
    end.
End CacheSearch.

(* ================================================================== *)
(** * The search endpoint (lines 582-762) *)
(* ================================================================== *)

Inductive status : Type :=
| OK | BAD_REQUEST | FORBIDDEN | NOT_FOUND | INTERNAL_SERVER_ERROR.

(** The dictionary [return_obj] of [search]. *)
Record return_obj : Type := mk_return_obj {
  r_search_id : string;
  r_query : string;
  r_total_num_results : nat;
  r_current_page : nat;
  r_search_results_page : list item
}.

(** [response.success(obj, status)] and [response.error(message, status)] *)
Inductive response : Type :=
| Success (obj : return_obj) (st : status)
| Error (message : string) (st : status).

(** The user recovered from the token: [current_user.id] and
    [current_user.communities], the latter as canonical id strings. *)
Record user : Type := mk_user {
  user_id_of : string;
  communities_of : list string
}.

(** The raw value of the request argument ["page"]. *)
Inductive page_arg : Type :=
| PageAbsent
| PageUndefined
| PageInt (z : Z)
| PageMalformed.

(** [request.args] of a search request; the string-valued arguments with a
    string default carry the default when absent. *)
Record search_request : Type := mk_search_request {
  arg_query : string;
  arg_source : string;
  arg_highlighted_text : string;
  arg_url : string;
  arg_community : option string;
  arg_own_submissions : option string;
  arg_page : page_arg;
  arg_search_id : option string
}.

Definition is_hex_digit (c : ascii) : bool :=
  let n := nat_of_ascii c in
  (Nat.leb 48 n && Nat.leb n 57) || (Nat.leb 65 n && Nat.leb n 70)
  || (Nat.leb 97 n && Nat.leb n 102).

Definition lower_hex (c : ascii) : ascii :=
  let n := nat_of_ascii c in
  if Nat.leb 65 n && Nat.leb n 70 then ascii_of_nat (n + 32) else c.

Fixpoint string_forallb (f : ascii -> bool) (s : string) : bool :=
  match s with
  | EmptyString => true
  | String c s' => f c && string_forallb f s'
  end.

(** The blanks [bytes.fromhex] skips: the ASCII whitespace characters. *)
Definition is_hex_blank (c : ascii) : bool :=
  let n := nat_of_ascii c in
  Nat.eqb n 32 || (Nat.leb 9 n && Nat.leb n 13).

(** [bytes.fromhex(s).hex()]: blanks are skipped in front of a byte, a
    byte is two hexadecimal digits of either case, and the bytes are
    printed in lower case; [None] when [fromhex] raises. *)
Fixpoint fromhex (s : string) : option string :=
  match s with
  | EmptyString => Some EmptyString
  | String c s' =>
      if is_hex_blank c then fromhex s'
      else if is_hex_digit c then
        match s' with
        | String d s'' =>
            if is_hex_digit d
            then option_map (fun bytes => String (lower_hex c) (String (lower_hex d) bytes))
                            (fromhex s'')
            else None
        | EmptyString => None
        end
      else None
  end.

(** [str(ObjectId(s))] for a string [s], [None] when the constructor
    raises.  bson takes a string of 24 characters that [bytes.fromhex]
    reads, and prints the bytes read in lower case: 24 hexadecimal digits
    give the id they spell; a string with blanks between its bytes gives a
    shorter id. *)
Definition ObjectId (s : string) : option string :=
  if Nat.eqb (String.length s) 24 then fromhex s else None.

(** Truth value of an optional request argument. *)
Definition arg_truthy (a : option string) : bool :=
  match a with
  | Some s => negb (py_not s)
  | None => false
  end.

(** The arguments [search] passes to [cache_search] at line 751. *)
Record cache_search_call : Type := mk_call {
  c_query : string;
  c_search_id : string;
  c_page : nat;
  c_communities : dict string;
  c_user_id : string;
  c_own_submissions : bool;
  c_toggle_webpage_results : bool;
  c_url_core_retrieve : option string
}.

Section Search.
Context {E : Externals}.

(** Lines 626-650: the query the request is searched with, and the flag
    [URL_CORE_RETRIEVE].  [query] and [highlighted_text] are the request
    arguments after the cut to 1000 characters of lines 622-623. *)
Definition derive_query (query source highlighted_text url : string)
  : string * option string :=
  if (py_not query && (source =? "extension_open")) || (source =? "note_automatic")
  then
    let URL_CORE_RETRIEVE :=
      if py_not query && (source =? "extension_open") then Some url else None in
    let highlighted_text_nohash := strip_hashes highlighted_text in
    let query :=
      if py_not highlighted_text then url
      else if Nat.ltb (List.length (py_split highlighted_text)) 10
           then highlighted_text_nohash
           else py_join " " (list_set (noun_phrases highlighted_text_nohash)) in
    (query, URL_CORE_RETRIEVE)
  else (query, None).

(** Lines 731-737: [rc_dict], the requested communities the user's
    community table has a name for. *)
Fixpoint build_rc_dict (communities : dict string) (requested : list string)
         (rc_dict : dict string) : dict string :=
  match requested with
  | [] => rc_dict
  | community_id :: rest =>
      match dict_get communities community_id with
      | Some name => build_rc_dict communities rest (dict_set rc_dict community_id name)
      | None => build_rc_dict communities rest rc_dict
      end
  end.

(** Lines 598-749: everything [search] does before it calls
    [cache_search].  The value is either the response of an early
    [return] or the call to make. *)
Definition search_setup (w : world) (current_user : user) (req : search_request)
  : M (response + cache_search_call) :=
  let user_id := user_id_of current_user in
  let user_communities := communities_of current_user in
  let toggle_webpage_results := true in
  let source := arg_source req in
  let url := arg_url req in
  let highlighted_text := py_prefix 1000 (arg_highlighted_text req) in
  let query := py_prefix 1000 (arg_query req) in
  let toggle_webpage_results :=
    if negb (py_not query) && contains_char hash_char query
    then false else toggle_webpage_results in
  let '(query, URL_CORE_RETRIEVE) := derive_query query source highlighted_text url in
  let own_submissions := arg_truthy (arg_own_submissions req) in
  page <- match arg_page req with
          | PageAbsent | PageUndefined => ret 0
          | PageInt z => ret (Z.to_nat (Z.max 0 z))
          | PageMalformed => raise
          end ;;
  session <-
    (if negb (arg_truthy (arg_search_id req)) then
       (* a new search *)
       let scope :=
         match arg_community req with
         | Some community =>
             if community =? "all"
             then inr (user_communities, toggle_webpage_results)
             else match ObjectId community with
                  | None => inl (Error "Community ID is invalid." INTERNAL_SERVER_ERROR)
                  | Some community_id =>
                      if py_in community_id user_communities
                      then inr ([community_id], false)
                      else inl (Error "You do not have access to this community."
                                      FORBIDDEN)
                  end
         | None =>
             (* [ObjectId(None)] is a fresh id, which no user belongs to *)
             inl (Error "You do not have access to this community." FORBIDDEN)
         end in
       match scope with
       | inl resp => ret (inl resp)
       | inr (requested_communities, toggle_webpage_results) =>
           search_id <- external (EvLogSearch query) (log_search w) ;;
           ret (inr (search_id, query, own_submissions, requested_communities,
                     toggle_webpage_results))
       end
     else
       (* a further page of an earlier search *)
       let search_id := match arg_search_id req with Some s => s | None => "" end in
       match ObjectId search_id with
       | None => raise
       | Some oid =>
           prior <- external (EvFindSearch search_id) (find_prior_search w oid) ;;
           match prior with
           | Some prior =>
               ret (inr (search_id, prior_query prior, prior_own_submissions prior,
                         prior_community prior, toggle_webpage_results))
           | None => ret (inl (Error "Cannot find search to page." NOT_FOUND))
           end
       end) ;;
  match session with
  | inl resp => ret (inl resp)
  | inr (search_id, query, own_submissions, requested_communities,
         toggle_webpage_results) =>
      communities <- external EvCommunityInfo (community_info w) ;;
      let rc_dict := build_rc_dict communities requested_communities [] in
      let toggle_webpage_results :=
        if Nat.eqb (List.length rc_dict) 1 && Nat.ltb 1 (List.length user_communities)
        then false else toggle_webpage_results in
      ret (inr (mk_call query search_id page rc_dict user_id own_submissions
                        toggle_webpage_results URL_CORE_RETRIEVE))
  end.

Definition run_cache_search (w : world) (c : cache_search_call) : M (nat * list item) :=
  cache_search w (c_query c) (c_search_id c) (c_page c) (c_communities c)
               (c_user_id c) (c_own_submissions c) (c_toggle_webpage_results c)
               (c_url_core_retrieve c).

(** The body of the [try] block of [search]. *)
Definition search_body (w : world) (current_user : user) (req : search_request)
  : M response :=
  setup <- search_setup w current_user req ;;
  match setup with
  | inl resp => ret resp
  | inr c =>
      '(total_num_results, search_results_page) <- run_cache_search w c ;;
      ret (Success (mk_return_obj (c_search_id c) (c_query c) total_num_results
                                  (c_page c) search_results_page) OK)
  end.

Definition search_failed : response :=
  Error "Failed to search, please try again later." INTERNAL_SERVER_ERROR.

(** [search]: the body, and the handler of lines 759-762 around it. *)
Definition search (w : world) (current_user : user) (req : search_request)
  : M response :=
  try_except (search_body w current_user req) (ret search_failed).

(** A server process handling search requests one after the other. *)
Fixpoint serve (requests : list (world * user * search_request)) (p : process)
  : list response * process :=
  match requests with
  | [] => ([], p)
  | (w, u, req) :: rest =>
      match search w u req p with
      | (Returns resp, p') =>
          let '(resps, p'') := serve rest p' in (resp :: resps, p'')
      | (Raises, p') =>
          let '(resps, p'') := serve rest p' in (resps, p'')
      end
  end.
End Search.

(* ================================================================== *)
(** * Term derivation of the explore recommendations (lines 857-910) *)
(* ================================================================== *)

(** A submission of the user, as far as the explore mode reads it. *)
Record recent_submission : Type := mk_recent {
  rs_highlighted_text : string;
  rs_explanation : string
}.

Definition default_search_text : string :=
  "transformer natural language processing illinois machine learning startup neural network hack hacker technology future explanation application building coding search engine computer vision recurrent classification generation chatgpt gpt3 data".

Section Explore.
Context {E : Externals}.

(** Lines 873-894.  Both lists come sorted by time, latest first; an
    extension open is its highlighted text, [None] when it has none. *)
Definition explore_full_text (user_latest_submissions : list recent_submission)
           (users_extension_opens : list (option string)) : string :=
  let full_text :=
    fold_left (fun full_text submission =>
                 full_text ++ " " ++ strip_hashes (rs_highlighted_text submission)
                           ++ " " ++ strip_hashes (rs_explanation submission))
              (firstn 3 user_latest_submissions) "" in
  fold_left (fun full_text extension_open =>
               if arg_truthy extension_open
               then match extension_open with
                    | Some highlighted_text =>
                        full_text ++ " " ++ strip_hashes highlighted_text
                    | None => full_text
                    end
               else full_text)
            (firstn 3 users_extension_opens) full_text.

(** Lines 896-903: the search text before it is cut to ten terms. *)
Definition explore_derived_text (full_text : string) : string :=
  let search_text := "" in
  let search_text :=
    if Nat.ltb 3 (String.length full_text)
    then
      let new_terms :=
        py_join " " (list_set (filter (fun x => Nat.ltb 3 (String.length x))
                                      (noun_phrases full_text))) in
      search_text ++ " " ++ new_terms
    else search_text in
  if search_text =? "" then default_search_text else search_text.

(** Lines 906-910. *)
Definition explore_bound_terms (search_text : string) : string :=
  let split_text := py_split search_text in
  if Nat.ltb 10 (List.length split_text)
  then py_join " " (firstn 10 (shuffle split_text))
  else search_text.

Definition explore_search_text (user_latest_submissions : list recent_submission)
           (users_extension_opens : list (option string)) : string :=
  explore_bound_terms
    (explore_derived_text
       (explore_full_text user_latest_submissions users_extension_opens)).
End Explore.

(* ================================================================== *)
(** * Submission lifecycle and the community core (lines 268-528, 950-1023) *)
(* ================================================================== *)

(** A submission document of the [Logs] collection; [s_communities] maps a
    user id to the communities that user shared the submission with. *)
Record submission_doc : Type := mk_submission {
  s_id : string;
  s_user_id : string;
  s_explanation : string;
  s_highlighted_text : string;
  s_source_url : string;
  s_communities : dict (list string)
}.

(** The database, the index and the community-core store as one lifecycle
    request sees them.  [add_to_index] yields the hashtags the index
    manager extracted from the document; [log_submission] yields the id of
    the inserted document when the insert was acknowledged. *)
Record store : Type := mk_store {
  find_submission : string -> outcome (option submission_doc);
  update_acknowledged : outcome bool;
  find_community : string -> outcome bool;
  log_submission : outcome (option string);
  add_to_index : submission_doc -> outcome (list string);
  delete_document : outcome unit;
  log_community_action : outcome unit;
  scrape_and_index : string -> outcome unit;
  core_update : string -> string -> list string -> string -> outcome unit
}.

(** What a lifecycle handler answers: a message and a status. *)
Inductive reply : Type :=
| Reply (message : string) (st : status).

(** The JSON body of a PATCH request; [patch_highlighted_text] is the value
    after [sanitize_input]. *)
Record patch_request : Type := mk_patch {
  patch_community_id : option string;
  patch_highlighted_text : option string;
  patch_explanation : option string;
  patch_url : option string
}.

Definition core_tag : string := "#core".
Definition web_community : string := "63a4c21aee3be6ac5c533a55".
Definition web_admin : string := "63a4c201ee3be6ac5c533a54".

Definition is_some {A} (o : option A) : bool :=
  match o with Some _ => true | None => false end.

Definition or_else (o : option string) (d : string) : string :=
  match o with Some s => s | None => d end.

(** [ObjectId(s)], raising on a malformed id. *)
Definition object_id (s : string) : M string :=
  match ObjectId s with
  | Some oid => ret oid
  | None => raise
  end.

Section Lifecycle.
Context {E : Externals}.

(** [community_core.update(community, url, hashtags, submission)] *)
Definition community_core_update (st : store) (community url : string)
           (hashtags : list string) (submission : string) : M unit :=
  external (EvCoreUpdate community url hashtags submission)
           (core_update st community url hashtags submission).

(** Lines 950-1023.  The scraping and indexing of the page (lines 994-1018)
    is one call to the outside, which may raise. *)
Definition create_submission_helper (st : store) (user_id : string)
           (user_communities : list string) (highlighted_text : option string)
           (source_url explanation : option string) (community : string)
  : M (reply * option string) :=
  let highlighted_text := or_else highlighted_text "" in
  if (community =? web_community) && negb (user_id =? web_admin)
  then ret (Reply "You cannot submit to this community." FORBIDDEN, None)
  else if community =? ""
  then ret (Reply "Error: A community must be selected." BAD_REQUEST, None)
  else
    community_id <- object_id community ;;
    found <- external (EvDatabase "communities.find_one") (find_community st community_id) ;;
    if negb found
    then ret (Reply "Error: Cannot find community." BAD_REQUEST, None)
    else if negb (py_in community_id user_communities)
    then ret (Reply "Error: You do not have access to this community." FORBIDDEN, None)
    else if negb (arg_truthy explanation) || negb (arg_truthy source_url)
    then ret (Reply "Missing explanation or source url." BAD_REQUEST, None)
    else
      let '(validated, message) :=
        validate_submission (Some highlighted_text) explanation source_url in
      if negb validated
      then ret (Reply message BAD_REQUEST, None)
      else
        inserted <- external (EvDatabase "logs.insert") (log_submission st) ;;
        match inserted with
        | Some inserted_id =>
            let doc := mk_submission inserted_id user_id (or_else explanation "")
                                     highlighted_text (or_else source_url "")
                                     [(user_id, [community_id])] in
            hashtags <- external (EvDatabase "elastic.add_to_index") (add_to_index st doc) ;;
            try_except
              (if py_in core_tag hashtags
               then
                 let hashtags := py_without core_tag hashtags in
                 let standardized_url := standardize_url (or_else source_url "") in
                 community_core_update st community_id standardized_url hashtags
                                       inserted_id
               else ret tt)
              (ret tt) ;;
            external (EvDatabase "scraper.scrape")
                     (scrape_and_index st (or_else source_url "")) ;;
            ret (Reply "Context successfully submitted and indexed." OK, Some inserted_id)
        | None =>
            ret (Reply "Unable to make submission. Please try again later."
                       INTERNAL_SERVER_ERROR, None)
        end.

(** [for community in communities: community_core.update(...)] *)
Fixpoint update_each (st : store) (communities : list string) (url : string)
         (hashtags : list string) (submission : string) : M unit :=
  match communities with
  | [] => ret tt
  | community :: rest =>
      community_core_update st community url hashtags submission ;;
      update_each st rest url hashtags submission
  end.

Definition submission_failed : reply :=
  Reply "Failed to create submission, please try again later." INTERNAL_SERVER_ERROR.

(** Lines 312-375: DELETE, of the whole submission when no community is
    named, from one community otherwise. *)
Definition submission_DELETE (st : store) (current_user : user) (id : string)
           (community_id : option string) : M reply :=
  try_except
    (let user_id := user_id_of current_user in
     if negb (arg_truthy community_id) then
       oid <- object_id id ;;
       acknowledged <- external (EvDatabase "logs.update_one") (update_acknowledged st) ;;
       if acknowledged then
         external (EvDatabase "elastic.delete_document") (delete_document st) ;;
         found <- external (EvDatabase "logs.find_one") (find_submission st oid) ;;
         match found with
         | Some old_record =>
             (if py_in core_tag
                       (list_set (extract_hashtags (s_explanation old_record)
                                  ++ extract_hashtags (s_highlighted_text old_record)))
              then
                let hashtags := [] in
                let standardized_url := standardize_url (s_source_url old_record) in
                match dict_get (s_communities old_record) user_id with
                | Some communities =>
                    update_each st communities standardized_url hashtags oid
                | None => raise
                end
              else ret tt) ;;
             ret (Reply "Deletion successful." OK)
         | None => raise
         end
       else ret (Reply "Deletion not successful. Please try again later."
                       INTERNAL_SERVER_ERROR)
     else
       community_id <- object_id (or_else community_id "") ;;
       oid <- object_id id ;;
       found <- external (EvDatabase "logs.find_one") (find_submission st oid) ;;
       match found with
       | Some current_submission =>
           let submission_communities := s_communities current_submission in
           let submission_communities :=
             match dict_get submission_communities user_id with
             | Some shared =>
                 dict_set submission_communities user_id
                          (filter (fun x => negb (x =? community_id)) shared)
             | None => submission_communities
             end in
           submission_communities <-
             match dict_get submission_communities user_id with
             | Some [] => ret (dict_remove submission_communities user_id)
             | Some (_ :: _) => ret submission_communities
             | None => raise
             end ;;
           acknowledged <- external (EvDatabase "logs.update_one") (update_acknowledged st) ;;
           if acknowledged then
             let current_submission :=
               mk_submission (s_id current_submission) (s_user_id current_submission)
                             (s_explanation current_submission)
                             (s_highlighted_text current_submission)
                             (s_source_url current_submission) submission_communities in
             external (EvDatabase "elastic.delete_document") (delete_document st) ;;
             external (EvDatabase "elastic.add_to_index")
                      (add_to_index st current_submission) ;;
             external (EvDatabase "log_community_action") (log_community_action st) ;;
             (* removal from community, so hashtags set to empty *)
             (if py_in core_tag
                       (list_set (extract_hashtags (s_explanation current_submission)
                                  ++ extract_hashtags (s_highlighted_text current_submission)))
              then
                let hashtags := [] in
                let standardized_url := standardize_url (s_source_url current_submission) in
                community_core_update st community_id standardized_url hashtags oid
              else ret tt) ;;
             ret (Reply "Removed from community." OK)
           else ret (Reply "Unable to remove from community." NOT_FOUND)
       | None => raise
       end)
    (ret submission_failed).

(** Lines 518-521: the loop over all communities of the submission. *)
Fixpoint update_all (st : store) (all_communities : list string)
         (standardized_old_url standardized_new_url : string)
         (hashtags : list string) (submission : string) : M unit :=
  match all_communities with
  | [] => ret tt
  | community_id :: rest =>
      (if negb (standardized_new_url =? standardized_old_url)
       then community_core_update st community_id standardized_old_url [] submission
       else ret tt) ;;
      community_core_update st community_id standardized_new_url hashtags submission ;;
      update_all st rest standardized_old_url standardized_new_url hashtags submission
  end.

(** Lines 425-428: the submission's communities after the user shared it
    with one more community. *)
Definition share_with (submission_communities : dict (list string))
           (user_id community_id : string) : dict (list string) :=
  let submission_communities :=
    if is_some (dict_get submission_communities user_id)
    then submission_communities
    else dict_set submission_communities user_id [] in
  match dict_get submission_communities user_id with
  | Some shared =>
      if py_in community_id shared
      then submission_communities
      else dict_set submission_communities user_id (shared ++ [community_id])%list
  | None => submission_communities
  end.

(** Lines 474-494: the submission object after the edits of the request
    were written into it; a field is in [insert_obj] exactly when the
    request carries it. *)
Definition edited (submission : submission_doc) (request_json : patch_request)
  : submission_doc :=
  mk_submission
    (s_id submission) (s_user_id submission)
    (or_else (patch_explanation request_json) (s_explanation submission))
    (or_else (patch_highlighted_text request_json) (s_highlighted_text submission))
    (or_else (patch_url request_json) (s_source_url submission))
    (s_communities submission).

(** Lines 377-528: PATCH. *)
Definition submission_PATCH (st : store) (current_user : user) (id : string)
           (request_json : patch_request) : M reply :=
  try_except
    (let user_id := user_id_of current_user in
     let community_id := patch_community_id request_json in
     let highlighted_text := patch_highlighted_text request_json in
     let explanation := patch_explanation request_json in
     let source_url := patch_url request_json in
     if negb (arg_truthy community_id) && negb (arg_truthy highlighted_text)
        && negb (arg_truthy explanation)
     then ret (Reply "Missing either community_id, highlighted_text, or explanation"
                     BAD_REQUEST)
     else
       found <- try_except
                  (oid <- object_id id ;;
                   found <- external (EvDatabase "logs.find_one") (find_submission st oid) ;;
                   ret (Some (oid, found)))
                  (ret None) ;;
       match found with
       | None => ret (Reply "Invalid submission ID" NOT_FOUND)
       | Some (_, None) => ret (Reply "Submission not found." NOT_FOUND)
       | Some (oid, Some submission) =>
           if negb (s_user_id submission =? user_id)
           then ret (Reply "You do not have permission to edit this submission."
                           FORBIDDEN)
           else
             (* updating a submission's communities; the comparison of
                the ObjectId with the id string of the web community at
                line 422 is never true *)
             joined <-
               (if arg_truthy community_id then
                  community_id <- object_id (or_else community_id "") ;;
                  if negb (py_in community_id (communities_of current_user))
                  then ret (inl (Reply "Must include a community_id." FORBIDDEN))
                  else ret (inr (Some community_id,
                                 share_with (s_communities submission) user_id
                                            community_id))
                else ret (inr (None, s_communities submission))) ;;
             match joined with
             | inl resp => ret resp
             | inr (community_id, submission_communities) =>
                 (* [submission.communities] is the object just changed *)
                 let submission :=
                   mk_submission (s_id submission) (s_user_id submission)
                                 (s_explanation submission)
                                 (s_highlighted_text submission)
                                 (s_source_url submission) submission_communities in
                 let edits :=
                   is_some highlighted_text || is_some explanation || is_some source_url in
                 let '(validated, message) :=
                   if edits
                   then validate_submission highlighted_text explanation source_url
                   else (true, "") in
                 if negb validated
                 then ret (Reply message BAD_REQUEST)
                 else
                   acknowledged <- external (EvDatabase "logs.update_one")
                                            (update_acknowledged st) ;;
                   if acknowledged then
                     (* a submission is added to a new community *)
                     match community_id with
                     | Some community_id =>
                         let hashtags :=
                           list_set (extract_hashtags (s_highlighted_text submission)
                                     ++ extract_hashtags (s_explanation submission)) in
                         if py_in core_tag hashtags
                         then
                           let hashtags := py_without core_tag hashtags in
                           let standardized_url :=
                             standardize_url (s_source_url submission) in
                           community_core_update st community_id standardized_url
                                                 hashtags oid
                         else ret tt
                     | None => ret tt
                     end ;;
                     let old_source_url := s_source_url submission in
                     let OLD_CORE_FLAG :=
                       (is_some highlighted_text
                        && py_in core_tag (extract_hashtags (s_highlighted_text submission)))
                       || (is_some explanation
                           && py_in core_tag (extract_hashtags (s_explanation submission))) in
                     let submission := edited submission request_json in
                     external (EvDatabase "elastic.delete_document") (delete_document st) ;;
                     hashtags <- external (EvDatabase "elastic.add_to_index")
                                          (add_to_index st submission) ;;
                     (* update community core content if necessary *)
                     let UPDATE_FLAG := false in
                     let '(hashtags, UPDATE_FLAG) :=
                       if OLD_CORE_FLAG && negb (py_in core_tag hashtags)
                       then ([], true) else (hashtags, UPDATE_FLAG) in
                     let '(hashtags, UPDATE_FLAG) :=
                       if py_in core_tag hashtags
                       then (py_without core_tag hashtags, true)
                       else (hashtags, UPDATE_FLAG) in
                     (if UPDATE_FLAG then
                        let all_communities :=
                          flat_map snd (s_communities submission) in
                        let standardized_new_url :=
                          standardize_url (s_source_url submission) in
                        let standardized_old_url := standardize_url old_source_url in
                        update_all st all_communities standardized_old_url
                                   standardized_new_url hashtags oid
                      else ret tt) ;;
                     (if is_some community_id
                      then external (EvDatabase "log_community_action")
                                    (log_community_action st)
                      else ret tt) ;;
                     ret (Reply "Submission successfully edited." OK)
                   else ret (Reply "Unable to edit submission." INTERNAL_SERVER_ERROR)
             end
       end)
    (ret submission_failed).

End Lifecycle.

(** A process that has not served anything yet. *)
Definition fresh_process (env : option string) : process := mk_process env [] [].


(* ================================================================== *)
(** * Observations on processes, worlds and result lists *)
(* ================================================================== *)

(** The number of rerank calls in a log. *)
Fixpoint rerank_calls (tr : list event) : nat :=
  match tr with
  | [] => 0
  | EvRerank _ _ _ :: tr' => S (rerank_calls tr')
  | _ :: tr' => rerank_calls tr'
  end.

(** The number of queries to the webpages index in a log. *)
Fixpoint webpage_queries (tr : list event) : nat :=
  match tr with
  | [] => 0
  | EvWebpagesSearch _ :: tr' => S (webpage_queries tr')
  | _ :: tr' => webpage_queries tr'
  end.

(** The rerank call ends in the [except] branch: [requests.post] raised, or
    the answer had status 200 and a body that is not JSON or lacks
    ["pages"]. *)
Definition reply_raises (r : rerank_reply) : bool :=
  match r with
  | PostRaises => true
  | PostResponds status_code BodyNotJson => Nat.eqb status_code 200
  | PostResponds status_code (BodyJson None) => Nat.eqb status_code 200
  | PostResponds _ (BodyJson (Some _)) => false
  end.

(** The same process with ["neural_api"] absent from the environment. *)
Definition without_reranker (p : process) : process :=
  mk_process None (cache_store p) (trace p).

(** The same world with another reranking service. *)
Definition with_rerank (w : world) (r : string -> list item -> string -> rerank_reply)
  : world :=
  mk_world (elastic_search w) (webpages_search w) (elastic_get_submissions w)
           (elastic_get_community w) (core_find_one w) (cache_connects w)
           (cache_alive w) r (log_search w) (find_prior_search w) (community_info w).

(** The same world with another webpages index. *)
Definition with_webpages (w : world)
           (ws : string -> list string -> nat -> nat -> outcome (nat * list hit)) : world :=
  mk_world (elastic_search w) ws (elastic_get_submissions w)
           (elastic_get_community w) (core_find_one w) (cache_connects w)
           (cache_alive w) (rerank_post w) (log_search w) (find_prior_search w)
           (community_info w).


(** Since the process was in state [p0], every rerank call that ended in
    the [except] branch, as the world [w] answered it, has left the
    reranker disabled. *)
Definition raised_means_disabled (w : world) (p0 p : process) : Prop :=
  exists tr,
    trace p = (tr ++ trace p0)%list
    /\ forall e pages q,
         In (EvRerank e pages q) tr ->
         reply_raises (rerank_post w e pages q) = true ->
         neural_api p = None.

(** The reranker is disabled and [n] rerank calls were made so far. *)
Definition disabled_at (n : nat) (p : process) : Prop :=
  neural_api p = None /\ rerank_calls (trace p) = n.

(** A string without whitespace, and a word: such a string that is not
    empty. *)
Definition no_space (s : string) : Prop :=
  string_forallb (fun c => negb (is_space c)) s = true.

Definition is_word (s : string) : Prop := s <> "" /\ no_space s.














(** Descending by score. *)
Definition desc_sorted (l : list item) : Prop :=
  StronglySorted (fun a b => Qle (score b) (score a)) l.

(** Every list in the session cache is sorted descending by score. *)
Definition cache_sorted (p : process) : Prop :=
  forall k full, store_get (cache_store p) k = Some full -> desc_sorted full.

(** [keeps I c]: the computation [c] keeps the invariant [I] of the
    process state, whether it returns or raises. *)
Definition keeps {A} (I : process -> Prop) (c : M A) : Prop :=
  forall p, I p -> I (snd (c p)).

(** Events other than a rerank call and a query to the webpages index. *)
Definition quiet (e : event) : bool :=
  match e with
  | EvRerank _ _ _ | EvWebpagesSearch _ => false
  | _ => true
  end.

(** [sim c1 c2]: started in processes with the same session cache, [c1]
    and [c2] end with the same outcome and the same session cache. *)
Definition sim {A} (c1 c2 : M A) : Prop :=
  forall p1 p2, cache_store p1 = cache_store p2 ->
    fst (c1 p1) = fst (c2 p2)
    /\ cache_store (snd (c1 p1)) = cache_store (snd (c2 p2)).

(* ================================================================== *)
(** * A concrete instance of the helpers, and sample requests *)
(* ================================================================== *)

Definition sample_extract_hashtags (text : string) : list string :=
  filter (fun word => match word with
                      | String c _ => Ascii.eqb c hash_char
                      | EmptyString => false
                      end) (py_split text).

Definition sample_create_page (hits : list hit) (communities : dict string) : list item :=
  map (fun h => mk_item (hit_id h) (hit_score h) (hit_url h) (hit_text h) [] "" "") hits.

Definition sample_build_redirect_url (url result_hash text method : string) : string :=
  "/api/redirect?hash=" ++ result_hash ++ "&redirect_url=" ++ url ++ "&method=" ++ method.

Definition sample_externals : Externals := {|
  standardize_url := fun url => url;
  extract_hashtags := sample_extract_hashtags;
  create_page := sample_create_page;
  build_redirect_url := sample_build_redirect_url;
  noun_phrases := py_split;
  list_set := nodup string_dec;
  shuffle := @rev string;
  validate_submission := fun _ _ _ => (true, "");
  shuffle_permutes := @Permutation_rev string;
  list_set_members := fun l x => nodup_In string_dec l x;
  list_set_distinct := NoDup_nodup string_dec
|}.

Definition community_ml : string := "63a4c21aee3be6ac5c533a01".
Definition community_db : string := "63a4c21aee3be6ac5c533a02".

Definition alice : user := mk_user "63a4c201ee3be6ac5c533b01" [community_ml; community_db].

Definition hit_A : hit := mk_hit "A" (9 # 10) "https://a.example" "attention #ml".
Definition hit_B : hit := mk_hit "B" (7 # 10) "https://b.example" "btree notes".
Definition hit_C : hit := mk_hit "C" (3 # 10) "https://c.example" "crawling".

Definition item_of (h : hit) : item :=
  mk_item (hit_id h) (hit_score h) (hit_url h) (hit_text h) [] "" "".

(** A reranking service that answers 200 and puts the pages in reverse
    order. *)
Definition reversing_reranker (endpoint : string) (pages : list item) (query : string)
  : rerank_reply :=
  PostResponds 200 (BodyJson (Some (rev pages))).

(** A world where the submissions index answers [A, B], the webpages index
    answers [C], no community has core content, the cache is up and the
    reranker reverses. *)
Definition sample_world : world :=
  mk_world (fun _ _ _ _ => Returns (2, [hit_A; hit_B]))
           (fun _ _ _ _ => Returns (1, [hit_C]))
           (fun _ _ => Returns (0, []))
           (fun _ _ => Returns (0, []))
           (fun _ => Returns None)
           true
           (fun _ _ => true)
           reversing_reranker
           (Returns "64b000000000000000000001")
           (fun _ => Returns None)
           (Returns [(community_ml, "Machine learning"); (community_db, "Databases")]).

(** A new search over all communities of the user. *)
Definition new_search (query : string) : search_request :=
  mk_search_request query "webpage_search" "" "" (Some "all") None PageAbsent None.

Definition neural_process : process := fresh_process (Some "http://neural:8000/").

(** The sample world with the session cache unreachable. *)
Definition cacheless_world : world :=
  mk_world (elastic_search sample_world) (webpages_search sample_world)
           (elastic_get_submissions sample_world) (elastic_get_community sample_world)
           (core_find_one sample_world) false (cache_alive sample_world)
           (rerank_post sample_world) (log_search sample_world)
           (find_prior_search sample_world) (community_info sample_world).

(** The sample world with the submissions index down. *)
Definition submissions_down_world : world :=
  mk_world (fun _ _ _ _ => Raises) (webpages_search sample_world)
           (elastic_get_submissions sample_world) (elastic_get_community sample_world)
           (core_find_one sample_world) true (cache_alive sample_world)
           (rerank_post sample_world) (log_search sample_world)
           (find_prior_search sample_world) (community_info sample_world).

(** A reranking service that answers 503. *)
Definition unavailable_reranker (endpoint : string) (pages : list item) (query : string)
  : rerank_reply :=
  PostResponds 503 BodyNotJson.

(** A reranking service that times out: the post raises. *)
Definition timing_out_reranker (endpoint : string) (pages : list item) (query : string)
  : rerank_reply :=
  PostRaises.


(** The webpages index is down this time, the submissions index answers. *)
Definition webpages_down_world : world :=
  with_webpages sample_world (fun _ _ _ _ => Raises).

(** The scenario of section 8 of the specification: one backend answers
    A with score 0.9 and B with 0.5, the other B with 0.7 and C with 0.3. *)
Definition scenario_first_backend : list item :=
  [mk_item "A" (9 # 10) "https://a.example" "" [] "" "";
   mk_item "B" (5 # 10) "https://b.example" "" [] "" ""].

Definition scenario_second_backend : list item :=
  [mk_item "B" (7 # 10) "https://b.example" "" [] "" "";
   mk_item "C" (3 # 10) "https://c.example" "" [] "" ""].

(** The sample world answering a later request: it opens another session
    than [sample_world] does. *)
Definition later_world : world :=
  mk_world (elastic_search sample_world) (webpages_search sample_world)
           (elastic_get_submissions sample_world) (elastic_get_community sample_world)
           (core_find_one sample_world) true (cache_alive sample_world)
           (rerank_post sample_world) (Returns "64b000000000000000000002")
           (find_prior_search sample_world) (community_info sample_world).

(** The pages the sample world hands to the reranker, and the address it
    posts them to. *)
Definition sample_pages : list item := map item_of [hit_A; hit_B; hit_C].
Definition sample_endpoint : string := "http://neural:8000/neural/rerank/".

(** A submission of [alice] to the machine-learning community, marked as
    core content and tagged [#ml]; a store that holds it and acknowledges
    every write. *)
Definition core_submission_id : string := "64c000000000000000000001".

Definition core_submission : submission_doc :=
  mk_submission core_submission_id (user_id_of alice) "a classic #core #ml" ""
                "https://a.example" [(user_id_of alice, [community_ml])].

Definition sample_store : store :=
  mk_store (fun _ => Returns (Some core_submission))
           (Returns true)
           (fun _ => Returns true)
           (Returns (Some core_submission_id))
           (fun doc => Returns (sample_extract_hashtags (s_highlighted_text doc)
                                ++ sample_extract_hashtags (s_explanation doc))%list)
           (Returns tt)
           (Returns tt)
           (fun _ => Returns tt)
           (fun _ _ _ _ => Returns tt).

(** [s * n] *)
Fixpoint repeat_string (s : string) (n : nat) : string :=
  match n with
  | O => ""
  | S n' => s ++ repeat_string s n'
  end.

(** A query of 1004 characters whose only ['#'] is the character after
    the first thousand. *)
Definition late_hashtag_query : string := repeat_string "a" 1000 ++ "#tag".

(** A highlighted text of twelve words of 180 letters each, 2171
    characters in all; its first 1000 characters hold five of the words
    and the beginning of the sixth. *)
Definition long_highlighted_text : string :=
  py_join " " (map (fun letter => repeat_string letter 180)
                   ["a"; "b"; "c"; "d"; "e"; "f"; "g"; "h"; "i"; "j"; "k"; "l"]).

(** The extension is opened on a page, without a query. *)
Definition extension_open (url highlighted_text : string) : search_request :=
  mk_search_request "" "extension_open" highlighted_text url (Some "all") None
                    PageAbsent None.

(* ================================================================== *)
(** * What a handler logs *)
(* ================================================================== *)

(** Since the process was in state [p0], only events that satisfy [A] were
    logged. *)
Definition logs_only (A : event -> Prop) (p0 p : process) : Prop :=
  exists tr, trace p = (tr ++ trace p0)%list /\ Forall A tr.

(** The external calls [cache_search] can make with the given arguments:
    which services, and with which arguments. *)
Definition cache_search_event (query : string) (index : nat) (communities : dict string)
           (user_id : string) (own_submissions toggle_webpage_results : bool)
           (url_core_retrieve : option string) (e : event) : Prop :=
  match e with
  | EvGetSubmissions u i => own_submissions = true /\ u = user_id /\ i = index
  | EvGetCommunity c i =>
      own_submissions = false /\ query = "" /\ i = index
      /\ hd_error (dict_keys communities) = Some c
  | EvCacheConnect => own_submissions = false /\ query <> ""
  | EvSubmissionsSearch q cs =>
      own_submissions = false /\ query <> ""
      /\ ((q = query /\ cs = dict_keys communities)
          \/ (url_core_retrieve <> None
              /\ exists c, In c (dict_keys communities) /\ cs = [c]))
  | EvCoreFind c =>
      own_submissions = false /\ query <> "" /\ url_core_retrieve <> None
      /\ In c (dict_keys communities)
  | EvWebpagesSearch q =>
      own_submissions = false /\ query <> "" /\ toggle_webpage_results = true
      /\ q = query
  | EvRerank _ _ q => own_submissions = false /\ query <> "" /\ q = query
  | _ => False
  end.

(** The same request with another ["page"] argument. *)
Definition with_page (req : search_request) (page : page_arg) : search_request :=
  mk_search_request (arg_query req) (arg_source req) (arg_highlighted_text req)
                    (arg_url req) (arg_community req) (arg_own_submissions req)
                    page (arg_search_id req).

(** The external calls [search] makes before it calls [cache_search]. *)
Definition setup_event (e : event) : Prop :=
  match e with
  | EvLogSearch _ | EvFindSearch _ | EvCommunityInfo => True
  | _ => False
  end.

(** The external calls [search] can make for a request: those of the
    setup, and those of the call to [cache_search] the setup ends in. *)
Definition search_event {E : Externals} (w : world) (u : user) (req : search_request)
           (p : process) (e : event) : Prop :=
  setup_event e
  \/ match fst (search_setup w u req p) with
     | Returns (inr c) =>
         cache_search_event (c_query c) (c_page c) (c_communities c) (c_user_id c)
                            (c_own_submissions c) (c_toggle_webpage_results c)
                            (c_url_core_retrieve c) e
     | _ => False
     end.

(* ================================================================== *)
(** * Observations on the lifecycle handlers *)
(* ================================================================== *)

(** When the handler returns, the status of its answer satisfies [S]. *)
Definition answers {A} (status_of : A -> status) (S : status -> Prop) (c : M A) : Prop :=
  forall p, match fst (c p) with
            | Returns a => S (status_of a)
            | Raises => True
            end.

Definition reply_status (r : reply) : status :=
  match r with Reply _ st => st end.

(** The status of an answer that was given after a write was attempted. *)
Definition written_status (st : status) : Prop :=
  st = OK \/ st = INTERNAL_SERVER_ERROR.

(** The same store with another community-core store behind it. *)
Definition with_core_update (st : store)
           (update : string -> string -> list string -> string -> outcome unit) : store :=
  mk_store (find_submission st) (update_acknowledged st) (find_community st)
           (log_submission st) (add_to_index st) (delete_document st)
           (log_community_action st) (scrape_and_index st) update.

(** A community-core store that is down. *)
Definition core_store_down (st : store) : store :=
  with_core_update st (fun _ _ _ _ => Raises).

(** [bob], who is in no community and has submitted nothing. *)
Definition bob : user := mk_user "63a4c201ee3be6ac5c533b02" [].

(** A submission of [alice] that is not core content. *)
Definition plain_submission : submission_doc :=
  mk_submission core_submission_id (user_id_of alice) "a note on #ml" ""
                "https://a.example" [(user_id_of alice, [community_ml])].

Definition plain_store : store :=
  mk_store (fun _ => Returns (Some plain_submission))
           (Returns true)
           (fun _ => Returns true)
           (Returns (Some core_submission_id))
           (fun doc => Returns (sample_extract_hashtags (s_highlighted_text doc)
                                ++ sample_extract_hashtags (s_explanation doc))%list)
           (Returns tt)
           (Returns tt)
           (fun _ => Returns tt)
           (fun _ _ _ _ => Returns tt).

(* ================================================================== *)
(** * Creating submissions (lines 100-198) *)
(* ================================================================== *)

(** [response.success({"message": ..., "submission_id": ...}, status)] and
    [response.error(message, status)] of [create_submission]. *)
Inductive submit_response : Type :=
| Submitted (message submission_id : string) (st : status)
| NotSubmitted (message : string) (st : status).

(** [status == Status.OK] *)
Definition is_OK (st : status) : bool :=
  match st with OK => true | _ => false end.

(** [str(submission_id)] *)
Definition str_id (submission_id : option string) : string :=
  or_else submission_id "None".

(** [d[key]] on a request body: a missing key raises. *)
Definition field {A} (value : option A) : M A :=
  match value with
  | Some v => ret v
  | None => raise
  end.

(** One element of ["data"] in the body of a batch request; a field is
    [None] when the object lacks the key.  [b_highlighted_text] is the
    value after [sanitize_input]. *)
Record batch_item : Type := mk_batch_item {
  b_highlighted_text : option string;
  b_source_url : option string;
  b_explanation : option string
}.

(** A value of the dictionary [results]. *)
Record batch_entry : Type := mk_batch_entry {
  e_message : string;
  e_submission_id : option string;
  e_status : status
}.

(** [response.success(results, Status.OK)] and [response.error(results,
    Status.INTERNAL_SERVER_ERROR)] of [create_batch_submission]. *)
Inductive batch_response : Type :=
| BatchSuccess (results : dict batch_entry) (st : status)
| BatchError (results : dict batch_entry) (st : status).

(** [f'Submission {i}'] *)
Definition submission_key (i : nat) : string := "Submission " ++ py_str_nat i.

Section Creation.
Context {E : Externals}.

(** Lines 100-141.  [highlighted_text] is the form field after
    [sanitize_input], [community] the form field with its default [""]. *)
Definition create_submission (st : store) (current_user : user)
           (highlighted_text : string) (source_url explanation : option string)
           (community : string) : M submit_response :=
  try_except
    (let user_id := user_id_of current_user in
     let user_communities := communities_of current_user in
     '(Reply message status, submission_id) <-
       create_submission_helper st user_id user_communities (Some highlighted_text)
                                source_url explanation community ;;
     if is_OK status
     then ret (Submitted message (str_id submission_id) status)
     else ret (NotSubmitted message status))
    (ret (NotSubmitted "Failed to create submission, please try again later."
                       INTERNAL_SERVER_ERROR)).

(** Lines 168-194: the body of the loop, for the submission at index [i]. *)
Definition batch_round (st : store) (current_user : user) (community : string)
           (submission : batch_item) (i : nat)
           (results : dict batch_entry) (errors : list nat)
  : M (dict batch_entry * list nat) :=
  try_except
    (let user_id := user_id_of current_user in
     let user_communities := communities_of current_user in
     highlighted_text <- field (b_highlighted_text submission) ;;
     source_url <- field (b_source_url submission) ;;
     explanation <- field (b_explanation submission) ;;
     '(Reply message status, submission_id) <-
       create_submission_helper st user_id user_communities
                                (Some highlighted_text) (Some source_url)
                                (Some explanation) community ;;
     if is_OK status
     then ret (dict_set results (submission_key i)
                        (mk_batch_entry message (Some (str_id submission_id)) status),
               errors)
     else ret (dict_set results (submission_key i)
                        (mk_batch_entry message None status),
               (errors ++ [i])%list))
    (let error_message := "Failed to create submission, please try again later." in
     let error_status := INTERNAL_SERVER_ERROR in
     ret (dict_set results (submission_key i)
                   (mk_batch_entry error_message None error_status),
          (errors ++ [i])%list)).

(** Lines 167-194: the loop over [enumerate(data)], from index [i] on. *)
Fixpoint batch_loop (st : store) (current_user : user) (community : string)
         (data : list batch_item) (i : nat)
         (results : dict batch_entry) (errors : list nat)
  : M (dict batch_entry * list nat) :=
  match data with
  | [] => ret (results, errors)
  | submission :: rest =>
      '(results, errors) <-
        batch_round st current_user community submission i results errors ;;
      batch_loop st current_user community rest (S i) results errors
  end.

(** Lines 144-198, for a body that has the keys ["data"] and
    ["community"]. *)
Definition create_batch_submission (st : store) (current_user : user)
           (community : string) (data : list batch_item) : M batch_response :=
  let results := [] in
  let errors := [] in
  '(results, errors) <- batch_loop st current_user community data 0 results errors ;;
  if Nat.eqb (List.length errors) 0
  then ret (BatchSuccess results OK)
  else ret (BatchError results INTERNAL_SERVER_ERROR).
End Creation.

(** What a batch answers with. *)
Definition batch_results (r : batch_response) : dict batch_entry :=
  match r with BatchSuccess results _ | BatchError results _ => results end.

Definition batch_status (r : batch_response) : status :=
  match r with BatchSuccess _ st | BatchError _ st => st end.

(** The value of a decimal numeral read after the digits worth [acc]. *)
Fixpoint nat_of_digits (s : string) (acc : nat) : nat :=
  match s with
  | EmptyString => acc
  | String c s' => nat_of_digits s' (10 * acc + (nat_of_ascii c - 48))
  end.

(** A batch of three: a page for the community, an object without
    ["source_url"], and another page. *)
Definition sample_batch : list batch_item :=
  [mk_batch_item (Some "") (Some "https://a.example") (Some "a page");
   mk_batch_item (Some "") None (Some "no url");
   mk_batch_item (Some "") (Some "https://b.example") (Some "b page")].

(* ================================================================== *)
(** * Viewing a submission (lines 530-575, 1158-1354) *)
(* ================================================================== *)

(** A document of the [Logs] collection as the view reads it: the
    submission and its attribute [deleted], which every document is taken
    to have. *)
Record log_record : Type := mk_log_record {
  l_submission : submission_doc;
  l_deleted : bool
}.

(** A document of the [Webpages] collection: its id, and the description
    and title of its metadata. *)
Record webpage_doc : Type := mk_webpage {
  wp_id : string;
  wp_url : string;
  wp_description : option string;
  wp_title : option string
}.

(** A document of the [Connections] collection. *)
Record connection : Type := mk_connection {
  cn_target_id : string;
  cn_description : string
}.

(** The collections one view request reads.  The three counts are those
    of [SearchesClicks] for clicks on a search result, of
    [RecommendationsClicks], and of [SearchesClicks] for views;
    [community_table] is [get_communities_helper(...)["community_info"]],
    the names of the requester's communities. *)
Record view_store : Type := mk_view_store {
  find_log : string -> outcome (option log_record);
  find_webpage : string -> outcome (option webpage_doc);
  find_connections_of : string -> outcome (list connection);
  log_submission_view : string -> outcome string;
  count_search_clicks : string -> outcome nat;
  count_recommendation_clicks : string -> outcome nat;
  count_views : string -> outcome nat;
  community_table : outcome (dict string)
}.

(** The value of ["valid_action"]. *)
Inductive valid_action : Type :=
| action_remove
| action_view
| action_save.

(** What the frontend gets for one community of the requester. *)
Record community_choice : Type := mk_choice {
  ch_name : string;
  ch_valid_action : valid_action
}.

(** The formatted submission, without the fields that are computed by
    helpers of other modules alone (display url, time, redirect url,
    hashtags). *)
Record display : Type := mk_display {
  d_submission_id : string;
  d_user_id : option string;
  d_can_delete : bool;
  d_views : nat;
  d_clicks : nat;
  d_shares : nat;
  d_communities : dict community_choice;
  d_communities_part_of : dict string;
  d_highlighted_text : string;
  d_explanation : option string;
  d_type : string
}.

(** [response.success({"submission": submission}, Status.OK)] with the
    connections of the submission, and [response.error(message, status)]. *)
Inductive view_response : Type :=
| Shown (submission : display) (connections : list (display * string))
| NotShown (message : string) (st : status).

(** Every community the submission is in, user by user. *)
Definition all_communities_of (submission : submission_doc) : list string :=
  flat_map snd (s_communities submission).

(** Lines 1264-1274: the communities of the requester, each with what the
    requester can do with the submission there. *)
Definition choose_action (user_contributed_communities all_added_communities : list string)
           (community_id : string) : valid_action :=
  if py_in community_id user_contributed_communities then action_remove
  else if py_in community_id all_added_communities then action_view
  else action_save.

(** Lines 1278-1280 *)
Definition is_save (a : valid_action) : bool :=
  match a with action_save => true | _ => false end.

Section Viewing.

(** Lines 1209-1312 *)
Definition format_submission_for_display (vs : view_store) (submission : submission_doc)
           (current_user : user) (search_id : string) : M display :=
  let user_id := user_id_of current_user in
  let num_shares := List.length (all_communities_of submission) in
  num__search_clicks <- external (EvDatabase "searches_clicks.count")
                                 (count_search_clicks vs (s_id submission)) ;;
  num_rec_clicks <- external (EvDatabase "recommendations_clicks.count")
                             (count_recommendation_clicks vs (s_id submission)) ;;
  num_views <- external (EvDatabase "searches_clicks.count")
                        (count_views vs (s_id submission)) ;;
  let can_delete := s_user_id submission =? user_id in
  let user_contributed_communities :=
    match dict_get (s_communities submission) user_id with
    | Some shared => shared
    | None => []
    end in
  let all_added_communities := all_communities_of submission in
  hydrated_user_communities <- external EvCommunityInfo (community_table vs) ;;
  let hydrated_user_communities :=
    map (fun kv => (fst kv,
                    mk_choice (snd kv)
                              (choose_action user_contributed_communities
                                             all_added_communities (fst kv))))
        hydrated_user_communities in
  let communities_part_of :=
    map (fun kv => (fst kv, ch_name (snd kv)))
        (filter (fun kv => negb (is_save (ch_valid_action (snd kv))))
                hydrated_user_communities) in
  ret (mk_display (s_id submission) (Some (s_user_id submission)) can_delete
                  num_views (num__search_clicks + num_rec_clicks) num_shares
                  hydrated_user_communities communities_part_of
                  (s_highlighted_text submission) (Some (s_explanation submission))
                  "user_submission").

(** Lines 1158-1207 *)
Definition format_webpage_for_display (vs : view_store) (webpage : webpage_doc)
           (search_id : string) : M display :=
  num__search_clicks <- external (EvDatabase "searches_clicks.count")
                                 (count_search_clicks vs (wp_id webpage)) ;;
  num_rec_clicks <- external (EvDatabase "recommendations_clicks.count")
                             (count_recommendation_clicks vs (wp_id webpage)) ;;
  num_views <- external (EvDatabase "searches_clicks.count")
                        (count_views vs (wp_id webpage)) ;;
  ret (mk_display (wp_id webpage) None false
                  num_views (num__search_clicks + num_rec_clicks) 0
                  [] []
                  (or_else (wp_description webpage) "No Preview Available")
                  (wp_title webpage)
                  "webpage").

(** [any(str(community) in shared for community in user_communities)]:
    the loops of lines 547-548 and 1347-1349 stop at the first community
    of the user the submission is in. *)
Definition shares_a_community (user_communities : list string)
           (submission : submission_doc) : bool :=
  existsb (fun community => py_in community (all_communities_of submission))
          user_communities.

(** Lines 1333-1353: the loop over the connections of the submission. *)
Fixpoint filter_connections (vs : view_store) (user_communities : list string)
         (current_user : user) (search_id : string)
         (all_connections : list connection)
         (filtered_connections : list (display * string))
  : M (list (display * string)) :=
  match all_connections with
  | [] => ret filtered_connections
  | connection :: rest =>
      target_connection <- external (EvDatabase "logs.find_one")
                                    (find_log vs (cn_target_id connection)) ;;
      filtered_connections <-
        match target_connection with
        | None => ret filtered_connections
        | Some target_connection =>
            if l_deleted target_connection then ret filtered_connections
            else if shares_a_community user_communities (l_submission target_connection)
            then
              formatted_connection <-
                format_submission_for_display vs (l_submission target_connection)
                                              current_user search_id ;;
              ret (filtered_connections
                     ++ [(formatted_connection, cn_description connection)])%list
            else ret filtered_connections
        end ;;
      filter_connections vs user_communities current_user search_id rest
                         filtered_connections
  end.

(** Lines 1314-1354 *)
Definition find_connections (vs : view_store) (submission_id : string)
           (user_communities : list string) (current_user : user) (search_id : string)
  : M (list (display * string)) :=
  all_connections <- external (EvDatabase "connections.find")
                              (find_connections_of vs submission_id) ;;
  let filtered_connections := [] in
  filter_connections vs user_communities current_user search_id all_connections
                     filtered_connections.

(** Lines 549-552 and 556-559: log the view, format the submission and
    attach its connections. *)
Definition show_submission (vs : view_store) (current_user : user) (oid : string)
           (submission : submission_doc) : M view_response :=
  search_id <- external (EvDatabase "log_submission_view")
                        (log_submission_view vs (s_id submission)) ;;
  formatted <- format_submission_for_display vs submission current_user search_id ;;
  connections <- find_connections vs oid (communities_of current_user) current_user
                                  search_id ;;
  ret (Shown formatted connections).

(** Lines 530-579: GET. *)
Definition submission_GET (vs : view_store) (current_user : user) (id : string)
  : M view_response :=
  try_except
    (let user_id := user_id_of current_user in
     let communities := communities_of current_user in
     found <- try_except
                (oid <- object_id id ;;
                 submission <- external (EvDatabase "logs.find_one") (find_log vs oid) ;;
                 ret (Some (oid, submission)))
                (ret None) ;;
     match found with
     | None => ret (NotShown "Invalid submission ID" NOT_FOUND)
     | Some (oid, submission) =>
         (* [submission.deleted] raises on [None] *)
         let is_deleted :=
           match submission with
           | Some record => l_deleted record
           | None => false
           end in
         match submission with
         | Some record =>
             if negb is_deleted then
               let submission := l_submission record in
               if shares_a_community communities submission
               then show_submission vs current_user oid submission
               else
                 (* the user is the original submitter but it has been
                    removed from all communities *)
                 if s_user_id submission =? user_id
                 then show_submission vs current_user oid submission
                 else ret (NotShown "You do not have access to this submission."
                                    FORBIDDEN)
             else ret (NotShown "Cannot find submission." NOT_FOUND)
         | None =>
             shown <- try_except
                        (webpage <- external (EvDatabase "webpages.find_one")
                                             (find_webpage vs oid) ;;
                         match webpage with
                         | Some webpage =>
                             search_id <- external (EvDatabase "log_submission_view")
                                                   (log_submission_view vs
                                                      (wp_id webpage)) ;;
                             submission <- format_webpage_for_display vs webpage
                                                                      search_id ;;
                             ret (Some submission)
                         | None => ret None
                         end)
                        (ret None) ;;
             match shown with
             | Some submission => ret (Shown submission [])
             | None => ret (NotShown "Cannot find submission." NOT_FOUND)
             end
         end
     end)
    (ret (NotShown "Failed to create submission, please try again later."
                   INTERNAL_SERVER_ERROR)).
End Viewing.

(** A store of the view: [alice]'s core submission, connected to a
    submission of the database community and to a deleted one. *)
Definition foreign_submission_id : string := "64c000000000000000000002".
Definition deleted_submission_id : string := "64c000000000000000000003".

Definition foreign_submission : submission_doc :=
  mk_submission foreign_submission_id "63a4c201ee3be6ac5c533b03" "an index" ""
                "https://c.example" [("63a4c201ee3be6ac5c533b03", ["63a4c21aee3be6ac5c533a03"])].

Definition deleted_submission : submission_doc :=
  mk_submission deleted_submission_id (user_id_of alice) "gone" ""
                "https://d.example" [(user_id_of alice, [community_ml])].

Definition sample_view_store : view_store :=
  mk_view_store
    (fun id => if id =? core_submission_id
               then Returns (Some (mk_log_record core_submission false))
               else if id =? foreign_submission_id
               then Returns (Some (mk_log_record foreign_submission false))
               else if id =? deleted_submission_id
               then Returns (Some (mk_log_record deleted_submission true))
               else Returns None)
    (fun _ => Returns None)
    (fun id => if id =? core_submission_id
               then Returns [mk_connection foreign_submission_id "see also";
                             mk_connection deleted_submission_id "was here";
                             mk_connection core_submission_id "itself"]
               else Returns [])
    (fun _ => Returns "64d000000000000000000001")
    (fun _ => Returns 2)
    (fun _ => Returns 1)
    (fun _ => Returns 5)
    (Returns [(community_ml, "Machine learning"); (community_db, "Databases")]).

(** What [alice] gets to see of her core submission, which is connected to
    itself. *)
Definition core_submission_view : display :=
  mk_display core_submission_id (Some (user_id_of alice)) true 5 3 1
             [(community_ml, mk_choice "Machine learning" action_remove);
              (community_db, mk_choice "Databases" action_save)]
             [(community_ml, "Machine learning")]
             "" (Some "a classic #core #ml") "user_submission".

(** An entry of the connections shown: it stands for one of the
    connections [all_connections], with its description, whose target is on
    record, not deleted, and in a community of the requester. *)
Definition visible_connection (vs : view_store) (user_communities : list string)
           (all_connections : list connection) (entry : display * string) : Prop :=
  exists connection record,
    In connection all_connections
    /\ cn_description connection = snd entry
    /\ find_log vs (cn_target_id connection) = Returns (Some record)
    /\ l_deleted record = false
    /\ d_submission_id (fst entry) = s_id (l_submission record)
    /\ exists community,
         In community user_communities
         /\ In community (all_communities_of (l_submission record)).

(* ================================================================== *)
(** * Recommendations (lines 767-946) *)
(* ================================================================== *)

(** [request.args] of a recommendation request; [rq_method] carries its
    default ["explore_similar_extension"] when absent. *)
Record recommend_request : Type := mk_recommend_request {
  rq_method : string;
  rq_page : page_arg;
  rq_recommendation_id : option string
}.

(** The services only the recommender uses: the log of recommendation
    requests, the most recent submissions of the index, and the two
    lookups of the explore mode, which come sorted by time, latest first. *)
Record recommender : Type := mk_recommender {
  log_recommendation_request : outcome string;
  get_most_recent_submissions : string -> list string -> outcome (nat * list hit);
  find_user_submissions : string -> outcome (list recent_submission);
  find_extension_opens : string -> outcome (list (option string))
}.

(** The dictionary [return_obj] of [get_recommendations]. *)
Record recommend_obj : Type := mk_recommend_obj {
  rc_recommendation_id : string;
  rc_total_num_results : nat;
  rc_current_page : nat;
  rc_recommendation_results_page : list item
}.

(** [json.dumps(return_obj), 200] and [response.error(message, status)] *)
Inductive recommend_response : Type :=
| Recommended (obj : recommend_obj)
| NotRecommended (message : string) (st : status).

(** [xs.remove(x)]: the first occurrence goes. *)
Fixpoint py_remove (x : string) (xs : list string) : list string :=
  match xs with
  | [] => []
  | y :: xs' => if y =? x then xs' else y :: py_remove x xs'
  end.

Section Recommendations.
Context {E : Externals}.

(** [create_page(hits, rc_dict, toggle_display="preview")], a helper of
    another module. *)
Variable create_preview_page : list hit -> dict string -> list item.

(** Lines 842-929: the recommendations of a fresh request, by method.
    The value is what the branch leaves in [number_of_hits] and [page];
    a method that is neither of the two leaves them unbound, and line 938
    raises. *)
Definition fresh_recommendations (w : world) (rw : recommender) (user_id_str : string)
           (toggle_webpage_results : bool) (method recommendation_id : string)
           (page_number : nat) (requested_communities : list string)
           (communities rc_dict : dict string) : M (nat * list item) :=
  if method =? "recent" then
    '(number_of_hits, hits) <-
      external (EvDatabase "elastic.get_most_recent_submissions")
               (get_most_recent_submissions rw user_id_str requested_communities) ;;
    let pages := create_preview_page hits rc_dict in
    let pages := hydrate_with_hash_url pages recommendation_id method in
    let pages := hydrate_with_hashtags pages in
    page <- Cache_insert user_id_str recommendation_id pages page_number ;;
    ret (number_of_hits, page)
  else if method =? "explore_similar_extension" then
    user_latest_submissions <-
      try_except (external (EvDatabase "logs.find") (find_user_submissions rw user_id_str))
                 (ret []) ;;
    users_extension_opens <-
      try_except (external (EvDatabase "searches_clicks.find")
                           (find_extension_opens rw user_id_str))
                 (ret []) ;;
    let search_text := explore_search_text user_latest_submissions users_extension_opens in
    '(number_of_hits, submissions_hits) <-
      external (EvSubmissionsSearch search_text (dict_keys communities))
               (elastic_search w search_text (dict_keys communities) 0 50) ;;
    let submissions_pages := create_preview_page submissions_hits rc_dict in
    submissions_pages <-
      (if toggle_webpage_results
       then '(_, webpages_hits) <-
              external (EvWebpagesSearch search_text)
                       (webpages_search w search_text [] 0 50) ;;
            let webpages_index_pages := create_preview_page webpages_hits rc_dict in
            ret (combine_pages submissions_pages webpages_index_pages)
       else ret submissions_pages) ;;
    let pages := sorted_by_score submissions_pages in
    let pages := deduplicate pages in
    let pages := hydrate_with_hash_url pages recommendation_id method in
    let pages := hydrate_with_hashtags pages in
    page <- Cache_insert user_id_str recommendation_id pages page_number ;;
    ret (number_of_hits, page)
  else raise.

(** Lines 767-946 *)
Definition get_recommendations (w : world) (rw : recommender) (current_user : user)
           (toggle_webpage_results : bool) (req : recommend_request)
  : M recommend_response :=
  try_except
    (let user_id := user_id_of current_user in
     let user_communities := communities_of current_user in
     let CDLweb_community_id := web_community in
     let method := rq_method req in
     page_number <- match rq_page req with
                    | PageAbsent | PageUndefined => ret 0
                    | PageInt z => ret (Z.to_nat (Z.max 0 z))
                    | PageMalformed => raise
                    end ;;
     let recommendation_id := rq_recommendation_id req in
     let requested_communities := user_communities in
     let requested_communities :=
       if py_in CDLweb_community_id requested_communities
       then py_remove CDLweb_community_id requested_communities
       else requested_communities in
     cache <- try_except (Cache w ;; ret (Some tt)) (ret None) ;;
     match cache with
     | None =>
         ret (NotRecommended "Cannot provide recommendations, please try again later."
                             INTERNAL_SERVER_ERROR)
     | Some _ =>
         let user_id_str := user_id in
         communities <- external EvCommunityInfo (community_info w) ;;
         let rc_dict := build_rc_dict communities requested_communities [] in
         '(recommendation_id, number_of_hits, page) <-
           (if negb (arg_truthy recommendation_id) then
              recommendation_id <- external (EvDatabase "log_recommendation_request")
                                            (log_recommendation_request rw) ;;
              '(number_of_hits, page) <-
                fresh_recommendations w rw user_id_str toggle_webpage_results method
                                      recommendation_id page_number
                                      requested_communities communities rc_dict ;;
              ret (recommendation_id, number_of_hits, page)
            else
              let recommendation_id := or_else recommendation_id "" in
              '(number_of_hits, page) <-
                Cache_search w user_id_str recommendation_id page_number ;;
              ret (recommendation_id, number_of_hits, page)) ;;
         ret (Recommended (mk_recommend_obj recommendation_id number_of_hits
                                            page_number page))
     end)
    (ret (NotRecommended "Failed to get recommendation, please try again later."
                         INTERNAL_SERVER_ERROR)).
End Recommendations.

(** The same recommender with another index of recent submissions, and
    with other lookups for the explore mode. *)
Definition with_recent (rw : recommender)
           (recent : string -> list string -> outcome (nat * list hit)) : recommender :=
  mk_recommender (log_recommendation_request rw) recent
                 (find_user_submissions rw) (find_extension_opens rw).

Definition with_lookups (rw : recommender)
           (submissions : string -> outcome (list recent_submission))
           (opens : string -> outcome (list (option string))) : recommender :=
  mk_recommender (log_recommendation_request rw) (get_most_recent_submissions rw)
                 submissions opens.

Definition sample_recommender : recommender :=
  mk_recommender (Returns "64e000000000000000000001")
                 (fun _ _ => Returns (2, [hit_A; hit_B]))
                 (fun _ => Returns [])
                 (fun _ => Returns []).

(** [carol] is a member of the machine-learning community and of the web
    community. *)
Definition carol : user :=
  mk_user "63a4c201ee3be6ac5c533b04" [community_ml; web_community].

(** A lookup that raises, taken as one that found nothing. *)
Definition found_nothing_on_failure {A} (lookup : string -> outcome (list A))
  : string -> outcome (list A) :=
  fun user_id => match lookup user_id with
                 | Raises => Returns []
                 | found => found
                 end.

(** The external calls of a request for a further page of
    recommendations. *)
Definition paging_event (e : event) : Prop :=
  e = EvCacheConnect \/ e = EvCommunityInfo.

(** The id of the web community, spelled in upper case. *)
Definition web_community_upper : string := "63A4C21AEE3BE6AC5C533A55".

(* ================================================================== *)
(** * Facts about sorting and deduplication *)
(* ================================================================== *)

Lemma Qltb_true (a b : Q) : Qltb a b = true <-> Qlt a b.
Proof.
  unfold Qltb. rewrite negb_true_iff. split; intro H.
  - apply Qnot_le_lt. intro Hle. apply Qle_bool_iff in Hle. congruence.
  - destruct (Qle_bool b a) eqn:Hb; [|reflexivity].
    apply Qle_bool_iff in Hb. exfalso. exact (Qlt_not_le _ _ H Hb).
Qed.

Lemma Qltb_false (a b : Q) : Qltb a b = false <-> Qle b a.
Proof.
  unfold Qltb. rewrite negb_false_iff. apply Qle_bool_iff.
Qed.

Lemma Qle_bool_false (a b : Q) : Qle_bool a b = false <-> Qlt b a.
Proof.
  split; intro H.
  - apply Qnot_le_lt. intro Hle. apply Qle_bool_iff in Hle. congruence.
  - destruct (Qle_bool a b) eqn:Hb; [|reflexivity].
    apply Qle_bool_iff in Hb. exfalso. exact (Qlt_not_le _ _ H Hb).
Qed.

Lemma same_url_true (x y : item) :
  same_url x y = true <-> canonical_url x = canonical_url y.
Proof. unfold same_url. apply String.eqb_eq. Qed.

Lemma In_insert_by_score (x y : item) (l : list item) :
  In y (insert_by_score x l) <-> y = x \/ In y l.
Proof.
  induction l as [|z l IH]; simpl.
  - intuition.
  - destruct (Qltb (score x) (score z)); simpl; rewrite ?IH; intuition.
Qed.

Lemma insert_by_score_sorted (x : item) (l : list item) :
  desc_sorted l -> desc_sorted (insert_by_score x l).
Proof.
  unfold desc_sorted. induction l as [|z l IH]; intros Hs; simpl.
  - constructor; constructor.
  - inversion Hs as [|? ? Hs' Hall]; subst.
    destruct (Qltb (score x) (score z)) eqn:Hlt.
    + constructor; [auto|].
      apply Forall_forall. intros y Hy. apply In_insert_by_score in Hy.
      destruct Hy as [->|Hy].
      * apply Qlt_le_weak, Qltb_true, Hlt.
      * rewrite Forall_forall in Hall. auto.
    + apply Qltb_false in Hlt. constructor; [assumption|].
      constructor; [assumption|].
      rewrite Forall_forall in *. intros y Hy.
      apply Qle_trans with (score z); auto.
Qed.

Lemma sorted_by_score_sorted (l : list item) : desc_sorted (sorted_by_score l).
Proof.
  induction l as [|x l IH]; simpl.
  - constructor.
  - apply insert_by_score_sorted, IH.
Qed.

Lemma insert_by_score_perm (x : item) (l : list item) :
  Permutation (x :: l) (insert_by_score x l).
Proof.
  induction l as [|z l IH]; simpl; [reflexivity|].
  destruct (Qltb (score x) (score z)); [|reflexivity].
  rewrite perm_swap. constructor. exact IH.
Qed.

Lemma sorted_by_score_perm (l : list item) : Permutation l (sorted_by_score l).
Proof.
  induction l as [|x l IH]; simpl; [constructor|].
  rewrite <- insert_by_score_perm. constructor. exact IH.
Qed.

(** [outranked] read as a statement. *)
Lemma outranked_false (b : list item) (x : item) (a : list item) :
  outranked b x a = false <->
  (forall y, In y b -> canonical_url y = canonical_url x -> Qlt (score y) (score x))
  /\ (forall y, In y a -> canonical_url y = canonical_url x -> Qle (score y) (score x)).
Proof.
  unfold outranked. rewrite orb_false_iff. split.
  - intros [Hb Ha]. split; intros y Hy Hu.
    + apply Qle_bool_false.
      destruct (Qle_bool (score x) (score y)) eqn:Hq; [|reflexivity].
      assert (Hex : existsb (fun y => same_url y x && Qle_bool (score x) (score y)) b = true).
      { apply existsb_exists. exists y. split; [assumption|].
        rewrite Hq, andb_true_r. apply same_url_true, Hu. }
      congruence.
    + apply Qltb_false.
      destruct (Qltb (score x) (score y)) eqn:Hq; [|reflexivity].
      assert (Hex : existsb (fun y => same_url y x && Qltb (score x) (score y)) a = true).
      { apply existsb_exists. exists y. split; [assumption|].
        rewrite Hq, andb_true_r. apply same_url_true, Hu. }
      congruence.
  - intros [Hb Ha]. split.
    + destruct (existsb _ b) eqn:Hex; [|reflexivity].
      apply existsb_exists in Hex. destruct Hex as [y [Hy Hc]].
      apply andb_true_iff in Hc. destruct Hc as [Hu Hq].
      apply same_url_true in Hu. apply Qle_bool_iff in Hq.
      exfalso. exact (Qlt_not_le _ _ (Hb y Hy Hu) Hq).
    + destruct (existsb _ a) eqn:Hex; [|reflexivity].
      apply existsb_exists in Hex. destruct Hex as [y [Hy Hc]].
      apply andb_true_iff in Hc. destruct Hc as [Hu Hq].
      apply same_url_true in Hu. apply Qltb_true in Hq.
      exfalso. exact (Qlt_not_le _ _ Hq (Ha y Hy Hu)).
Qed.

Lemma outranked_true (b : list item) (x : item) (a : list item) :
  outranked b x a = true ->
  (exists y, In y b /\ canonical_url y = canonical_url x /\ Qle (score x) (score y))
  \/ (exists y, In y a /\ canonical_url y = canonical_url x /\ Qlt (score x) (score y)).
Proof.
  unfold outranked. intro H. apply orb_true_iff in H.
  destruct H as [H|H]; apply existsb_exists in H; destruct H as [y [Hy Hc]];
    apply andb_true_iff in Hc; destruct Hc as [Hu Hq]; apply same_url_true in Hu.
  - left. exists y. apply Qle_bool_iff in Hq. auto.
  - right. exists y. apply Qltb_true in Hq. auto.
Qed.

Lemma In_dedup_from (b l : list item) (y : item) :
  In y (dedup_from b l) -> In y l.
Proof.
  revert b. induction l as [|x l IH]; intros b; simpl; [auto|].
  destruct (outranked b x l); simpl; intros H.
  - right. eauto.
  - destruct H as [H|H]; [auto|right; eauto].
Qed.

(** A survivor scores strictly more than every item of its group that came
    before the scanned list. *)
Lemma dedup_from_beats_before (b l : list item) (y z : item) :
  In y (dedup_from b l) -> In z b -> canonical_url z = canonical_url y ->
  Qlt (score z) (score y).
Proof.
  revert b. induction l as [|x l IH]; intros b; simpl; [tauto|].
  destruct (outranked b x l) eqn:Ho; simpl; intros Hy Hz Hu.
  - apply (IH (x :: b)); simpl; auto.
  - destruct Hy as [<-|Hy].
    + apply outranked_false in Ho. destruct Ho as [Hb _]. auto.
    + apply (IH (x :: b)); simpl; auto.
Qed.

Lemma dedup_from_NoDup (b l : list item) :
  NoDup (map canonical_url (dedup_from b l)).
Proof.
  revert b. induction l as [|x l IH]; intros b; simpl; [constructor|].
  destruct (outranked b x l) eqn:Ho; [apply IH|].
  simpl. constructor; [|apply IH].
  intro Hin. apply in_map_iff in Hin. destruct Hin as [y [Hu Hy]].
  assert (Hlt : Qlt (score x) (score y)).
  { apply (dedup_from_beats_before (x :: b) l y x); simpl; auto. }
  apply outranked_false in Ho. destruct Ho as [_ Ha].
  apply In_dedup_from in Hy.
  exact (Qlt_not_le _ _ Hlt (Ha y Hy Hu)).
Qed.

(** A list whose URLs are pairwise distinct, and distinct from the ones
    seen before, is left as it is. *)
Lemma dedup_from_fixed (b l : list item) :
  NoDup (map canonical_url l) ->
  (forall x y, In x b -> In y l -> canonical_url x <> canonical_url y) ->
  dedup_from b l = l.
Proof.
  revert b. induction l as [|x l IH]; intros b Hnd Hdis; simpl; [reflexivity|].
  inversion Hnd as [|? ? Hx Hnd']; subst.
  assert (Ho : outranked b x l = false).
  { apply outranked_false. split; intros y Hy Hu.
    - exfalso. apply (Hdis y x); simpl; auto.
    - exfalso. apply Hx. rewrite <- Hu. apply in_map. exact Hy. }
  rewrite Ho. f_equal. apply IH; [assumption|].
  intros z y [<-|Hz] Hy Hu.
  - apply Hx. rewrite Hu. apply in_map. exact Hy.
  - apply (Hdis z y); simpl; auto.
Qed.

(** Every item of the list is represented by a survivor of its group that
    scores at least as much, unless an item seen before already does. *)
Lemma dedup_from_covers (b l : list item) (x : item) :
  In x l ->
  (exists y, In y (dedup_from b l) /\ canonical_url y = canonical_url x
             /\ Qle (score x) (score y))
  \/ (exists z, In z b /\ canonical_url z = canonical_url x /\ Qle (score x) (score z)).
Proof.
  revert b x. induction l as [|h l IH]; intros b x Hx; [destruct Hx|].
  assert (Hhead :
    (exists y, In y (dedup_from b (h :: l)) /\ canonical_url y = canonical_url h
               /\ Qle (score h) (score y))
    \/ (exists z, In z b /\ canonical_url z = canonical_url h /\ Qle (score h) (score z))).
  { simpl. destruct (outranked b h l) eqn:Ho.
    - apply outranked_true in Ho. destruct Ho as [[z [Hz [Hu Hq]]]|[z [Hz [Hu Hq]]]].
      + right. exists z. auto.
      + destruct (IH (h :: b) z Hz) as [[y [Hy [Hu' Hq']]]|[z' [Hz' [Hu' Hq']]]].
        * left. exists y. split; [assumption|]. split; [congruence|].
          apply Qle_trans with (score z); [apply Qlt_le_weak|]; assumption.
        * destruct Hz' as [<-|Hz'].
          -- exfalso. exact (Qlt_not_le _ _ Hq Hq').
          -- right. exists z'. split; [assumption|]. split; [congruence|].
             apply Qle_trans with (score z); [apply Qlt_le_weak|]; assumption.
    - left. exists h. simpl. split; [auto|]. split; [reflexivity|apply Qle_refl]. }
  destruct Hx as [<-|Hx]; [exact Hhead|].
  destruct (IH (h :: b) x Hx) as [[y [Hy [Hu Hq]]]|[z [Hz [Hu Hq]]]].
  - left. exists y. split; [|auto].
    simpl. destruct (outranked b h l); simpl; auto.
  - destruct Hz as [<-|Hz].
    + destruct Hhead as [[y [Hy [Hu' Hq']]]|[z' [Hz' [Hu' Hq']]]].
      * left. exists y. split; [assumption|]. split; [congruence|].
        apply Qle_trans with (score h); assumption.
      * right. exists z'. split; [assumption|]. split; [congruence|].
        apply Qle_trans with (score h); assumption.
    + right. exists z. auto.
Qed.

Lemma dedup_from_sorted (b l : list item) :
  desc_sorted l -> desc_sorted (dedup_from b l).
Proof.
  unfold desc_sorted. revert b. induction l as [|x l IH]; intros b Hs; simpl.
  - constructor.
  - inversion Hs as [|? ? Hs' Hall]; subst.
    destruct (outranked b x l); [apply IH; assumption|].
    constructor; [apply IH; assumption|].
    rewrite Forall_forall in *. intros y Hy. apply Hall.
    eapply In_dedup_from. exact Hy.
Qed.

Lemma deduplicate_idempotent (l : list item) :
  deduplicate (deduplicate l) = deduplicate l.
Proof.
  unfold deduplicate. apply dedup_from_fixed.
  - apply dedup_from_NoDup.
  - intros x y [].
Qed.

Lemma desc_sorted_by_scores (l1 l2 : list item) :
  map score l1 = map score l2 -> desc_sorted l1 -> desc_sorted l2.
Proof.
  unfold desc_sorted. revert l2.
  induction l1 as [|x l1 IH]; intros [|y l2] Heq Hs; try discriminate; [constructor|].
  simpl in Heq. injection Heq as Hxy Heq.
  inversion Hs as [|? ? Hs' Hall]; subst.
  constructor; [apply IH; assumption|].
  rewrite Forall_forall in *. intros z Hz. rewrite <- Hxy.
  assert (Hin : In (score z) (map score l1)).
  { rewrite Heq. apply in_map. exact Hz. }
  apply in_map_iff in Hin. destruct Hin as [z' [Hzz' Hz']].
  rewrite <- Hzz'. apply Hall. exact Hz'.
Qed.

Lemma In_firstn {A} (n : nat) (l : list A) (x : A) :
  In x (firstn n l) -> In x l.
Proof.
  revert n. induction l as [|y l IH]; intros [|n]; simpl; try tauto.
  intros [H|H]; [auto|right; eauto].
Qed.

Lemma desc_sorted_firstn (n : nat) (l : list item) :
  desc_sorted l -> desc_sorted (firstn n l).
Proof.
  unfold desc_sorted. revert n.
  induction l as [|x l IH]; intros [|n] Hs; simpl; try constructor.
  - inversion Hs; subst. apply IH. assumption.
  - inversion Hs as [|? ? Hs' Hall]; subst.
    rewrite Forall_forall in *. intros y Hy. apply Hall.
    eapply In_firstn. exact Hy.
Qed.

Lemma desc_sorted_skipn (n : nat) (l : list item) :
  desc_sorted l -> desc_sorted (skipn n l).
Proof.
  unfold desc_sorted. revert l.
  induction n as [|n IH]; intros [|x l] Hs; simpl; try assumption.
  inversion Hs; subst. apply IH. assumption.
Qed.

Lemma page_slice_sorted (full : list item) (index : nat) :
  desc_sorted full -> desc_sorted (page_slice full index).
Proof.
  intro Hs. unfold page_slice. apply desc_sorted_firstn, desc_sorted_skipn, Hs.
Qed.

Section HydrationFacts.
Context {E : Externals}.

Lemma hydrate_from_urls (sid method : string) (rank : nat) (l : list item) :
  map canonical_url (hydrate_from sid method rank l) = map canonical_url l.
Proof.
  revert rank. induction l as [|x l IH]; intros rank; simpl; [reflexivity|].
  now rewrite IH.
Qed.

Lemma hydrate_from_scores (sid method : string) (rank : nat) (l : list item) :
  map score (hydrate_from sid method rank l) = map score l.
Proof.
  revert rank. induction l as [|x l IH]; intros rank; simpl; [reflexivity|].
  now rewrite IH.
Qed.

Lemma hydrate_from_ids (sid method : string) (rank : nat) (l : list item) :
  map submission_id (hydrate_from sid method rank l) = map submission_id l.
Proof.
  revert rank. induction l as [|x l IH]; intros rank; simpl; [reflexivity|].
  now rewrite IH.
Qed.

Lemma hydrate_with_hashtags_urls (l : list item) :
  map canonical_url (hydrate_with_hashtags l) = map canonical_url l.
Proof. unfold hydrate_with_hashtags. rewrite map_map. reflexivity. Qed.

Lemma hydrate_with_hashtags_scores (l : list item) :
  map score (hydrate_with_hashtags l) = map score l.
Proof. unfold hydrate_with_hashtags. rewrite map_map. reflexivity. Qed.

Lemma hydrate_with_hashtags_ids (l : list item) :
  map submission_id (hydrate_with_hashtags l) = map submission_id l.
Proof. unfold hydrate_with_hashtags. rewrite map_map. reflexivity. Qed.

Lemma fuse_urls (pages : list item) (sid : string) :
  map canonical_url (fuse pages sid)
  = map canonical_url (deduplicate (sorted_by_score pages)).
Proof.
  unfold fuse, hydrate_with_hash_url.
  now rewrite hydrate_with_hashtags_urls, hydrate_from_urls.
Qed.

Lemma fuse_scores (pages : list item) (sid : string) :
  map score (fuse pages sid) = map score (deduplicate (sorted_by_score pages)).
Proof.
  unfold fuse, hydrate_with_hash_url.
  now rewrite hydrate_with_hashtags_scores, hydrate_from_scores.
Qed.

Lemma fuse_ids (pages : list item) (sid : string) :
  map submission_id (fuse pages sid)
  = map submission_id (deduplicate (sorted_by_score pages)).
Proof.
  unfold fuse, hydrate_with_hash_url.
  now rewrite hydrate_with_hashtags_ids, hydrate_from_ids.
Qed.

Lemma hydrate_from_keys (sid method : string) (rank : nat) (l : list item) :
  map (fun x => (canonical_url x, score x)) (hydrate_from sid method rank l)
  = map (fun x => (canonical_url x, score x)) l.
Proof.
  revert rank. induction l as [|x l IH]; intros rank; simpl; [reflexivity|].
  now rewrite IH.
Qed.

Lemma fuse_keys (pages : list item) (sid : string) :
  map (fun x => (canonical_url x, score x)) (fuse pages sid)
  = map (fun x => (canonical_url x, score x)) (deduplicate (sorted_by_score pages)).
Proof.
  unfold fuse, hydrate_with_hash_url, hydrate_with_hashtags.
  rewrite map_map. cbn [canonical_url score]. apply hydrate_from_keys.
Qed.

(** Every candidate is represented in the fused list by an item of its URL
    that scores at least as much. *)
Lemma fuse_covers (pages : list item) (sid : string) (x : item) :
  In x pages ->
  exists y, In y (fuse pages sid) /\ canonical_url y = canonical_url x
            /\ Qle (score x) (score y).
Proof.
  intro Hx.
  assert (Hs : In x (sorted_by_score pages)).
  { exact (Permutation_in x (sorted_by_score_perm pages) Hx). }
  destruct (dedup_from_covers [] (sorted_by_score pages) x Hs)
    as [[y0 [Hy0 [Hu Hq]]]|[z [[] _]]].
  assert (Hk : In (canonical_url y0, score y0)
                  (map (fun x => (canonical_url x, score x)) (fuse pages sid))).
  { rewrite fuse_keys. apply (in_map (fun x => (canonical_url x, score x))). exact Hy0. }
  apply in_map_iff in Hk. destruct Hk as [y [Hy Hin]].
  injection Hy as Hyu Hys. exists y. split; [exact Hin|].
  split; [congruence|]. rewrite Hys. exact Hq.
Qed.

Lemma fuse_NoDup (pages : list item) (sid : string) :
  NoDup (map canonical_url (fuse pages sid)).
Proof. rewrite fuse_urls. apply dedup_from_NoDup. Qed.

Lemma fuse_sorted (pages : list item) (sid : string) :
  desc_sorted (fuse pages sid).
Proof.
  apply desc_sorted_by_scores with (deduplicate (sorted_by_score pages)).
  - symmetry. apply fuse_scores.
  - apply dedup_from_sorted, sorted_by_score_sorted.
Qed.
End HydrationFacts.

(* ================================================================== *)
(** * Reasoning about handlers *)
(* ================================================================== *)


Lemma keeps_ret {A} (I : process -> Prop) (a : A) : keeps I (ret a).
Proof. intros p H. exact H. Qed.

Lemma keeps_raise {A} (I : process -> Prop) : keeps I (@raise A).
Proof. intros p H. exact H. Qed.

Lemma keeps_bind {A B} (I : process -> Prop) (c : M A) (k : A -> M B) :
  keeps I c -> (forall a, keeps I (k a)) -> keeps I (bind c k).
Proof.
  intros Hc Hk p H. unfold bind. specialize (Hc p H).
  destruct (c p) as [[a|] p']; simpl in *; [apply Hk|]; assumption.
Qed.

Lemma keeps_try_except {A} (I : process -> Prop) (c h : M A) :
  keeps I c -> keeps I h -> keeps I (try_except c h).
Proof.
  intros Hc Hh p H. unfold try_except. specialize (Hc p H).
  destruct (c p) as [[a|] p']; simpl in *; [|apply Hh]; assumption.
Qed.

Lemma keeps_external {A} (I : process -> Prop) (e : event) (r : outcome A) :
  (forall p, I p -> I (log_event e p)) -> keeps I (external e r).
Proof. intros He p H. apply He, H. Qed.

Lemma keeps_get_neural_api (I : process -> Prop) : keeps I get_neural_api.
Proof. intros p H. exact H. Qed.

Lemma keeps_Cache_search (I : process -> Prop) (w : world) (u s : string) (i : nat) :
  keeps I (Cache_search w u s i).
Proof.
  intros p H. unfold Cache_search.
  destruct (store_get (cache_store p) (u, s)); [destruct (cache_alive w u s)|]; exact H.
Qed.

Lemma keeps_object_id (I : process -> Prop) (s : string) : keeps I (object_id s).
Proof.
  unfold object_id. destruct (ObjectId s); [apply keeps_ret|apply keeps_raise].
Qed.

Lemma bind_run {A B} (c : M A) (k : A -> M B) (p : process) :
  bind c k p = match c p with
               | (Returns a, p') => k a p'
               | (Raises, p') => (Raises, p')
               end.
Proof. reflexivity. Qed.

Lemma external_run {A} (e : event) (r : outcome A) (p : process) :
  external e r p = (r, log_event e p).
Proof. reflexivity. Qed.

(** One step of a proof that a handler keeps an invariant: follow the
    structure of the handler. *)
Ltac keeps_step :=
  match goal with
  | |- keeps _ (bind _ _) => apply keeps_bind; [|intros]
  | |- keeps _ (ret _) => apply keeps_ret
  | |- keeps _ raise => apply keeps_raise
  | |- keeps _ (try_except _ _) => apply keeps_try_except
  | |- keeps _ get_neural_api => apply keeps_get_neural_api
  | |- keeps _ (Cache_search _ _ _ _) => apply keeps_Cache_search
  | |- keeps _ (object_id _) => apply keeps_object_id
  | |- keeps _ (match ?x with _ => _ end) => destruct x
  end.


Section Invariants.
Context {E : Externals}.
Variable I : process -> Prop.
Hypothesis I_log : forall e p, quiet e = true -> I p -> I (log_event e p).

Lemma keeps_quiet {A} (e : event) (r : outcome A) :
  quiet e = true -> keeps I (external e r).
Proof. intro Hq. apply keeps_external. intros p. apply I_log, Hq. Qed.

Lemma keeps_core_retrieve (w : world) (url : string) (ids : list string)
      (hits : list hit) :
  keeps I (core_retrieve w url ids hits).
Proof.
  revert hits. induction ids as [|c ids IH]; intros hits; simpl.
  - apply keeps_ret.
  - apply keeps_bind; [apply keeps_quiet; reflexivity|]. intros core.
    apply keeps_bind; [|intros; apply IH].
    destruct core as [content|]; [|apply keeps_ret].
    destruct (dict_get content url); [|apply keeps_ret].
    apply keeps_bind; [apply keeps_quiet; reflexivity|].
    intros [n core_hits]. apply keeps_ret.
Qed.

Lemma keeps_search_setup (w : world) (u : user) (req : search_request) :
  keeps I (search_setup w u req).
Proof.
  unfold search_setup.
  destruct (derive_query _ _ _ _) as [query ucr].
  repeat first [ apply keeps_quiet; reflexivity | keeps_step ].
Qed.

Variable w : world.
Hypothesis I_rerank : forall pages q, keeps I (rerank_step w pages q).
Hypothesis I_insert :
  forall u s pages i, keeps I (Cache_insert u s (fuse pages s) i).

(** [cache_search] keeps [I] when the invariant tolerates the query to
    the webpages index, or the query is switched off. *)
Lemma keeps_cache_search (q sid : string) (idx : nat) (comms : dict string)
      (uid : string) (own toggle : bool) (ucr : option string) :
  (toggle = true -> forall query p, I p -> I (log_event (EvWebpagesSearch query) p)) ->
  keeps I (cache_search w q sid idx comms uid own toggle ucr).
Proof.
  intros Hweb. unfold cache_search, redo_search, Cache.
  destruct (own || (q =? "")).
  - repeat first [ apply keeps_quiet; reflexivity | keeps_step ].
  - apply keeps_bind.
    { repeat first [ apply keeps_quiet; reflexivity | keeps_step ]. }
    intros cache. apply keeps_bind.
    { destruct cache; [apply keeps_Cache_search|apply keeps_ret]. }
    intros [n page]. destruct page; [|apply keeps_ret].
    apply keeps_bind; [apply keeps_quiet; reflexivity|]. intros [n0 hits].
    apply keeps_bind.
    { destruct ucr; [apply keeps_core_retrieve|apply keeps_ret]. }
    intros hits'. apply keeps_bind.
    { destruct toggle.
      - apply keeps_bind; [|intros [? ?]; apply keeps_ret].
        apply keeps_external. intros p. apply Hweb. reflexivity.
      - apply keeps_ret. }
    intros pages. apply keeps_bind; [apply I_rerank|]. intros reranked.
    apply keeps_bind; [|intros; apply keeps_ret].
    destruct cache; [apply I_insert|apply keeps_raise].
Qed.

Hypothesis I_web : forall query p, I p -> I (log_event (EvWebpagesSearch query) p).

Lemma keeps_search (u : user) (req : search_request) :
  keeps I (search w u req).
Proof.
  unfold search, search_body, run_cache_search.
  apply keeps_try_except; [|apply keeps_ret].
  apply keeps_bind; [apply keeps_search_setup|].
  intros [resp|c]; [apply keeps_ret|].
  apply keeps_bind; [|intros [? ?]; apply keeps_ret].
  apply keeps_cache_search. intros _. exact I_web.
Qed.
End Invariants.

Lemma keeps_serve {E : Externals} (I : process -> Prop)
      (requests : list (world * user * search_request)) :
  (forall w u req, keeps I (search w u req)) ->
  forall p, I p -> I (snd (serve requests p)).
Proof.
  intros Hsearch. induction requests as [|[[w u] req] rest IH]; intros p H; simpl;
    [exact H|].
  pose proof (Hsearch w u req p H) as H'.
  destruct (search w u req p) as [[resp|] p']; simpl in H';
    specialize (IH p' H'); destruct (serve rest p') as [resps p'']; exact IH.
Qed.

(** What the rerank block does to the process, case by case. *)
Lemma rerank_step_run {E : Externals} (w : world) (pages : list item) (q : string)
      (p : process) :
  rerank_step w pages q p =
  match neural_api p with
  | None => (Returns None, p)
  | Some base =>
      let e := base ++ "neural/rerank/" in
      let p1 := log_event (EvRerank e pages q) p in
      match rerank_post w e pages q with
      | PostRaises => (Returns None, without_reranker p1)
      | PostResponds code body =>
          if Nat.eqb code 200
          then match body with
               | BodyJson (Some pages') => (Returns (Some pages'), p1)
               | _ => (Returns None, without_reranker p1)
               end
          else (Returns None, p1)
      end
  end.
Proof.
  unfold rerank_step, bind, get_neural_api, try_except, external.
  destruct (neural_api p) as [base|] eqn:Henv; [|reflexivity].
  cbv zeta.
  destruct (rerank_post w (base ++ "neural/rerank/") pages q) as [|code body];
    [reflexivity|].
  destruct (Nat.eqb code 200); [|reflexivity].
  destruct body as [|[pages'|]]; reflexivity.
Qed.

Lemma rerank_step_returns {E : Externals} (w : world) (pages : list item) (q : string)
      (p : process) :
  exists r p', rerank_step w pages q p = (Returns r, p')
               /\ cache_store p' = cache_store p.
Proof.
  rewrite rerank_step_run.
  destruct (neural_api p) as [base|]; [|eauto].
  cbv zeta. destruct (rerank_post w _ pages q) as [|code body]; [eauto|].
  destruct (Nat.eqb code 200); [|eauto].
  destruct body as [|[pages'|]]; eauto.
Qed.

Lemma store_get_put (store : list ((string * string) * list item))
      (k k' : string * string) (v full : list item) :
  store_get (store_put store k v) k' = Some full ->
  full = v \/ store_get store k' = Some full.
Proof.
  unfold store_put. simpl. destruct (key_eqb k k') eqn:Hk.
  - intros [= <-]. left. reflexivity.
  - intro H. right. induction store as [|[k0 v0] store IH]; simpl in *; [discriminate|].
    destruct (key_eqb k0 k) eqn:Hk0; simpl in H.
    + destruct (key_eqb k0 k') eqn:Hk0'.
      * exfalso. unfold key_eqb in *.
        apply andb_true_iff in Hk0, Hk0'. destruct Hk0 as [A1 A2], Hk0' as [B1 B2].
        apply String.eqb_eq in A1, A2, B1, B2.
        assert (Hkk : (fst k =? fst k') && (snd k =? snd k') = true).
        { rewrite <- A1, <- A2, B1, B2, !String.eqb_refl. reflexivity. }
        congruence.
      * apply IH, H.
    + destruct (key_eqb k0 k'); [assumption|apply IH, H].
Qed.

(* ------------------------------------------------------------------ *)
(** ** Handlers that read nothing but the session cache *)
(* ------------------------------------------------------------------ *)


Lemma sim_ret {A} (a : A) : sim (ret a) (ret a).
Proof. intros p1 p2 H. simpl. auto. Qed.

Lemma sim_raise {A} : sim (@raise A) (@raise A).
Proof. intros p1 p2 H. simpl. auto. Qed.

Lemma sim_bind {A B} (c1 c2 : M A) (k1 k2 : A -> M B) :
  sim c1 c2 -> (forall a, sim (k1 a) (k2 a)) -> sim (bind c1 k1) (bind c2 k2).
Proof.
  intros Hc Hk p1 p2 H. unfold bind. destruct (Hc p1 p2 H) as [Hv Hs].
  destruct (c1 p1) as [[a1|] q1], (c2 p2) as [[a2|] q2]; simpl in *;
    try discriminate; [|auto].
  injection Hv as ->. apply Hk, Hs.
Qed.

Lemma sim_try_except {A} (c1 c2 h1 h2 : M A) :
  sim c1 c2 -> sim h1 h2 -> sim (try_except c1 h1) (try_except c2 h2).
Proof.
  intros Hc Hh p1 p2 H. unfold try_except. destruct (Hc p1 p2 H) as [Hv Hs].
  destruct (c1 p1) as [[a1|] q1], (c2 p2) as [[a2|] q2]; simpl in *;
    try discriminate; [auto|].
  apply Hh, Hs.
Qed.

Lemma sim_external {A} (e1 e2 : event) (r : outcome A) :
  sim (external e1 r) (external e2 r).
Proof. intros p1 p2 H. simpl. auto. Qed.

Lemma sim_Cache_search (w : world) (u s : string) (i : nat) :
  sim (Cache_search w u s i) (Cache_search w u s i).
Proof.
  intros p1 p2 H. unfold Cache_search. rewrite H.
  destruct (store_get (cache_store p2) (u, s)); [destruct (cache_alive w u s)|];
    simpl; auto.
Qed.

Lemma sim_Cache_insert (u s : string) (pages : list item) (i : nat) :
  sim (Cache_insert u s pages i) (Cache_insert u s pages i).
Proof. intros p1 p2 H. unfold Cache_insert. simpl. rewrite H. auto. Qed.

(** Two computations whose values are not read afterwards. *)
Lemma sim_bind_unread {A B} (c1 c2 : M A) (k1 k2 : M B) :
  (forall p, exists a p', c1 p = (Returns a, p') /\ cache_store p' = cache_store p) ->
  (forall p, exists a p', c2 p = (Returns a, p') /\ cache_store p' = cache_store p) ->
  sim k1 k2 -> sim (bind c1 (fun _ => k1)) (bind c2 (fun _ => k2)).
Proof.
  intros H1 H2 Hk p1 p2 H. unfold bind.
  destruct (H1 p1) as [a1 [q1 [-> Hq1]]], (H2 p2) as [a2 [q2 [-> Hq2]]].
  apply Hk. congruence.
Qed.

Ltac sim_step :=
  match goal with
  | |- sim (bind _ _) (bind _ _) => apply sim_bind; [|intros]
  | |- sim (ret _) (ret _) => apply sim_ret
  | |- sim raise raise => apply sim_raise
  | |- sim (try_except _ _) (try_except _ _) => apply sim_try_except
  | |- sim (external _ _) (external _ _) => apply sim_external
  | |- sim (Cache_search _ _ _ _) (Cache_search _ _ _ _) => apply sim_Cache_search
  | |- sim (Cache_insert _ _ _ _) (Cache_insert _ _ _ _) => apply sim_Cache_insert
  | |- sim (match ?x with _ => _ end) _ => destruct x
  end.

Section Independence.
Context {E : Externals}.

Lemma sim_core_retrieve (w : world) r (url : string) (ids : list string)
      (hits : list hit) :
  sim (core_retrieve (with_rerank w r) url ids hits) (core_retrieve w url ids hits).
Proof.
  revert hits. induction ids as [|c ids IH]; intros hits; simpl.
  - apply sim_ret.
  - apply sim_bind; [apply sim_external|]. intros core.
    apply sim_bind; [|intros; apply IH].
    repeat sim_step.
Qed.

Lemma sim_search_setup (w : world) (u : user) (req : search_request) :
  sim (search_setup w u req) (search_setup w u req).
Proof.
  unfold search_setup.
  destruct (derive_query _ _ _ _) as [query ucr].
  repeat sim_step.
Qed.

Lemma search_setup_with_rerank (w : world) r (u : user) (req : search_request) :
  search_setup (with_rerank w r) u req = search_setup w u req.
Proof. reflexivity. Qed.

(** The outcome of [cache_search] does not depend on the reranking
    service, nor on the environment entry that enables it. *)
Lemma sim_cache_search (w : world) r (q sid : string) (idx : nat) (comms : dict string)
      (uid : string) (own toggle : bool) (ucr : option string) :
  sim (cache_search (with_rerank w r) q sid idx comms uid own toggle ucr)
      (cache_search w q sid idx comms uid own toggle ucr).
Proof.
  unfold cache_search, redo_search, Cache.
  cbn [with_rerank elastic_search webpages_search elastic_get_submissions
       elastic_get_community core_find_one cache_connects cache_alive].
  destruct (own || (q =? "")).
  - repeat sim_step.
  - apply sim_bind; [repeat sim_step|]. intros cache.
    apply sim_bind.
    { destruct cache; [|apply sim_ret].
      change (Cache_search (with_rerank w r) uid sid idx)
        with (Cache_search w uid sid idx).
      apply sim_Cache_search. }
    intros [n page]. destruct page; [|apply sim_ret].
    apply sim_bind; [apply sim_external|]. intros [n0 hits].
    apply sim_bind.
    { destruct ucr; [apply sim_core_retrieve|apply sim_ret]. }
    intros hits'. apply sim_bind; [repeat sim_step|].
    intros pages.
    apply sim_bind_unread; try (intro; apply rerank_step_returns).
    repeat sim_step.
Qed.

Lemma sim_search (w : world) r (u : user) (req : search_request) :
  sim (search (with_rerank w r) u req) (search w u req).
Proof.
  unfold search, search_body, run_cache_search.
  apply sim_try_except; [|apply sim_ret].
  rewrite search_setup_with_rerank.
  apply sim_bind; [apply sim_search_setup|].
  intros [resp|c]; [apply sim_ret|].
  apply sim_bind; [apply sim_cache_search|].
  intros [? ?]. apply sim_ret.
Qed.

Lemma with_rerank_same (w : world) : with_rerank w (rerank_post w) = w.
Proof. destruct w. reflexivity. Qed.

(** The response of [search] is the same with any reranking service. *)
Lemma search_ignores_reranker (w : world) r (u : user) (req : search_request)
      (p : process) :
  fst (search (with_rerank w r) u req p) = fst (search w u req p).
Proof. apply sim_search. reflexivity. Qed.

(** The response of [search] is the same with the reranker disabled. *)
Lemma search_ignores_neural_api (w : world) (u : user) (req : search_request)
      (p : process) :
  fst (search w u req p) = fst (search w u req (without_reranker p)).
Proof.
  pose proof (sim_search w (rerank_post w) u req p (without_reranker p) eq_refl) as H.
  rewrite with_rerank_same in H. apply H.
Qed.

(** [search] answers every request: nothing escapes its handler. *)
Lemma search_returns (w : world) (u : user) (req : search_request) (p : process) :
  exists resp, fst (search w u req p) = Returns resp.
Proof.
  unfold search, try_except.
  destruct (search_body w u req p) as [[resp|] p']; simpl; eauto.
Qed.
End Independence.

(* ================================================================== *)
(** * The rerank call and the order of the result list *)
(* ================================================================== *)

(** C1.  The claim: when the reranker is enabled and the rerank call
    succeeds, the result list comes back in the reranker's order.  The code
    does not do that: line 1142 sorts [submissions_pages] by score and
    binds the result to [pages], which line 1130 had bound to the reranked
    list.  In the sample world the reranker is called once, answers 200
    with the pages in the order C, B, A, the environment entry stays in
    place, and the page returned is in score order A, B, C. *)
Theorem rerank_success_order_is_discarded :
  let run := @search sample_externals sample_world alice (new_search "ml") neural_process in
  rerank_calls (trace (snd run)) = 1
  /\ rerank_post sample_world "http://neural:8000/neural/rerank/"
                 (map item_of [hit_A; hit_B; hit_C]) "ml"
     = PostResponds 200 (BodyJson (Some (map item_of [hit_C; hit_B; hit_A])))
  /\ In (EvRerank "http://neural:8000/neural/rerank/"
                  (map item_of [hit_A; hit_B; hit_C]) "ml") (trace (snd run))
  /\ neural_api (snd run) = Some "http://neural:8000/"
  /\ exists obj, fst run = Returns (Success obj OK)
                 /\ map submission_id (r_search_results_page obj) = ["A"; "B"; "C"].
Proof.
  cbv zeta. split; [vm_compute; reflexivity|].
  split; [reflexivity|].
  split; [vm_compute; left; reflexivity|].
  split; [vm_compute; reflexivity|].
  eexists. split; [vm_compute; reflexivity|]. reflexivity.
Qed.

(* ================================================================== *)
(** * Failures of the backends and of the session cache *)
(* ================================================================== *)

Section Failures.
Context {E : Externals}.

Lemma search_of_setup (w : world) (u : user) (req : search_request) (p p1 : process)
      (c : cache_search_call) :
  search_setup w u req p = (Returns (inr c), p1) ->
  fst (run_cache_search w c p1) = Raises ->
  fst (search w u req p) = Returns search_failed.
Proof.
  intros Hsetup Hraise. unfold search, search_body, try_except, bind.
  rewrite Hsetup.
  destruct (run_cache_search w c p1) as [[[n page]|] p2]; simpl in *;
    [discriminate|reflexivity].
Qed.

Lemma cache_search_without_cache (w : world) (q sid : string) (idx : nat)
      (comms : dict string) (uid : string) (toggle : bool) (ucr : option string)
      (p : process) :
  (q =? "") = false -> cache_connects w = false ->
  fst (cache_search w q sid idx comms uid false toggle ucr p) = Raises.
Proof.
  intros Hq Hconn. unfold cache_search, redo_search. rewrite Hq. cbn [orb].
  unfold Cache, bind, try_except, external, ret, raise. rewrite Hconn.
  repeat match goal with
         | |- context [match ?x with _ => _ end] => destruct x
         end; reflexivity.
Qed.

Lemma cache_search_gateway_down (w : world) (q sid : string) (idx : nat)
      (comms : dict string) (uid : string) (toggle : bool) (ucr : option string)
      (p : process) :
  (q =? "") = false ->
  store_get (cache_store p) (uid, sid) = None ->
  (elastic_search w q (dict_keys comms) 0 1000 = Raises
   \/ (toggle = true /\ webpages_search w q [] 0 1000 = Raises)) ->
  fst (cache_search w q sid idx comms uid false toggle ucr p) = Raises.
Proof.
  intros Hq Hmiss Hdown. unfold cache_search, redo_search. rewrite Hq. cbn [orb].
  unfold Cache, Cache_search, bind, try_except, external, ret, raise.
  destruct (cache_connects w); simpl; rewrite ?Hmiss; simpl.
  all: destruct Hdown as [Hs|[-> Hw]]; [rewrite Hs; reflexivity|].
  all: destruct (elastic_search w q (dict_keys comms) 0 1000) as [[n hits]|];
    [|reflexivity].
  all: destruct ucr as [target|]; simpl.
  all: try (destruct (core_retrieve w (standardize_url target) (dict_keys comms) hits _)
              as [[hits'|] p']; [|reflexivity]).
  all: rewrite Hw; reflexivity.
Qed.
End Failures.

(** C7.  The claim: when the session cache cannot be constructed, the
    search still returns the computed page.  The code catches the failure
    of [Cache()] (lines 1063-1067) and skips [cache.search] (line 1070),
    but line 1151 calls [cache.insert] on [None]: once the setup of a
    fusing search (not own submissions, non-empty query) is through and the
    cache does not connect, the request ends in the handler of lines
    759-762, whatever the backends answered. *)
Theorem cache_failure_fails_search {E : Externals}
        (w : world) (u : user) (req : search_request) (p p1 : process)
        (c : cache_search_call) :
  search_setup w u req p = (Returns (inr c), p1) ->
  c_own_submissions c = false ->
  (c_query c =? "") = false ->
  cache_connects w = false ->
  fst (search w u req p) = Returns search_failed.
Proof.
  intros Hsetup Hown Hq Hconn. apply (search_of_setup w u req p p1 c Hsetup).
  unfold run_cache_search. rewrite Hown.
  apply cache_search_without_cache; assumption.
Qed.

(** The sample search against a world whose cache is down: both indexes
    answer, and the request fails. *)
Lemma cache_failure_fails_search_witness :
  elastic_search cacheless_world "ml" [community_ml; community_db] 0 1000
  = Returns (2, [hit_A; hit_B])
  /\ cache_connects cacheless_world = false
  /\ fst (@search sample_externals cacheless_world alice (new_search "ml") neural_process)
     = Returns (Error "Failed to search, please try again later." INTERNAL_SERVER_ERROR).
Proof.
  split; [reflexivity|]. split; [reflexivity|].
  eapply (@cache_failure_fails_search sample_externals cacheless_world alice
            (new_search "ml") neural_process).
  - vm_compute. reflexivity.
  - reflexivity.
  - reflexivity.
  - reflexivity.
Defined.

(** C2, the claim as stated fails: the submissions index raises, the
    webpages index answers one hit, and the request is answered with the
    error of lines 759-762 instead of a page built from that hit. *)
Lemma one_gateway_down_is_fatal :
  elastic_search submissions_down_world "ml" [community_ml; community_db] 0 1000 = Raises
  /\ webpages_search submissions_down_world "ml" [] 0 1000 = Returns (1, [hit_C])
  /\ fst (@search sample_externals submissions_down_world alice (new_search "ml")
                  neural_process)
     = Returns (Error "Failed to search, please try again later." INTERNAL_SERVER_ERROR).
Proof.
  split; [reflexivity|]. split; [reflexivity|]. vm_compute. reflexivity.
Qed.

(** C2, amended.  [cache_search] has no handler around its gateway calls:
    when a fusing search finds no cached list for its session and the
    query to the submissions index raises, or the one to the webpages
    index is due and raises, the request is answered with the error
    "Failed to search, please try again later." and status 500.  A page is
    returned only when every gateway query that was issued returned. *)
Theorem gateway_failure_fails_search {E : Externals}
        (w : world) (u : user) (req : search_request) (p p1 : process)
        (c : cache_search_call) :
  search_setup w u req p = (Returns (inr c), p1) ->
  c_own_submissions c = false ->
  (c_query c =? "") = false ->
  store_get (cache_store p1) (c_user_id c, c_search_id c) = None ->
  (elastic_search w (c_query c) (dict_keys (c_communities c)) 0 1000 = Raises
   \/ (c_toggle_webpage_results c = true
       /\ webpages_search w (c_query c) [] 0 1000 = Raises)) ->
  fst (search w u req p) = Returns search_failed.
Proof.
  intros Hsetup Hown Hq Hmiss Hdown. apply (search_of_setup w u req p p1 c Hsetup).
  unfold run_cache_search. rewrite Hown.
  apply cache_search_gateway_down; assumption.
Qed.


Lemma gateway_failure_fails_search_witness :
  webpages_search webpages_down_world "ml" [] 0 1000 = Raises
  /\ fst (@search sample_externals webpages_down_world alice (new_search "ml")
                  neural_process)
     = Returns search_failed.
Proof.
  split; [reflexivity|].
  eapply (@gateway_failure_fails_search sample_externals webpages_down_world alice
            (new_search "ml") neural_process).
  - vm_compute. reflexivity.
  - reflexivity.
  - reflexivity.
  - reflexivity.
  - right. split; reflexivity.
Defined.

(* ================================================================== *)
(** * Curated core content *)
(* ================================================================== *)

Section CoreBoost.
Context {E : Externals}.



Lemma core_retrieve_returns (w : world) (url : string) (ids : list string) :
  (forall c, core_find_one w c <> Raises) ->
  (forall q cs, elastic_search w q cs 0 1000 <> Raises) ->
  forall (hits : list hit) (p : process),
    exists hits' p', core_retrieve w url ids hits p = (Returns hits', p').
Proof.
  intros Hfind Hsearch. induction ids as [|c ids IH]; intros hits p; simpl.
  - unfold ret. eauto.
  - unfold bind at 1. unfold external at 1.
    destruct (core_find_one w c) as [[content|]|] eqn:Hc; [| |now apply Hfind in Hc].
    + destruct (dict_get content url) as [tags|].
      * unfold bind at 1 2. unfold external at 1.
        destruct (elastic_search w (py_join " " (list_set (dict_keys tags))) [c] 0 1000)
          as [[n core_hits]|] eqn:Hq; [|now apply Hsearch in Hq].
        simpl. apply IH.
      * unfold bind at 1. simpl. apply IH.
    + unfold bind at 1. simpl. apply IH.
Qed.
End CoreBoost.



(* ================================================================== *)
(** * The fused list *)
(* ================================================================== *)

Section Fusion.
Context {E : Externals}.

Lemma connect_cache_run (w : world) (p : process) :
  try_except (Cache w ;; ret (Some tt)) (ret None) p
  = (Returns (if cache_connects w then Some tt else None), log_event EvCacheConnect p).
Proof.
  unfold try_except, bind, Cache, external, ret.
  destruct (cache_connects w); reflexivity.
Qed.

Lemma core_retrieve_cache (w : world) (url : string) (ids : list string)
      (hits : list hit) (p : process) :
  cache_store (snd (core_retrieve w url ids hits p)) = cache_store p.
Proof.
  apply (keeps_core_retrieve (fun x => cache_store x = cache_store p)); [|reflexivity].
  intros e x _ Hx. exact Hx.
Qed.

(** When the block of lines 1079-1152 returns, the list it stored in the
    session cache is [fuse] of the candidates, whole, and the page it
    returns is cut out of that list. *)
Lemma redo_search_fuses (w : world) (q sid : string) (idx : nat) (comms : dict string)
      (uid : string) (toggle : bool) (ucr : option string) (cache : option unit)
      (p p' : process) (n : nat) (page : list item) :
  redo_search w q sid idx comms uid toggle ucr cache p = (Returns (n, page), p') ->
  exists candidates,
    n = List.length (fuse candidates sid)
    /\ page = page_slice (fuse candidates sid) idx
    /\ cache_store p' = store_put (cache_store p) (uid, sid) (fuse candidates sid).
Proof.
  unfold redo_search. intro H.
  unfold bind at 1 in H. unfold external at 1 in H.
  destruct (elastic_search w q (dict_keys comms) 0 1000) as [[n0 hits]|];
    [|discriminate].
  unfold bind at 1 in H.
  set (p1 := log_event (EvSubmissionsSearch q (dict_keys comms)) p) in H.
  assert (Hcore : exists hits2 p2,
             match ucr with
             | Some target => core_retrieve w (standardize_url target) (dict_keys comms) hits
             | None => ret hits
             end p1 = (hits2, p2) /\ cache_store p2 = cache_store p).
  { destruct ucr as [target|].
    - pose proof (core_retrieve_cache w (standardize_url target) (dict_keys comms) hits p1)
        as Hc.
      destruct (core_retrieve w (standardize_url target) (dict_keys comms) hits p1)
        as [o p2]. exists o, p2. split; [reflexivity|exact Hc].
    - exists (Returns hits), p1. split; reflexivity. }
  destruct Hcore as [hits2 [p2 [Hrun Hp2]]]. rewrite Hrun in H.
  destruct hits2 as [hits2|]; [|discriminate].
  unfold bind at 1 in H.
  assert (Hweb : exists pages3 p3,
             (if toggle
              then '(_, webpages_hits) <-
                     external (EvWebpagesSearch q) (webpages_search w q [] 0 1000) ;;
                   ret (combine_pages (create_page hits2 comms)
                                      (create_page webpages_hits comms))
              else ret (create_page hits2 comms)) p2 = (pages3, p3)
             /\ cache_store p3 = cache_store p).
  { destruct toggle.
    - unfold bind, external, ret.
      destruct (webpages_search w q [] 0 1000) as [[n1 wh]|]; eexists; eexists;
        (split; [reflexivity|exact Hp2]).
    - eexists; eexists. split; [reflexivity|exact Hp2]. }
  destruct Hweb as [pages3 [p3 [Hrun3 Hp3]]]. rewrite Hrun3 in H.
  destruct pages3 as [candidates|]; [|discriminate].
  unfold bind at 1 in H.
  destruct (rerank_step_returns w candidates q p3) as [r [p4 [Hrr Hp4]]].
  rewrite Hrr in H. unfold bind at 1 in H.
  destruct cache as [[]|]; [|discriminate].
  unfold Cache_insert, ret in H. injection H as <- <- <-.
  exists candidates. simpl. rewrite Hp4, Hp3. auto.
Qed.

(** What a fusing [cache_search] returns: a page of the cached list of the
    session, or a page of the list it has just fused and stored. *)
Lemma cache_search_fuses (w : world) (q sid : string) (idx : nat) (comms : dict string)
      (uid : string) (toggle : bool) (ucr : option string)
      (p p' : process) (n : nat) (page : list item) :
  (q =? "") = false ->
  cache_search w q sid idx comms uid false toggle ucr p = (Returns (n, page), p') ->
  (exists full, store_get (cache_store p) (uid, sid) = Some full
                /\ n = List.length full /\ page = page_slice full idx
                /\ cache_store p' = cache_store p)
  \/ (exists candidates,
         n = List.length (fuse candidates sid)
         /\ page = page_slice (fuse candidates sid) idx
         /\ cache_store p' = store_put (cache_store p) (uid, sid) (fuse candidates sid)).
Proof.
  intros Hq H. unfold cache_search in H. rewrite Hq in H. cbn [orb] in H.
  unfold bind at 1 in H. rewrite connect_cache_run in H.
  set (p1 := log_event EvCacheConnect p) in H.
  unfold bind at 1 in H.
  destruct (cache_connects w).
  - unfold Cache_search at 1 in H.
    change (cache_store p1) with (cache_store p) in H.
    destruct (store_get (cache_store p) (uid, sid)) as [full|] eqn:Hget.
    + destruct (cache_alive w uid sid).
      * destruct (page_slice full idx) as [|x rest] eqn:Hslice.
        -- right. apply redo_search_fuses in H. exact H.
        -- left. unfold ret in H. injection H as <- <- <-.
           exists full. auto.
      * right. apply redo_search_fuses in H. exact H.
    + right. apply redo_search_fuses in H. exact H.
  - unfold ret at 1 in H. right. apply redo_search_fuses in H. exact H.
Qed.
End Fusion.

Lemma store_get_put_same (store : list ((string * string) * list item))
      (k : string * string) (v : list item) :
  store_get (store_put store k v) k = Some v.
Proof.
  unfold store_put. simpl. unfold key_eqb. now rewrite !String.eqb_refl.
Qed.

(** C4.  Deduplication is idempotent; its result has one item per URL, is
    made of items of the input, and holds for every item of the input an
    item of the same URL that scores at least as much (so the survivor of
    a group is one of its highest-scored items).  The fused list of a
    session, [fuse], deduplicates the whole sorted list once, has no two
    items with the same URL, is sorted descending by score and holds for
    every candidate an item of its URL that scores at least as much; a
    fusing [cache_search] that finds no cached list stores that list whole
    and returns a slice of it.  The scenario of section 8 gives A 0.9, B 0.7,
    C 0.3. *)
Theorem fused_list_is_deduplicated_and_sorted {E : Externals} :
  (forall L, deduplicate (deduplicate L) = deduplicate L)
  /\ (forall L, NoDup (map canonical_url (deduplicate L)))
  /\ (forall L y, In y (deduplicate L) -> In y L)
  /\ (forall L x, In x L ->
        exists y, In y (deduplicate L) /\ canonical_url y = canonical_url x
                  /\ (score x <= score y)%Q)
  /\ (forall pages sid,
        NoDup (map canonical_url (fuse pages sid)) /\ desc_sorted (fuse pages sid))
  /\ (forall pages sid x, In x pages ->
        exists y, In y (fuse pages sid) /\ canonical_url y = canonical_url x
                  /\ (score x <= score y)%Q)
  /\ (forall w q sid idx comms uid toggle ucr p p' n page,
        (q =? "") = false ->
        store_get (cache_store p) (uid, sid) = None ->
        cache_search w q sid idx comms uid false toggle ucr p = (Returns (n, page), p') ->
        exists candidates,
          store_get (cache_store p') (uid, sid) = Some (fuse candidates sid)
          /\ n = List.length (fuse candidates sid)
          /\ page = page_slice (fuse candidates sid) idx)
  /\ map (fun x => (submission_id x, score x))
         (fuse (combine_pages scenario_first_backend scenario_second_backend) "s")
     = [("A", 9 # 10); ("B", 7 # 10); ("C", 3 # 10)]%Q.
Proof.
  split; [exact deduplicate_idempotent|].
  split; [intro L; apply dedup_from_NoDup|].
  split; [intros L y; apply In_dedup_from|].
  split.
  { intros L x Hx.
    destruct (dedup_from_covers [] L x Hx) as [H|[z [[] _]]]. exact H. }
  split; [intros pages sid; split; [apply fuse_NoDup|apply fuse_sorted]|].
  split; [intros pages sid x; apply fuse_covers|].
  split.
  { intros w q sid idx comms uid toggle ucr p p' n page Hq Hmiss Hrun.
    destruct (cache_search_fuses w q sid idx comms uid toggle ucr p p' n page Hq Hrun)
      as [[full [Hget _]]|[candidates [Hn [Hpage Hstore]]]]; [congruence|].
    exists candidates. rewrite Hstore, store_get_put_same. auto. }
  vm_compute. reflexivity.
Qed.

(** In the scenario, B with score 0.5 is represented by an item of its URL
    that scores at least 0.5. *)
Lemma fused_list_is_deduplicated_and_sorted_witness :
  exists y, In y (deduplicate (combine_pages scenario_first_backend scenario_second_backend))
            /\ canonical_url y = "https://b.example"
            /\ (5 # 10 <= score y)%Q.
Proof.
  destruct (@fused_list_is_deduplicated_and_sorted sample_externals)
    as [_ [_ [_ [Hcover _]]]].
  apply (Hcover (combine_pages scenario_first_backend scenario_second_backend)
                (mk_item "B" (5 # 10) "https://b.example" "" [] "" "")).
  simpl. right. left. reflexivity.
Defined.

(* ================================================================== *)
(** * The reranker as a circuit breaker *)
(* ================================================================== *)

Section Breaker.
Context {E : Externals}.

Lemma quiet_rerank_calls (e : event) (tr : list event) :
  quiet e = true -> rerank_calls (e :: tr) = rerank_calls tr.
Proof. destruct e; simpl; intro H; try reflexivity; discriminate. Qed.

Lemma search_keeps_disabled (n : nat) (w : world) (u : user) (req : search_request) :
  keeps (disabled_at n) (search w u req).
Proof.
  apply keeps_search; unfold disabled_at.
  - intros e x Hq [Hn Hc]. unfold log_event. cbn [neural_api trace].
    split; [exact Hn|]. rewrite quiet_rerank_calls; assumption.
  - intros pages q x [Hn Hc]. rewrite rerank_step_run, Hn. simpl. auto.
  - intros uid s pages i x [Hn Hc]. simpl. auto.
  - intros q x [Hn Hc]. simpl. auto.
Qed.

(** Once the reranker is disabled, a sequence of search requests makes no
    rerank call and leaves it disabled. *)
Lemma disabled_stays_disabled (requests : list (world * user * search_request))
      (p : process) :
  neural_api p = None ->
  disabled_at (rerank_calls (trace p)) (snd (serve requests p)).
Proof.
  intro Hoff. apply keeps_serve.
  - intros w u req. apply search_keeps_disabled.
  - split; [exact Hoff|reflexivity].
Qed.

(** A search request keeps [raised_means_disabled]. *)
Lemma search_keeps_raised_means_disabled (w : world) (u : user) (req : search_request)
      (p0 : process) :
  keeps (raised_means_disabled w p0) (search w u req).
Proof.
  assert (Hgrow : forall e x,
             (forall ep pages q, e = EvRerank ep pages q ->
                reply_raises (rerank_post w ep pages q) = true -> neural_api x = None) ->
             raised_means_disabled w p0 x ->
             raised_means_disabled w p0 (log_event e x)).
  { intros e x He [tr [Htr Hall]]. exists (e :: tr).
    split; [unfold log_event; cbn [trace]; now rewrite Htr|].
    intros ep pages q [Heq|Hin] Hr; unfold log_event; cbn [neural_api]; eauto. }
  apply keeps_search.
  - intros e x Hq. apply Hgrow. intros ep pages q ->. discriminate.
  - intros pages q x HJ. rewrite rerank_step_run.
    destruct (neural_api x) as [base|] eqn:Henv; [|exact HJ].
    cbv zeta.
    assert (Hoff : forall y, neural_api y = None -> (exists tr, trace y = (tr ++ trace p0)%list) ->
                             raised_means_disabled w p0 y).
    { intros y Hy [tr Htr]. exists tr. split; [exact Htr|]. intros; exact Hy. }
    assert (Hlogged : exists tr,
               trace (log_event (EvRerank (base ++ "neural/rerank/") pages q) x)
               = (tr ++ trace p0)%list).
    { destruct HJ as [tr [Htr _]].
      exists (EvRerank (base ++ "neural/rerank/") pages q :: tr).
      unfold log_event. cbn [trace]. now rewrite Htr. }
    destruct (rerank_post w (base ++ "neural/rerank/") pages q) as [|code body] eqn:Hr.
    + apply Hoff; [reflexivity|exact Hlogged].
    + destruct (Nat.eqb code 200) eqn:Hcode.
      * destruct body as [|[pages'|]].
        -- apply Hoff; [reflexivity|exact Hlogged].
        -- apply Hgrow; [|exact HJ]. intros ep ps q0 [= <- <- <-].
           rewrite Hr. simpl. discriminate.
        -- apply Hoff; [reflexivity|exact Hlogged].
      * apply Hgrow; [|exact HJ]. intros ep ps q0 [= <- <- <-].
        rewrite Hr. simpl. destruct body as [|[?|]]; congruence.
  - intros uid s pages i x [tr [Htr Hall]]. exists tr. simpl. auto.
  - intros q x. apply Hgrow. intros ep pages q0 [=].
Qed.

Lemma search_keeps_cache_sorted (w : world) (u : user) (req : search_request) :
  keeps cache_sorted (search w u req).
Proof.
  apply keeps_search; unfold cache_sorted.
  - intros e x _ Hx. exact Hx.
  - intros pages q x Hx.
    destruct (rerank_step_returns w pages q x) as [r [x' [-> Hc]]].
    simpl. rewrite Hc. exact Hx.
  - intros uid s pages i x Hx k full. simpl. intro Hget.
    apply store_get_put in Hget. destruct Hget as [->|Hget]; [apply fuse_sorted|eauto].
  - intros q x Hx. exact Hx.
Qed.
End Breaker.

(** C6, the claim as stated fails for a non-2xx answer: the reranker of
    the first request answers 503, which raises nothing, so the entry
    ["neural_api"] stays in the environment and the next request posts to
    the reranker again. *)
Lemma non_2xx_answer_leaves_reranker_enabled :
  let first := with_rerank sample_world unavailable_reranker in
  let served := @search sample_externals first alice (new_search "ml") neural_process in
  let run := @serve sample_externals
                    [(first, alice, new_search "ml"); (later_world, alice, new_search "db")]
                    neural_process in
  rerank_post first sample_endpoint sample_pages "ml" = PostResponds 503 BodyNotJson
  /\ rerank_calls (trace (snd served)) = 1
  /\ neural_api (snd served) = Some "http://neural:8000/"
  /\ rerank_calls (trace (snd run)) = 2.
Proof.
  cbv zeta. split; [reflexivity|].
  split; [vm_compute; reflexivity|].
  split; vm_compute; reflexivity.
Qed.

(** C6, amended.  When a rerank call of a search request ends in the
    [except] branch (the post raised, as on a timeout or a refused
    connection, or the answer had status 200 and no usable payload), the
    request leaves the reranker disabled; the caller gets the response it
    would have got with the reranker disabled from the start; and no
    request served afterwards makes a rerank call or enables it again,
    while every list these requests store in the session cache is sorted
    by score.  An answer with another status than 200 is not covered: it
    raises nothing. *)
Theorem rerank_exception_disables_reranker {E : Externals}
        (w : world) (u : user) (req : search_request) (p : process)
        (tr : list event) (e : string) (pages : list item) (q : string) :
  trace (snd (search w u req p)) = (tr ++ trace p)%list ->
  In (EvRerank e pages q) tr ->
  reply_raises (rerank_post w e pages q) = true ->
  let p' := snd (search w u req p) in
  neural_api p' = None
  /\ fst (search w u req p) = fst (search w u req (without_reranker p))
  /\ (exists resp, fst (search w u req p) = Returns resp)
  /\ forall requests,
       let p'' := snd (serve requests p') in
       neural_api p'' = None
       /\ rerank_calls (trace p'') = rerank_calls (trace p')
       /\ (cache_sorted p' -> cache_sorted p'').
Proof.
  intros Htr Hin Hraised p'.
  assert (Hoff : neural_api p' = None).
  { assert (HJ : raised_means_disabled w p p').
    { apply search_keeps_raised_means_disabled. exists []. split; [reflexivity|].
      intros ? ? ? []. }
    destruct HJ as [tr' [Htr' Hall]]. apply (Hall e pages q); [|exact Hraised].
    assert (tr' = tr) as ->; [|exact Hin].
    apply (app_inv_tail (trace p)). unfold p' in Htr'. congruence. }
  split; [exact Hoff|].
  split; [apply search_ignores_neural_api|].
  split; [apply search_returns|].
  intros requests p''.
  destruct (disabled_stays_disabled requests p' Hoff) as [Hn Hc].
  split; [exact Hn|]. split; [exact Hc|].
  intro Hsorted. apply keeps_serve; [|exact Hsorted].
  intros w' u' req'. apply search_keeps_cache_sorted.
Qed.

(** The reranker of the first request times out; the next request makes
    no rerank call. *)
Lemma rerank_exception_disables_reranker_witness :
  let first := with_rerank sample_world timing_out_reranker in
  let p' := snd (@search sample_externals first alice (new_search "ml") neural_process) in
  rerank_post first sample_endpoint sample_pages "ml" = PostRaises
  /\ neural_api p' = None
  /\ rerank_calls (trace p') = 1
  /\ rerank_calls
       (trace (snd (@serve sample_externals [(later_world, alice, new_search "db")] p')))
     = 1.
Proof.
  cbv zeta.
  pose proof (@rerank_exception_disables_reranker sample_externals
                (with_rerank sample_world timing_out_reranker) alice (new_search "ml")
                neural_process
                [EvRerank sample_endpoint sample_pages "ml";
                 EvWebpagesSearch "ml";
                 EvSubmissionsSearch "ml" [community_ml; community_db];
                 EvCacheConnect; EvCommunityInfo; EvLogSearch "ml"]
                sample_endpoint sample_pages "ml") as H.
  cbv zeta in H.
  destruct H as [Hoff [_ [_ Hlater]]].
  - vm_compute. reflexivity.
  - left. reflexivity.
  - reflexivity.
  - split; [reflexivity|]. split; [exact Hoff|]. split; [vm_compute; reflexivity|].
    destruct (Hlater [(later_world, alice, new_search "db")]) as [_ [Hcalls _]].
    rewrite Hcalls. vm_compute. reflexivity.
Defined.

(* ================================================================== *)
(** * Hashtag queries and the webpages index *)
(* ================================================================== *)

Section HashtagQueries.
Context {E : Externals}.

Lemma quiet_webpage_queries (e : event) (tr : list event) :
  quiet e = true -> webpage_queries (e :: tr) = webpage_queries tr.
Proof. destruct e; simpl; intro H; try reflexivity; discriminate. Qed.

(** With the webpages results switched off, [cache_search] does not query
    the webpages index. *)
Lemma cache_search_skips_webpages (n : nat) (w : world) (q sid : string) (idx : nat)
      (comms : dict string) (uid : string) (own : bool) (ucr : option string) :
  keeps (fun x => webpage_queries (trace x) = n)
        (cache_search w q sid idx comms uid own false ucr).
Proof.
  apply keeps_cache_search.
  - intros e x Hq Hx. unfold log_event. cbn [trace].
    rewrite quiet_webpage_queries; assumption.
  - intros pages q0 x Hx. rewrite rerank_step_run.
    destruct (neural_api x) as [base|]; [|exact Hx]. cbv zeta.
    destruct (rerank_post w _ pages q0) as [|code body]; [exact Hx|].
    destruct (Nat.eqb code 200); [|exact Hx].
    destruct body as [|[?|]]; exact Hx.
  - intros u s pages i x Hx. exact Hx.
  - discriminate.
Qed.

Lemma search_setup_skips_webpages (n : nat) (w : world) (u : user)
      (req : search_request) :
  keeps (fun x => webpage_queries (trace x) = n) (search_setup w u req).
Proof.
  apply keeps_search_setup. intros e x Hq Hx. unfold log_event. cbn [trace].
  rewrite quiet_webpage_queries; assumption.
Qed.

Lemma contains_char_not_empty (c : ascii) (s : string) :
  contains_char c s = true -> py_not s = false.
Proof. destruct s; simpl; [discriminate|reflexivity]. Qed.

(** A new search whose query holds a hash character reaches
    [cache_search] with the webpages results switched off. *)
Lemma search_setup_hashtag_toggle (w : world) (u : user) (req : search_request)
      (p p1 : process) (c : cache_search_call) :
  arg_truthy (arg_search_id req) = false ->
  contains_char hash_char (py_prefix 1000 (arg_query req)) = true ->
  search_setup w u req p = (Returns (inr c), p1) ->
  c_toggle_webpage_results c = false.
Proof.
  intros Hnew Hhash. unfold search_setup.
  rewrite Hnew, Hhash, (contains_char_not_empty _ _ Hhash). cbn [negb andb].
  destruct (derive_query _ _ _ _) as [query ucr].
  unfold bind, external, ret, raise.
  destruct (arg_page req); try discriminate.
  all: destruct (arg_community req) as [community|]; try discriminate.
  all: destruct (community =? "all").
  all: try (destruct (ObjectId community) as [community_id|]; try discriminate;
            destruct (py_in community_id (communities_of u)); try discriminate).
  all: destruct (log_search w); try discriminate.
  all: destruct (community_info w); try discriminate.
  all: intros [= <- _]; cbn [c_toggle_webpage_results];
       match goal with |- (if ?b then _ else _) = _ => destruct b end; reflexivity.
Qed.

Lemma core_retrieve_with_webpages (w : world) ws (url : string) (ids : list string) :
  forall hits p,
    core_retrieve (with_webpages w ws) url ids hits p = core_retrieve w url ids hits p.
Proof.
  induction ids as [|c ids IH]; intros hits p; [reflexivity|].
  cbn [core_retrieve]. rewrite !bind_run, !external_run.
  cbn [with_webpages core_find_one].
  destruct (core_find_one w c) as [[content|]|]; [| |reflexivity].
  - destruct (dict_get content url) as [tags|].
    + rewrite !bind_run, !external_run. cbn [with_webpages elastic_search].
      destruct (elastic_search w _ [c] 0 1000) as [[n core_hits]|]; [|reflexivity].
      cbv beta iota delta [ret]. apply IH.
    + rewrite !bind_run. cbv beta iota delta [ret]. apply IH.
  - rewrite !bind_run. cbv beta iota delta [ret]. apply IH.
Qed.

(** With the webpages results switched off, [cache_search] does not depend
    on the webpages index. *)
Lemma cache_search_with_webpages (w : world) ws (q sid : string) (idx : nat)
      (comms : dict string) (uid : string) (own : bool) (ucr : option string)
      (p : process) :
  cache_search (with_webpages w ws) q sid idx comms uid own false ucr p
  = cache_search w q sid idx comms uid own false ucr p.
Proof.
  unfold cache_search. destruct (own || (q =? "")); [reflexivity|].
  rewrite !bind_run, !connect_cache_run.
  cbn [with_webpages cache_connects].
  rewrite !bind_run.
  change (Cache_search (with_webpages w ws) uid sid idx)
    with (Cache_search w uid sid idx).
  destruct (match (if cache_connects w then Some tt else None) with
            | Some _ => Cache_search w uid sid idx
            | None => ret (0, [])
            end (log_event EvCacheConnect p)) as [[[n page]|] p1]; [|reflexivity].
  destruct page; [|reflexivity].
  unfold redo_search. rewrite !bind_run, !external_run.
  cbn [with_webpages elastic_search].
  destruct (elastic_search w q (dict_keys comms) 0 1000) as [[n0 hits]|]; [|reflexivity].
  rewrite !bind_run.
  destruct ucr as [target|]; [rewrite core_retrieve_with_webpages|]; reflexivity.
Qed.
End HashtagQueries.

(** C10, the claim as stated fails: the query is cut to its first 1000
    characters (line 623) before it is looked at for ['#'] (line 629).  A
    new search whose query holds a ['#'], but only after the first 1000
    characters, is searched with the webpages results left on, and the
    webpages index is queried. *)
Lemma late_hashtag_still_queries_webpages :
  contains_char hash_char late_hashtag_query = true
  /\ contains_char hash_char (py_prefix 1000 late_hashtag_query) = false
  /\ arg_truthy (arg_search_id (new_search late_hashtag_query)) = false
  /\ webpage_queries
       (trace (snd (@search sample_externals sample_world alice
                            (new_search late_hashtag_query) neural_process))) = 1
  /\ webpage_queries (trace neural_process) = 0.
Proof. vm_compute. repeat split; reflexivity. Qed.

(** C10, amended.  A new search (no [search_id] in the request) whose
    query holds the character ['#'] within its first 1000 characters, the
    part line 623 keeps, never queries the webpages index, whatever the
    services answer; its outcome and the state it leaves are the same for
    every webpages index, so the result list is built from the hits of the
    submissions index and of the core retrieval alone. *)
Theorem hashtag_query_never_queries_webpages {E : Externals}
        (w : world) (u : user) (req : search_request) (p : process) :
  arg_truthy (arg_search_id req) = false ->
  contains_char hash_char (py_prefix 1000 (arg_query req)) = true ->
  webpage_queries (trace (snd (search w u req p))) = webpage_queries (trace p)
  /\ forall ws, search (with_webpages w ws) u req p = search w u req p.
Proof.
  intros Hnew Hhash.
  pose proof (search_setup_skips_webpages (webpage_queries (trace p)) w u req p eq_refl)
    as Hsetup.
  pose proof (search_setup_hashtag_toggle w u req p) as Htoggle.
  split.
  - unfold search, search_body, try_except, bind.
    destruct (search_setup w u req p) as [[[resp|c]|] p1]; simpl in Hsetup;
      [exact Hsetup| |exact Hsetup].
    specialize (Htoggle p1 c Hnew Hhash eq_refl).
    pose proof (cache_search_skips_webpages (webpage_queries (trace p)) w (c_query c)
                  (c_search_id c) (c_page c) (c_communities c) (c_user_id c)
                  (c_own_submissions c) (c_url_core_retrieve c) p1 Hsetup) as Hrun.
    unfold run_cache_search. rewrite Htoggle.
    destruct (cache_search w (c_query c) (c_search_id c) (c_page c) (c_communities c)
                (c_user_id c) (c_own_submissions c) false (c_url_core_retrieve c) p1)
      as [[[n page]|] p2]; exact Hrun.
  - intro ws. unfold search, search_body, try_except, bind.
    change (search_setup (with_webpages w ws) u req p) with (search_setup w u req p).
    destruct (search_setup w u req p) as [[[resp|c]|] p1]; [reflexivity| |reflexivity].
    specialize (Htoggle p1 c Hnew Hhash eq_refl).
    unfold run_cache_search. rewrite Htoggle, cache_search_with_webpages. reflexivity.
Qed.

(** A new search for [#ml] in the sample world: no query to the webpages
    index is logged. *)
Lemma hashtag_query_never_queries_webpages_witness :
  webpage_queries
    (trace (snd (@search sample_externals sample_world alice (new_search "#ml")
                         neural_process))) = 0.
Proof.
  apply (@hashtag_query_never_queries_webpages sample_externals sample_world alice
           (new_search "#ml") neural_process).
  - reflexivity.
  - reflexivity.
Defined.

(* ================================================================== *)
(** * Splitting and joining *)
(* ================================================================== *)

Lemma string_app_nil_r (s : string) : s ++ "" = s.
Proof. induction s as [|c s IH]; simpl; [reflexivity|now rewrite IH]. Qed.

Lemma string_app_assoc (a b c : string) : (a ++ b) ++ c = a ++ (b ++ c).
Proof. induction a as [|x a IH]; simpl; [reflexivity|now rewrite IH]. Qed.

Lemma string_app_empty (a b : string) : a ++ b = "" -> a = "" /\ b = "".
Proof. destruct a; simpl; [auto|discriminate]. Qed.

Lemma py_not_false (s : string) : py_not s = false <-> s <> "".
Proof. unfold py_not. apply String.eqb_neq. Qed.

Lemma py_not_true (s : string) : py_not s = true <-> s = "".
Proof. unfold py_not. apply String.eqb_eq. Qed.

Lemma no_space_app (a b : string) : no_space a -> no_space b -> no_space (a ++ b).
Proof.
  unfold no_space. induction a as [|x a IH]; simpl; [auto|].
  intros Ha Hb. apply andb_true_iff in Ha. destruct Ha as [Hx Ha].
  rewrite Hx. simpl. auto.
Qed.

Lemma split_from_words (s w : string) :
  no_space w -> Forall is_word (split_from w s).
Proof.
  revert w. induction s as [|c s IH]; intros w Hw; simpl.
  - destruct (py_not w) eqn:Hn; constructor; [|constructor].
    split; [apply py_not_false, Hn|exact Hw].
  - destruct (is_space c) eqn:Hc.
    + destruct (py_not w) eqn:Hn.
      * apply IH. reflexivity.
      * constructor; [split; [apply py_not_false, Hn|exact Hw]|].
        apply IH. reflexivity.
    + apply IH. apply no_space_app; [exact Hw|].
      unfold no_space. simpl. now rewrite Hc.
Qed.

Lemma py_split_words (s : string) : Forall is_word (py_split s).
Proof. apply split_from_words. reflexivity. Qed.

(** Reading a word, then a space: the word is split off. *)
Lemma split_from_word_space (x w t : string) :
  no_space x -> w ++ x <> "" ->
  split_from w (x ++ " " ++ t) = (w ++ x) :: split_from "" t.
Proof.
  revert w. induction x as [|c x IH]; intros w Hx Hne.
  - rewrite string_app_nil_r in *. simpl.
    apply py_not_false in Hne. now rewrite Hne.
  - unfold no_space in Hx. simpl in Hx. apply andb_true_iff in Hx.
    destruct Hx as [Hc Hx]. apply negb_true_iff in Hc.
    simpl. rewrite Hc.
    replace (w ++ String c x) with ((w ++ String c "") ++ x)
      by (rewrite string_app_assoc; reflexivity).
    apply IH; [exact Hx|].
    intro Hempty. apply string_app_empty in Hempty. destruct Hempty as [Hempty _].
    apply string_app_empty in Hempty. destruct Hempty as [_ Hempty]. discriminate.
Qed.

(** Reading a word up to the end of the text. *)
Lemma split_from_word_end (x w : string) :
  no_space x -> w ++ x <> "" -> split_from w x = [w ++ x].
Proof.
  revert w. induction x as [|c x IH]; intros w Hx Hne.
  - rewrite string_app_nil_r in *. simpl.
    apply py_not_false in Hne. now rewrite Hne.
  - unfold no_space in Hx. simpl in Hx. apply andb_true_iff in Hx.
    destruct Hx as [Hc Hx]. apply negb_true_iff in Hc.
    simpl. rewrite Hc.
    replace (w ++ String c x) with ((w ++ String c "") ++ x)
      by (rewrite string_app_assoc; reflexivity).
    apply IH; [exact Hx|].
    intro Hempty. apply string_app_empty in Hempty. destruct Hempty as [Hempty _].
    apply string_app_empty in Hempty. destruct Hempty as [_ Hempty]. discriminate.
Qed.

(** Splitting the join of words gives the words back. *)
Lemma py_split_join (ws : list string) :
  Forall is_word ws -> py_split (py_join " " ws) = ws.
Proof.
  unfold py_split, py_join.
  induction ws as [|x ws IH]; intros Hws; [reflexivity|].
  inversion Hws as [|? ? [Hne Hx] Hrest]; subst.
  destruct ws as [|y ws].
  - simpl. apply (split_from_word_end x ""); assumption.
  - change (String.concat " " (x :: y :: ws))
      with (x ++ " " ++ String.concat " " (y :: ws)).
    rewrite (split_from_word_space x "" _ Hx Hne). simpl. f_equal.
    apply IH. exact Hrest.
Qed.

Lemma strip_hashes_no_hash (s : string) :
  contains_char hash_char (strip_hashes s) = false.
Proof.
  unfold strip_hashes. induction s as [|c s IH]; [reflexivity|].
  cbn [re_sub_char contains_char]. rewrite IH, orb_false_r.
  destruct (Ascii.eqb c hash_char) eqn:Hc; [reflexivity|].
  rewrite Ascii.eqb_sym. exact Hc.
Qed.

(** [strip_hashes] changes the hash characters into spaces and nothing
    else. *)
Lemma strip_hashes_get (s : string) (n : nat) :
  String.get n (strip_hashes s)
  = option_map (fun c => if Ascii.eqb c hash_char then space_char else c)
               (String.get n s).
Proof.
  unfold strip_hashes. revert n. induction s as [|c s IH]; intros n; [reflexivity|].
  cbn [re_sub_char]. destruct n as [|n]; [reflexivity|]. apply IH.
Qed.

(* ================================================================== *)
(** * Deriving the query of a page-open search *)
(* ================================================================== *)

Lemma search_setup_new_query {E : Externals} (w : world) (u : user)
      (req : search_request) (p p1 : process) (c : cache_search_call) :
  arg_truthy (arg_search_id req) = false ->
  search_setup w u req p = (Returns (inr c), p1) ->
  c_query c
  = fst (derive_query (py_prefix 1000 (arg_query req)) (arg_source req)
                      (py_prefix 1000 (arg_highlighted_text req)) (arg_url req))
  /\ c_url_core_retrieve c
     = snd (derive_query (py_prefix 1000 (arg_query req)) (arg_source req)
                         (py_prefix 1000 (arg_highlighted_text req)) (arg_url req)).
Proof.
  intros Hnew. unfold search_setup. rewrite Hnew. cbn [negb].
  destruct (derive_query _ _ _ _) as [query ucr].
  unfold bind, external, ret, raise.
  destruct (arg_page req); try discriminate.
  all: destruct (arg_community req) as [community|]; try discriminate.
  all: destruct (community =? "all").
  all: try (destruct (ObjectId community) as [community_id|]; try discriminate;
            destruct (py_in community_id (communities_of u)); try discriminate).
  all: destruct (log_search w); try discriminate.
  all: destruct (community_info w); try discriminate.
  all: intros [= <- _]; split; reflexivity.
Qed.

(** C8, the claim as stated fails: the highlighted text is cut to its
    first 1000 characters (line 622) before its words are counted (line
    644).  A highlighted text of twelve words whose first 1000 characters
    hold six is searched with those 1000 characters as they are, not with
    the key phrases of the text. *)
Lemma long_highlighted_text_is_cut_before_counting :
  List.length (py_split long_highlighted_text) = 12
  /\ List.length (py_split (py_prefix 1000 long_highlighted_text)) = 6
  /\ match fst (@search sample_externals sample_world alice
                        (extension_open "https://a.example" long_highlighted_text)
                        neural_process) with
     | Returns (Success obj _) => r_query obj = py_prefix 1000 long_highlighted_text
     | _ => False
     end
  /\ py_prefix 1000 long_highlighted_text
     <> py_join " " (@list_set sample_externals
                       (@noun_phrases sample_externals
                          (strip_hashes long_highlighted_text))).
Proof.
  split; [vm_compute; reflexivity|]. split; [vm_compute; reflexivity|].
  split; [vm_compute; reflexivity|].
  intro H. apply (f_equal String.length) in H. vm_compute in H. discriminate.
Qed.

(** C8, amended.  A search with an empty query that arrives as a page-open
    event (source [extension_open]) is searched with a query derived from
    the URL and from the first 1000 characters of the highlighted text,
    [highlighted_text] below.  When these are empty the derived query is
    the URL; when they hold fewer than 10 whitespace-separated words it is
    these characters with every ['#'] replaced by a space; otherwise it is
    the key phrases of these characters with the hashes replaced, as a
    set, joined by spaces.  What comes after the first 1000 characters is
    neither counted nor searched.  A new search hands exactly this query
    to [cache_search]. *)
Theorem page_open_query_is_derived_from_context {E : Externals}
        (w : world) (u : user) (req : search_request) :
  arg_query req = "" ->
  arg_source req = "extension_open" ->
  let highlighted_text := py_prefix 1000 (arg_highlighted_text req) in
  let derived := fst (derive_query "" "extension_open" highlighted_text (arg_url req)) in
  (highlighted_text = "" -> derived = arg_url req)
  /\ (highlighted_text <> "" -> List.length (py_split highlighted_text) < 10 ->
      derived = strip_hashes highlighted_text)
  /\ (highlighted_text <> "" -> 10 <= List.length (py_split highlighted_text) ->
      derived = py_join " " (list_set (noun_phrases (strip_hashes highlighted_text))))
  /\ contains_char hash_char (strip_hashes highlighted_text) = false
  /\ (forall n,
         String.get n (strip_hashes highlighted_text)
         = option_map (fun c => if Ascii.eqb c hash_char then space_char else c)
                      (String.get n highlighted_text))
  /\ (forall p p1 c,
         arg_truthy (arg_search_id req) = false ->
         search_setup w u req p = (Returns (inr c), p1) ->
         c_query c = derived).
Proof.
  intros Hq Hsource highlighted_text derived.
  assert (Hderived :
    derived = if py_not highlighted_text then arg_url req
              else if Nat.ltb (List.length (py_split highlighted_text)) 10
                   then strip_hashes highlighted_text
                   else py_join " " (list_set (noun_phrases (strip_hashes highlighted_text)))).
  { reflexivity. }
  split; [|split; [|split; [|split; [|split]]]].
  - intros Hnone. rewrite Hderived.
    apply py_not_true in Hnone. now rewrite Hnone.
  - intros Hsome Hshort. rewrite Hderived.
    apply py_not_false in Hsome. rewrite Hsome.
    apply Nat.ltb_lt in Hshort. now rewrite Hshort.
  - intros Hsome Hlong. rewrite Hderived.
    apply py_not_false in Hsome. rewrite Hsome.
    apply Nat.ltb_ge in Hlong. now rewrite Hlong.
  - apply strip_hashes_no_hash.
  - apply strip_hashes_get.
  - intros p p1 c Hnew Hsetup.
    destruct (search_setup_new_query w u req p p1 c Hnew Hsetup) as [Hc _].
    rewrite Hc, Hq, Hsource. reflexivity.
Qed.

(** The extension is opened on a page with the text "deep #learning"
    highlighted: the query is that text with the hash replaced. *)
Lemma page_open_query_is_derived_from_context_witness :
  fst (@derive_query sample_externals "" "extension_open" "deep #learning"
                     "https://a.example")
  = "deep  learning".
Proof.
  destruct (@page_open_query_is_derived_from_context sample_externals sample_world alice
              (extension_open "https://a.example" "deep #learning"))
    as [_ [Hshort _]].
  - reflexivity.
  - reflexivity.
  - apply Hshort.
    + discriminate.
    + vm_compute. lia.
Defined.

(* ================================================================== *)
(** * The terms of an explore recommendation *)
(* ================================================================== *)

Lemma no_text_opens_add_nothing (opens : list (option string)) (text : string) :
  Forall (fun o => arg_truthy o = false) opens ->
  fold_left (fun full_text extension_open =>
               if arg_truthy extension_open
               then match extension_open with
                    | Some highlighted_text =>
                        full_text ++ " " ++ strip_hashes highlighted_text
                    | None => full_text
                    end
               else full_text) opens text = text.
Proof.
  induction 1 as [|o opens Ho _ IH]; simpl; [reflexivity|].
  rewrite Ho. exact IH.
Qed.

Lemma Forall_firstn {A} (P : A -> Prop) (n : nat) (l : list A) :
  Forall P l -> Forall P (firstn n l).
Proof.
  intro H. apply Forall_forall. intros x Hx.
  rewrite Forall_forall in H. apply H. eapply In_firstn. exact Hx.
Qed.

(** C9, the claim as stated fails: without any source text the default
    text is not the query.  Its 28 terms are shuffled and cut to ten like
    any derived list of more than ten terms (lines 907-910), so the query
    is ten of the default terms. *)
Lemma default_terms_are_sampled_too :
  @explore_full_text [] [] = ""
  /\ @explore_derived_text sample_externals (@explore_full_text [] [])
     = default_search_text
  /\ List.length (py_split default_search_text) = 28
  /\ List.length (py_split (@explore_search_text sample_externals [] [])) = 10
  /\ @explore_search_text sample_externals [] [] <> default_search_text.
Proof.
  split; [reflexivity|]. split; [reflexivity|].
  split; [vm_compute; reflexivity|]. split; [vm_compute; reflexivity|].
  intro H. apply (f_equal String.length) in H. vm_compute in H. discriminate.
Qed.

(** C9, amended.  In explore mode the derived terms are the words of
    [explore_derived_text]: at most 10 of them are used as they are; of
    more than 10, the query is made of exactly 10, the first ten of the
    shuffled list, each of them a derived term and counted no more often
    than it occurs there.  When there is no source text (no recent
    submission, no page open with highlighted text; more generally a text
    of at most 3 characters) the derived terms are the 28 terms of the
    fixed default text, and the query is made of exactly 10 of them, the
    first ten of the shuffled default terms. *)
Theorem explore_terms_are_bounded {E : Externals} (full_text : string) :
  let search_text := explore_derived_text full_text in
  let split_text := py_split search_text in
  let final := explore_bound_terms search_text in
  (List.length split_text <= 10 -> final = search_text)
  /\ (10 < List.length split_text ->
      py_split final = firstn 10 (shuffle split_text)
      /\ List.length (py_split final) = 10
      /\ (forall t, In t (py_split final) -> In t split_text)
      /\ exists rest, Permutation split_text (py_split final ++ rest))
  /\ (String.length full_text <= 3 ->
      search_text = default_search_text
      /\ py_split final = firstn 10 (shuffle (py_split default_search_text))
      /\ List.length (py_split final) = 10
      /\ (forall t, In t (py_split final) -> In t (py_split default_search_text))
      /\ exists rest,
           Permutation (py_split default_search_text) (py_split final ++ rest))
  /\ (forall opens, Forall (fun o => arg_truthy o = false) opens ->
                    explore_full_text [] opens = "")
  /\ List.length (py_split default_search_text) = 28.
Proof.
  intros search_text split_text final.
  assert (Hbound :
    10 < List.length split_text ->
    py_split final = firstn 10 (shuffle split_text)
    /\ List.length (py_split final) = 10
    /\ (forall t, In t (py_split final) -> In t split_text)
    /\ exists rest, Permutation split_text (py_split final ++ rest)).
  { intro Hmany.
    assert (Hfinal : final = py_join " " (firstn 10 (shuffle split_text))).
    { unfold final, explore_bound_terms. fold split_text.
      apply Nat.ltb_lt in Hmany. now rewrite Hmany. }
    assert (Hperm : Permutation split_text (shuffle split_text))
      by apply shuffle_permutes.
    assert (Hwords : Forall is_word (firstn 10 (shuffle split_text))).
    { apply Forall_firstn. apply Forall_forall. intros t Ht.
      pose proof (py_split_words search_text) as Hall.
      rewrite Forall_forall in Hall. apply Hall.
      apply Permutation_sym in Hperm. exact (Permutation_in t Hperm Ht). }
    rewrite Hfinal, (py_split_join _ Hwords).
    split; [reflexivity|]. split.
    { rewrite length_firstn, <- (Permutation_length Hperm). lia. }
    split.
    { intros t Ht. apply In_firstn in Ht.
      apply Permutation_sym in Hperm. exact (Permutation_in t Hperm Ht). }
    exists (skipn 10 (shuffle split_text)). now rewrite firstn_skipn. }
  assert (Hdefault : List.length (py_split default_search_text) = 28)
    by (vm_compute; reflexivity).
  split; [|split; [exact Hbound|split; [|split; [|exact Hdefault]]]].
  - intro Hfew. unfold final, explore_bound_terms. fold split_text.
    apply Nat.ltb_ge in Hfew. now rewrite Hfew.
  - intro Hshort.
    assert (Hsearch : search_text = default_search_text).
    { unfold search_text, explore_derived_text.
      apply Nat.ltb_ge in Hshort. now rewrite Hshort. }
    split; [exact Hsearch|].
    assert (Hsplit : split_text = py_split default_search_text).
    { unfold split_text. now rewrite Hsearch. }
    rewrite <- Hsplit. apply Hbound. rewrite Hsplit, Hdefault. lia.
  - intros opens Hnone. unfold explore_full_text.
    apply (no_text_opens_add_nothing (firstn 3 opens) ""), Forall_firstn, Hnone.
Qed.

(** Without any source text, with [rev] as the shuffle: the query is ten
    terms of the default text. *)
Lemma explore_terms_are_bounded_witness :
  py_split (@explore_search_text sample_externals [] [])
  = ["data"; "gpt3"; "chatgpt"; "generation"; "classification"; "recurrent"; "vision";
     "computer"; "engine"; "search"].
Proof.
  destruct (@explore_terms_are_bounded sample_externals
              (@explore_full_text [] [])) as [_ [_ [Hnone _]]].
  destruct Hnone as [_ [Hsplit _]].
  - vm_compute. lia.
  - unfold explore_search_text. rewrite Hsplit. vm_compute. reflexivity.
Defined.

(* ================================================================== *)
(** * The hashtags handed to the community core *)
(* ================================================================== *)




Lemma py_in_true (x : string) (l : list string) : py_in x l = true -> In x l.
Proof.
  unfold py_in. intro H. apply existsb_exists in H. destruct H as [y [Hy Heq]].
  apply String.eqb_eq in Heq. now subst.
Qed.

Lemma In_py_in (x : string) (l : list string) : In x l -> py_in x l = true.
Proof.
  intros H. unfold py_in. apply existsb_exists. exists x.
  split; [exact H|apply String.eqb_refl].
Qed.

Lemma py_in_false (x : string) (l : list string) : py_in x l = false -> ~ In x l.
Proof.
  intros Hfalse Hin. apply In_py_in in Hin. congruence.
Qed.


Section CoreUpdates.
Context {E : Externals}.
Variable st : store.
Variable P : string * string * list string * string -> Prop.



End CoreUpdates.


Section LifecycleFacts.
Context {E : Externals}.
Variable st : store.




End LifecycleFacts.







(* ================================================================== *)
(** * The external calls of a search *)
(* ================================================================== *)

Lemma logs_only_start (A : event -> Prop) (p : process) : logs_only A p p.
Proof. exists []. split; [reflexivity|constructor]. Qed.

Lemma logs_only_log (A : event -> Prop) (p0 p : process) (e : event) :
  A e -> logs_only A p0 p -> logs_only A p0 (log_event e p).
Proof.
  intros He [tr [Htr Hall]]. exists (e :: tr).
  split; [unfold log_event; cbn [trace]; now rewrite Htr|constructor; assumption].
Qed.

Lemma logs_only_same_trace (A : event -> Prop) (p0 p p' : process) :
  trace p' = trace p -> logs_only A p0 p -> logs_only A p0 p'.
Proof. intros Heq [tr [Htr Hall]]. exists tr. rewrite Heq. auto. Qed.

Lemma logs_only_weaken (A B : event -> Prop) (p0 p : process) :
  (forall e, A e -> B e) -> logs_only A p0 p -> logs_only B p0 p.
Proof.
  intros HAB [tr [Htr Hall]]. exists tr. split; [exact Htr|].
  eapply Forall_impl; [exact HAB|exact Hall].
Qed.

Lemma logs_only_trans (A : event -> Prop) (p0 p1 p2 : process) :
  logs_only A p0 p1 -> logs_only A p1 p2 -> logs_only A p0 p2.
Proof.
  intros [tr1 [Htr1 Hall1]] [tr2 [Htr2 Hall2]]. exists (tr2 ++ tr1)%list.
  split; [rewrite Htr2, Htr1; apply app_assoc|apply Forall_app; auto].
Qed.

Lemma keeps_logs_external {A} (Ev : event -> Prop) (p0 : process) (e : event)
      (r : outcome A) :
  Ev e -> keeps (logs_only Ev p0) (external e r).
Proof. intros He p H. apply logs_only_log; assumption. Qed.

Section Footprint.
Context {E : Externals}.

Lemma core_retrieve_logs (Ev : event -> Prop) (p0 : process) (w : world) (url : string)
      (ids : list string) :
  (forall c, In c ids -> Ev (EvCoreFind c)) ->
  (forall c terms, In c ids -> Ev (EvSubmissionsSearch terms [c])) ->
  forall hits, keeps (logs_only Ev p0) (core_retrieve w url ids hits).
Proof.
  induction ids as [|c ids IH]; intros Hfind Hquery hits; simpl.
  - apply keeps_ret.
  - apply keeps_bind; [apply keeps_logs_external, Hfind; left; reflexivity|].
    intros core. apply keeps_bind.
    + destruct core as [content|]; [|apply keeps_ret].
      destruct (dict_get content url); [|apply keeps_ret].
      apply keeps_bind; [apply keeps_logs_external, Hquery; left; reflexivity|].
      intros [n core_hits]. apply keeps_ret.
    + intros hits'. apply IH; intros; [apply Hfind|apply Hquery]; right; assumption.
Qed.

Lemma rerank_step_logs (Ev : event -> Prop) (p0 : process) (w : world)
      (pages : list item) (q : string) :
  (forall e, Ev (EvRerank e pages q)) ->
  keeps (logs_only Ev p0) (rerank_step w pages q).
Proof.
  intros HEv p H. rewrite rerank_step_run.
  destruct (neural_api p) as [base|]; [|exact H]. cbv zeta.
  pose proof (logs_only_log Ev p0 p _ (HEv (base ++ "neural/rerank/")) H) as Hlog.
  assert (Hoff : logs_only Ev p0
                   (without_reranker
                      (log_event (EvRerank (base ++ "neural/rerank/") pages q) p))).
  { eapply logs_only_same_trace; [|exact Hlog]. reflexivity. }
  destruct (rerank_post w _ pages q) as [|code body]; [exact Hoff|].
  destruct (Nat.eqb code 200); [|exact Hlog].
  destruct body as [|[?|]]; assumption.
Qed.

(** Every external call of [cache_search] is one of [cache_search_event]. *)
Lemma cache_search_footprint (p0 : process) (w : world) (q sid : string) (idx : nat)
      (comms : dict string) (uid : string) (own toggle : bool) (ucr : option string) :
  keeps (logs_only (cache_search_event q idx comms uid own toggle ucr) p0)
        (cache_search w q sid idx comms uid own toggle ucr).
Proof.
  unfold cache_search. destruct own.
  - cbn [orb]. apply keeps_bind; [|intros [? ?]; apply keeps_ret].
    apply keeps_logs_external. simpl. auto.
  - cbn [orb]. destruct (q =? "") eqn:Hq.
    + apply String.eqb_eq in Hq. apply keeps_bind; [|intros [? ?]; apply keeps_ret].
      destruct (dict_keys comms) as [|c rest] eqn:Hkeys; [apply keeps_raise|].
      apply keeps_logs_external. simpl. rewrite Hkeys. auto.
    + apply String.eqb_neq in Hq. unfold Cache.
      apply keeps_bind.
      { apply keeps_try_except; [|apply keeps_ret].
        apply keeps_bind; [|intros; apply keeps_ret].
        apply keeps_logs_external. simpl. auto. }
      intros cache. apply keeps_bind.
      { destruct cache; [apply keeps_Cache_search|apply keeps_ret]. }
      intros [n page]. destruct page; [|apply keeps_ret].
      unfold redo_search.
      apply keeps_bind; [apply keeps_logs_external; simpl; auto|]. intros [n0 hits].
      apply keeps_bind.
      { destruct ucr as [target|]; [|apply keeps_ret].
        apply core_retrieve_logs.
        - intros c Hc. simpl. repeat split; auto. discriminate.
        - intros c terms Hc. simpl. repeat split; auto. right.
          split; [discriminate|]. exists c. auto. }
      intros hits'. apply keeps_bind.
      { destruct toggle; [|apply keeps_ret].
        apply keeps_bind; [|intros [? ?]; apply keeps_ret].
        apply keeps_logs_external. simpl. auto. }
      intros pages. apply keeps_bind.
      { apply rerank_step_logs. intros e. simpl. auto. }
      intros reranked. apply keeps_bind; [|intros; apply keeps_ret].
      destruct cache; [|apply keeps_raise].
      intros p H. eapply logs_only_same_trace; [|exact H]. reflexivity.
Qed.
End Footprint.

Section SearchFootprint.
Context {E : Externals}.

Lemma search_setup_logs (p0 : process) (w : world) (u : user) (req : search_request) :
  keeps (logs_only setup_event p0) (search_setup w u req).
Proof.
  unfold search_setup.
  destruct (derive_query _ _ _ _) as [query ucr].
  repeat first [ apply keeps_logs_external; exact I | keeps_step ].
Qed.

(** Every external call of [search] is one of [search_event]. *)
Lemma search_footprint (w : world) (u : user) (req : search_request) (p : process) :
  logs_only (search_event w u req p) p (snd (search w u req p)).
Proof.
  pose proof (search_setup_logs p w u req p (logs_only_start _ p)) as Hsetup.
  apply (logs_only_weaken _ (search_event w u req p)) in Hsetup;
    [|intros e He; left; exact He].
  unfold search, search_body, try_except. rewrite bind_run.
  unfold search_event in *.
  destruct (search_setup w u req p) as [[[resp|c]|] p1]; cbn [fst snd] in *;
    [exact Hsetup| |exact Hsetup].
  unfold run_cache_search. rewrite bind_run.
  pose proof (cache_search_footprint p1 w (c_query c) (c_search_id c) (c_page c)
                (c_communities c) (c_user_id c) (c_own_submissions c)
                (c_toggle_webpage_results c) (c_url_core_retrieve c) p1
                (logs_only_start _ p1)) as Hrun.
  apply (logs_only_weaken _ (fun e => setup_event e \/
           cache_search_event (c_query c) (c_page c) (c_communities c) (c_user_id c)
             (c_own_submissions c) (c_toggle_webpage_results c)
             (c_url_core_retrieve c) e)) in Hrun; [|intros e He; right; exact He].
  pose proof (logs_only_trans _ p p1 _ Hsetup Hrun) as Hall.
  destruct (cache_search w (c_query c) (c_search_id c) (c_page c) (c_communities c)
              (c_user_id c) (c_own_submissions c) (c_toggle_webpage_results c)
              (c_url_core_retrieve c) p1) as [[[n page]|] p2]; exact Hall.
Qed.

(** What the setup of a search that goes on to [cache_search] has
    established. *)
Lemma search_setup_inv (w : world) (u : user) (req : search_request)
      (p p1 : process) (c : cache_search_call) :
  search_setup w u req p = (Returns (inr c), p1) ->
  exists info requested,
    community_info w = Returns info
    /\ c_communities c = build_rc_dict info requested []
    /\ c_user_id c = user_id_of u
    /\ c_page c = match arg_page req with
                  | PageInt z => Z.to_nat (Z.max 0 z)
                  | _ => 0
                  end
    /\ c_url_core_retrieve c
       = snd (derive_query (py_prefix 1000 (arg_query req)) (arg_source req)
                           (py_prefix 1000 (arg_highlighted_text req)) (arg_url req))
    /\ ((arg_truthy (arg_search_id req) = false
         /\ log_search w = Returns (c_search_id c)
         /\ c_query c
            = fst (derive_query (py_prefix 1000 (arg_query req)) (arg_source req)
                                (py_prefix 1000 (arg_highlighted_text req)) (arg_url req))
         /\ c_own_submissions c = arg_truthy (arg_own_submissions req)
         /\ ((arg_community req = Some "all" /\ requested = communities_of u)
             \/ (exists community community_id,
                    arg_community req = Some community
                    /\ (community =? "all") = false
                    /\ ObjectId community = Some community_id
                    /\ py_in community_id (communities_of u) = true
                    /\ requested = [community_id]
                    /\ c_toggle_webpage_results c = false)))
        \/ (exists search_id oid prior,
               arg_search_id req = Some search_id
               /\ arg_truthy (arg_search_id req) = true
               /\ ObjectId search_id = Some oid
               /\ find_prior_search w oid = Returns (Some prior)
               /\ c_search_id c = search_id
               /\ c_query c = prior_query prior
               /\ c_own_submissions c = prior_own_submissions prior
               /\ requested = prior_community prior)).
Proof.
  unfold search_setup.
  destruct (derive_query _ _ _ _) as [query ucr].
  unfold bind, external, ret, raise.
  destruct (arg_truthy (arg_search_id req)) eqn:Hsid; cbn [negb].
  - destruct (arg_search_id req) as [search_id|] eqn:Harg; [|discriminate].
    destruct (arg_page req); try discriminate.
    all: destruct (ObjectId search_id) as [oid|] eqn:Hoid; try discriminate.
    all: destruct (find_prior_search w oid) as [[prior|]|] eqn:Hprior; try discriminate.
    all: destruct (community_info w) as [info|]; try discriminate.
    all: intros [= <- _]; exists info, (prior_community prior); cbn;
      repeat (split; [reflexivity|]); right; exists search_id, oid, prior; auto 10.
  - destruct (arg_page req); try discriminate.
    all: destruct (arg_community req) as [community|]; try discriminate.
    all: destruct (community =? "all") eqn:Hall.
    all: try (destruct (ObjectId community) as [community_id|] eqn:Hoid;
              try discriminate;
              destruct (py_in community_id (communities_of u)) eqn:Hmember;
              try discriminate).
    all: destruct (log_search w) as [sid|] eqn:Hlog; try discriminate.
    all: destruct (community_info w) as [info|]; try discriminate.
    all: intros [= <- _].
    all: first
           [ apply String.eqb_eq in Hall; subst community;
             exists info, (communities_of u); cbn;
             repeat (split; [reflexivity|]); left; auto 10
           | exists info, [community_id]; cbn;
             repeat (split; [reflexivity|]); left;
             repeat (split; [reflexivity|]); right;
             exists community, community_id;
             repeat (split; [assumption || reflexivity|]);
             match goal with |- (if ?b then _ else _) = _ => destruct b end;
             reflexivity ].
Qed.
End SearchFootprint.

Lemma dict_get_key {V} (d : dict V) (k : string) (v : V) :
  dict_get d k = Some v -> In k (dict_keys d).
Proof.
  induction d as [|[k' v'] d IH]; simpl; [discriminate|].
  destruct (k' =? k) eqn:Hk.
  - apply String.eqb_eq in Hk. auto.
  - intro H. right. apply IH, H.
Qed.

Lemma dict_set_keys {V} (d : dict V) (k k' : string) (v : V) :
  In k (dict_keys (dict_set d k' v)) -> k = k' \/ In k (dict_keys d).
Proof.
  induction d as [|[k0 v0] d IH]; simpl.
  - intros [H|[]]. auto.
  - destruct (k0 =? k'); simpl; intros [H|H]; auto.
    destruct (IH H); auto.
Qed.

Lemma build_rc_dict_keys (info : dict string) (requested : list string)
      (rc_dict : dict string) (k : string) :
  In k (dict_keys (build_rc_dict info requested rc_dict)) ->
  In k (dict_keys rc_dict) \/ (In k requested /\ In k (dict_keys info)).
Proof.
  revert rc_dict. induction requested as [|c rest IH]; intros rc_dict; simpl; [auto|].
  destruct (dict_get info c) as [name|] eqn:Hget; intro H; apply IH in H.
  - destruct H as [H|[H1 H2]]; [|auto].
    apply dict_set_keys in H. destruct H as [->|H]; [|auto].
    right. split; [auto|]. eapply dict_get_key. exact Hget.
  - destruct H as [H|[H1 H2]]; auto.
Qed.

(** The events a request has logged, read off the footprint. *)
Lemma search_logged {E : Externals} (w : world) (u : user) (req : search_request)
      (p : process) (tr : list event) (e : event) :
  trace (snd (search w u req p)) = (tr ++ trace p)%list ->
  In e tr -> search_event w u req p e.
Proof.
  intros Htr Hin. destruct (search_footprint w u req p) as [tr' [Htr' Hall]].
  assert (tr' = tr) as -> by (apply (app_inv_tail (trace p)); congruence).
  rewrite Forall_forall in Hall. apply Hall, Hin.
Qed.

(** X1.  The submissions index is only ever asked about communities of
    the requester.  Whatever the request, every query [search] sends to the
    submissions index, and every community listing it asks for, is scoped
    to communities that the user's own community table names; for a new
    search these are also communities the user is a member of. *)
Theorem search_stays_in_scope {E : Externals}
        (w : world) (u : user) (req : search_request) (p : process)
        (info : dict string) (tr : list event) :
  community_info w = Returns info ->
  trace (snd (search w u req p)) = (tr ++ trace p)%list ->
  (forall q cs, In (EvSubmissionsSearch q cs) tr ->
                incl cs (dict_keys info)
                /\ (arg_truthy (arg_search_id req) = false ->
                    forall c, In c cs -> py_in c (communities_of u) = true))
  /\ (forall c i, In (EvGetCommunity c i) tr ->
                  In c (dict_keys info)
                  /\ (arg_truthy (arg_search_id req) = false ->
                      py_in c (communities_of u) = true)).
Proof.
  intros Hinfo Htr.
  assert (Hscope : forall e, In e tr -> search_event w u req p e)
    by (intros e; apply search_logged; exact Htr).
  assert (Hkeys : forall c0 p1, search_setup w u req p = (Returns (inr c0), p1) ->
            forall k, In k (dict_keys (c_communities c0)) ->
                      In k (dict_keys info)
                      /\ (arg_truthy (arg_search_id req) = false ->
                          py_in k (communities_of u) = true)).
  { intros c0 p1 Hsetup k Hk.
    destruct (search_setup_inv w u req p p1 c0 Hsetup)
      as [info' [requested [Hinfo' [Hcomms [_ [_ [_ Hcase]]]]]]].
    rewrite Hinfo in Hinfo'. injection Hinfo' as <-.
    rewrite Hcomms in Hk. apply build_rc_dict_keys in Hk.
    destruct Hk as [[]|[Hreq Hin]]. split; [exact Hin|].
    intro Hnew.
    destruct Hcase as [[_ [_ [_ [_ Hscoped]]]]|[sid [oid [prior [_ [Hold _]]]]]];
      [|congruence].
    destruct Hscoped as [[_ ->]|[cm [cid [_ [_ [_ [Hmember [-> _]]]]]]]].
    - unfold py_in. apply existsb_exists. exists k. split; [exact Hreq|].
      apply String.eqb_refl.
    - destruct Hreq as [<-|[]]. exact Hmember. }
  split.
  - intros q cs Hin. specialize (Hscope _ Hin).
    destruct Hscope as [[]|Hrun].
    destruct (search_setup w u req p) as [[[resp|c0]|] p1] eqn:Hsetup;
      cbn [fst] in Hrun; try contradiction.
    specialize (Hkeys c0 p1 eq_refl).
    destruct Hrun as [_ [_ [[_ ->]|[_ [c1 [Hc1 ->]]]]]].
    + split; [intros k Hk; apply Hkeys, Hk|intros Hnew k Hk; apply Hkeys; assumption].
    + split; [intros k [<-|[]]; apply Hkeys, Hc1|].
      intros Hnew k [<-|[]]. apply Hkeys; assumption.
  - intros c i Hin. specialize (Hscope _ Hin).
    destruct Hscope as [[]|Hrun].
    destruct (search_setup w u req p) as [[[resp|c0]|] p1] eqn:Hsetup;
      cbn [fst] in Hrun; try contradiction.
    specialize (Hkeys c0 p1 eq_refl).
    destruct Hrun as [_ [_ [_ Hhead]]].
    apply Hkeys. destruct (dict_keys (c_communities c0)) as [|k rest];
      [discriminate|]. injection Hhead as ->. left. reflexivity.
Qed.

(** The sample search queries the submissions index over the two
    communities of [alice], both named in her community table. *)
Lemma search_stays_in_scope_witness :
  incl [community_ml; community_db]
       (dict_keys [(community_ml, "Machine learning"); (community_db, "Databases")]).
Proof.
  destruct (@search_stays_in_scope sample_externals sample_world alice (new_search "ml")
              neural_process
              [(community_ml, "Machine learning"); (community_db, "Databases")]
              [EvRerank sample_endpoint sample_pages "ml";
               EvWebpagesSearch "ml";
               EvSubmissionsSearch "ml" [community_ml; community_db];
               EvCacheConnect; EvCommunityInfo; EvLogSearch "ml"])
    as [Hqueries _].
  - reflexivity.
  - vm_compute. reflexivity.
  - apply (Hqueries "ml" [community_ml; community_db]).
    right. right. left. reflexivity.
Defined.

(** X2.  A new search whose page argument is absent, "undefined" or an integer is
    refused
    before anything is logged or queried when its community argument is
    missing, is a string [ObjectId] does not take (it has not 24
    characters, or [bytes.fromhex] does not read it), or names a community
    the user is not a member of.  The process state is left as it was: no
    search is logged, no index is queried.  A string [ObjectId] does not
    take is answered with status 500, the other two with 403. *)
Theorem search_refuses_foreign_community {E : Externals}
        (w : world) (u : user) (req : search_request) (p : process) :
  arg_truthy (arg_search_id req) = false ->
  arg_page req <> PageMalformed ->
  match arg_community req with
  | None => True
  | Some community =>
      (community =? "all") = false
      /\ match ObjectId community with
         | None => True
         | Some community_id => py_in community_id (communities_of u) = false
         end
  end ->
  snd (search w u req p) = p
  /\ fst (search w u req p)
     = Returns
         match arg_community req with
         | None => Error "You do not have access to this community." FORBIDDEN
         | Some community =>
             match ObjectId community with
             | None => Error "Community ID is invalid." INTERNAL_SERVER_ERROR
             | Some _ => Error "You do not have access to this community." FORBIDDEN
             end
         end.
Proof.
  intros Hnew Hpage Hcommunity.
  unfold search, search_body, try_except, search_setup. rewrite Hnew. cbn [negb].
  destruct (derive_query _ _ _ _) as [query ucr].
  unfold bind, external, ret, raise.
  destruct (arg_page req); try contradiction.
  all: destruct (arg_community req) as [community|]; [|split; reflexivity].
  all: destruct Hcommunity as [-> Hmember].
  all: destruct (ObjectId community) as [community_id|]; [|split; reflexivity].
  all: rewrite Hmember; split; reflexivity.
Qed.

(** [alice] searches a community she is not a member of. *)
Lemma search_refuses_foreign_community_witness :
  @search sample_externals sample_world alice
          (mk_search_request "ml" "webpage_search" "" ""
                             (Some "63a4c21aee3be6ac5c533a99") None PageAbsent None)
          neural_process
  = (Returns (Error "You do not have access to this community." FORBIDDEN),
     neural_process).
Proof.
  pose proof (@search_refuses_foreign_community sample_externals sample_world alice
                (mk_search_request "ml" "webpage_search" "" ""
                                   (Some "63a4c21aee3be6ac5c533a99") None PageAbsent None)
                neural_process) as H.
  destruct H as [Hstate Hresp].
  - reflexivity.
  - discriminate.
  - vm_compute. split; reflexivity.
  - destruct (@search sample_externals sample_world alice _ neural_process) as [r p'].
    cbn [fst snd] in *. rewrite Hstate, Hresp. reflexivity.
Defined.

(** X3.  A new search over one named community never queries the
    webpages index (lines 670-671), whatever its query. *)
Theorem single_community_search_skips_webpages {E : Externals}
        (w : world) (u : user) (req : search_request) (p : process)
        (community : string) :
  arg_truthy (arg_search_id req) = false ->
  arg_community req = Some community ->
  (community =? "all") = false ->
  webpage_queries (trace (snd (search w u req p))) = webpage_queries (trace p).
Proof.
  intros Hnew Hcommunity Hall.
  pose proof (search_setup_skips_webpages (webpage_queries (trace p)) w u req p eq_refl)
    as Hsetup.
  unfold search, search_body, try_except. rewrite bind_run.
  destruct (search_setup w u req p) as [[[resp|c]|] p1] eqn:Hrun; cbn [snd] in *;
    [exact Hsetup| |exact Hsetup].
  assert (Htoggle : c_toggle_webpage_results c = false).
  { destruct (search_setup_inv w u req p p1 c Hrun)
      as [info [requested [_ [_ [_ [_ [_ Hcase]]]]]]].
    destruct Hcase as [[_ [_ [_ [_ Hscoped]]]]|[sid [oid [prior [_ [Hold _]]]]]];
      [|congruence].
    destruct Hscoped as [[Hsome _]|[cm [cid [_ [_ [_ [_ [_ Hoff]]]]]]]]; [|exact Hoff].
    rewrite Hcommunity in Hsome. injection Hsome as ->. discriminate. }
  unfold run_cache_search. rewrite bind_run, Htoggle.
  pose proof (cache_search_skips_webpages (webpage_queries (trace p)) w (c_query c)
                (c_search_id c) (c_page c) (c_communities c) (c_user_id c)
                (c_own_submissions c) (c_url_core_retrieve c) p1 Hsetup) as Hcs.
  destruct (cache_search w (c_query c) (c_search_id c) (c_page c) (c_communities c)
              (c_user_id c) (c_own_submissions c) false (c_url_core_retrieve c) p1)
    as [[[n page]|] p2]; exact Hcs.
Qed.

(** [alice] searches her machine-learning community: the webpages index is
    not queried. *)
Lemma single_community_search_skips_webpages_witness :
  webpage_queries
    (trace (snd (@search sample_externals sample_world alice
                   (mk_search_request "ml" "webpage_search" "" "" (Some community_ml)
                                      None PageAbsent None)
                   neural_process))) = 0.
Proof.
  apply (@single_community_search_skips_webpages sample_externals sample_world alice
           (mk_search_request "ml" "webpage_search" "" "" (Some community_ml)
                              None PageAbsent None)
           neural_process community_ml); reflexivity.
Defined.

(** X4.  A request for a further page, with a page argument that is
    absent, "undefined" or an integer, of a search that is not on record is
    answered "Cannot find search to page." with status 404 after the one
    lookup; a search id that
    [ObjectId] does not take (it has not 24 characters, or [bytes.fromhex]
    does not read it) ends in the handler of lines 759-762 with nothing
    logged.  Neither queries an index. *)
Theorem paging_an_unknown_search_fails {E : Externals}
        (w : world) (u : user) (req : search_request) (p : process)
        (search_id : string) :
  arg_search_id req = Some search_id ->
  search_id <> "" ->
  arg_page req <> PageMalformed ->
  (forall oid,
      ObjectId search_id = Some oid ->
      find_prior_search w oid = Returns None ->
      search w u req p
      = (Returns (Error "Cannot find search to page." NOT_FOUND),
         log_event (EvFindSearch search_id) p))
  /\ (ObjectId search_id = None -> search w u req p = (Returns search_failed, p)).
Proof.
  intros Hsid Hne Hpage.
  assert (Htruthy : arg_truthy (arg_search_id req) = true).
  { rewrite Hsid. simpl. apply negb_true_iff, py_not_false, Hne. }
  unfold search, search_body, try_except, search_setup. rewrite Htruthy, Hsid.
  cbn [negb].
  destruct (derive_query _ _ _ _) as [query ucr].
  unfold bind, external, ret, raise.
  split.
  - intros oid Hoid Hnone. rewrite Hoid, Hnone.
    destruct (arg_page req); try contradiction; reflexivity.
  - intros Hoid. rewrite Hoid.
    destruct (arg_page req); try contradiction; reflexivity.
Qed.

(** The sample world has no search on record. *)
Lemma paging_an_unknown_search_fails_witness :
  @search sample_externals sample_world alice
          (mk_search_request "" "webpage_search" "" "" None None (PageInt 1)
                             (Some "64b000000000000000000009"))
          neural_process
  = (Returns (Error "Cannot find search to page." NOT_FOUND),
     log_event (EvFindSearch "64b000000000000000000009") neural_process).
Proof.
  destruct (@paging_an_unknown_search_fails sample_externals sample_world alice
              (mk_search_request "" "webpage_search" "" "" None None (PageInt 1)
                                 (Some "64b000000000000000000009"))
              neural_process "64b000000000000000000009") as [Hunknown _].
  - reflexivity.
  - discriminate.
  - discriminate.
  - apply (Hunknown "64b000000000000000000009").
    + vm_compute. reflexivity.
    + reflexivity.
Defined.

(** X5.  A new search with the argument own_submissions set, to any
    non-empty value (the string "false" included), reads the user's own
    submissions and nothing else: apart from the bookkeeping of the search
    itself, the only external call is the listing of the requester's own
    submissions at the requested page.  Neither index is searched, the
    cache is not contacted and the reranker is not called. *)
Theorem own_submissions_search_reads_only_own {E : Externals}
        (w : world) (u : user) (req : search_request) (p : process)
        (tr : list event) :
  arg_truthy (arg_search_id req) = false ->
  arg_truthy (arg_own_submissions req) = true ->
  trace (snd (search w u req p)) = (tr ++ trace p)%list ->
  forall e, In e tr ->
    setup_event e
    \/ e = EvGetSubmissions (user_id_of u)
                            match arg_page req with
                            | PageInt z => Z.to_nat (Z.max 0 z)
                            | _ => 0
                            end.
Proof.
  intros Hnew Hown Htr e Hin.
  pose proof (search_logged w u req p tr e Htr Hin) as [Hsetup|Hrun]; [left; exact Hsetup|].
  right.
  destruct (search_setup w u req p) as [[[resp|c]|] p1] eqn:Hsetup; cbn [fst] in Hrun;
    try contradiction.
  destruct (search_setup_inv w u req p p1 c Hsetup)
    as [info [requested [_ [_ [Huser [Hpage [_ Hcase]]]]]]].
  destruct Hcase as [[_ [_ [_ [Hflag _]]]]|[sid [oid [prior [_ [Hold _]]]]]];
    [|congruence].
  rewrite Hown in Hflag.
  unfold cache_search_event in Hrun. rewrite Hflag in Hrun.
  destruct e; try contradiction; try (destruct Hrun as [Hrun _]; discriminate).
  destruct Hrun as [_ [-> ->]]. rewrite Huser, Hpage. reflexivity.
Qed.

(** [alice] asks for page 2 of her own submissions with
    own_submissions=false in the query string. *)
Lemma own_submissions_search_reads_only_own_witness :
  setup_event (EvGetSubmissions "63a4c201ee3be6ac5c533b01" 2)
  \/ EvGetSubmissions "63a4c201ee3be6ac5c533b01" 2
     = EvGetSubmissions "63a4c201ee3be6ac5c533b01" 2.
Proof.
  apply (@own_submissions_search_reads_only_own sample_externals sample_world alice
           (mk_search_request "ml" "webpage_search" "" "" (Some "all") (Some "false")
                              (PageInt 2) None)
           neural_process
           [EvGetSubmissions "63a4c201ee3be6ac5c533b01" 2; EvCommunityInfo;
            EvLogSearch "ml"]);
    [reflexivity|reflexivity|reflexivity|left; reflexivity].
Defined.

(** X6.  The page argument is clamped at zero (lines 656-660): a request
    for a page below zero, and a request whose page is the string
    "undefined", are served exactly as the request without a page
    argument, that is as page 0. *)
Theorem page_below_zero_is_page_zero {E : Externals}
        (w : world) (u : user) (req : search_request) (p : process) (z : Z) :
  (z <= 0)%Z ->
  search w u (with_page req (PageInt z)) p = search w u (with_page req PageAbsent) p
  /\ search w u (with_page req PageUndefined) p
     = search w u (with_page req PageAbsent) p.
Proof.
  intros Hz. split; [|reflexivity].
  unfold search, search_body, search_setup, with_page.
  cbn [arg_page arg_query arg_source arg_highlighted_text arg_url arg_community
       arg_own_submissions arg_search_id].
  replace (Z.to_nat (Z.max 0 z)) with 0 by lia.
  reflexivity.
Qed.

Lemma page_below_zero_is_page_zero_witness :
  @search sample_externals sample_world alice
          (with_page (new_search "ml") (PageInt (-3))) neural_process
  = @search sample_externals sample_world alice
            (with_page (new_search "ml") PageAbsent) neural_process.
Proof.
  apply (@page_below_zero_is_page_zero sample_externals sample_world alice
           (new_search "ml") neural_process (-3)%Z). lia.
Defined.

Lemma build_rc_dict_unnamed (info : dict string) (requested : list string)
      (rc_dict : dict string) :
  (forall c, In c requested -> dict_get info c = None) ->
  build_rc_dict info requested rc_dict = rc_dict.
Proof.
  revert rc_dict. induction requested as [|c rest IH]; intros rc_dict Hnone; [reflexivity|].
  simpl. rewrite (Hnone c (or_introl eq_refl)). apply IH.
  intros c' Hin. apply Hnone. right. exact Hin.
Qed.

(** X7.  Browsing with nothing in scope fails.  Take a new search over
    "all" communities, without own_submissions, with a page argument that
    is absent, "undefined" or an integer, whose query is empty after the derivation of
    lines 634-650 (nothing typed, and nothing derived from the url or the
    highlighted text of a page-open or automatic-note request), by a user
    none of whose communities is named in the community table (a user
    without communities, for one), while the log of searches and the
    community table answer.  It reaches line 1058,
    [list(communities.keys())[0]] on an empty dictionary: the search is
    logged, no index is asked, and the answer is the error of lines
    759-762 with status 500. *)
Theorem browsing_without_a_community_fails {E : Externals}
        (w : world) (u : user) (req : search_request) (p : process)
        (info : dict string) (search_id : string) :
  arg_truthy (arg_search_id req) = false ->
  arg_community req = Some "all" ->
  arg_truthy (arg_own_submissions req) = false ->
  arg_page req <> PageMalformed ->
  fst (derive_query (py_prefix 1000 (arg_query req)) (arg_source req)
                    (py_prefix 1000 (arg_highlighted_text req)) (arg_url req)) = "" ->
  log_search w = Returns search_id ->
  community_info w = Returns info ->
  (forall c, In c (communities_of u) -> dict_get info c = None) ->
  search w u req p
  = (Returns search_failed, log_event EvCommunityInfo (log_event (EvLogSearch "") p)).
Proof.
  intros Hnew Hall Hown Hpage Hquery Hlog Hinfo Hnone.
  unfold search, search_body, try_except, search_setup.
  rewrite Hnew, Hall, Hown. cbn [negb].
  destruct (derive_query _ _ _ _) as [query ucr]. cbn [fst] in Hquery. subst query.
  rewrite String.eqb_refl.
  unfold bind, external, ret, raise. rewrite Hlog, Hinfo.
  destruct (arg_page req); try contradiction.
  all: cbv beta iota zeta.
  all: rewrite (build_rc_dict_unnamed info (communities_of u) [] Hnone).
  all: reflexivity.
Qed.

(** A user without communities opens the search page. *)
Lemma browsing_without_a_community_fails_witness :
  @search sample_externals sample_world (mk_user "63a4c201ee3be6ac5c533b07" [])
          (new_search "") neural_process
  = (Returns search_failed,
     log_event EvCommunityInfo (log_event (EvLogSearch "") neural_process)).
Proof.
  apply (@browsing_without_a_community_fails sample_externals sample_world
           (mk_user "63a4c201ee3be6ac5c533b07" []) (new_search "") neural_process
           [(community_ml, "Machine learning"); (community_db, "Databases")]
           "64b000000000000000000001"); try reflexivity.
  - discriminate.
  - intros c [].
Defined.

(* ================================================================== *)
(** * Writes of the lifecycle handlers *)
(* ================================================================== *)

Lemma answers_ret {A} (status_of : A -> status) (S : status -> Prop) (a : A) :
  S (status_of a) -> answers status_of S (ret a).
Proof. intros H p. exact H. Qed.

Lemma answers_raise {A} (status_of : A -> status) (S : status -> Prop) :
  answers status_of S (@raise A).
Proof. intros p. exact I. Qed.

Lemma answers_bind {A B} (status_of : B -> status) (S : status -> Prop)
      (c : M A) (k : A -> M B) :
  (forall a, answers status_of S (k a)) -> answers status_of S (bind c k).
Proof.
  intros Hk p. unfold bind. destruct (c p) as [[a|] p']; [apply Hk|exact I].
Qed.

Lemma answers_try_except {A} (status_of : A -> status) (S : status -> Prop)
      (c h : M A) :
  answers status_of S c -> answers status_of S h -> answers status_of S (try_except c h).
Proof.
  intros Hc Hh p. unfold try_except. specialize (Hc p).
  destruct (c p) as [[a|] p']; [exact Hc|apply Hh].
Qed.

Ltac answers_step :=
  match goal with
  | |- answers _ _ (bind _ _) => apply answers_bind; intros
  | |- answers _ _ (ret _) => apply answers_ret
  | |- answers ?f ?S (fun p : process => (Returns ?a, p)) => apply (answers_ret f S a)
  | |- answers _ _ raise => apply answers_raise
  | |- answers _ _ (try_except _ _) => apply answers_try_except
  | |- answers _ _ (match (_, _) with _ => _ end) => cbv beta iota
  | |- answers _ _ (let '(_, _) := ?x in _) => destruct x
  | |- answers _ _ (if ?b then _ else _) => destruct b
  | |- answers _ _ (match ?x with _ => _ end) => destruct x
  end.

(** X8.  A submission is validated before anything is written.  Whenever
    [create_submission_helper] answers with status 403 or 400, no
    submission id is returned and nothing was inserted, indexed, scraped or
    sent to the community core: at most the community was looked up. *)
Theorem rejected_submission_writes_nothing {E : Externals}
        (st : store) (user_id : string) (user_communities : list string)
        (highlighted_text source_url explanation : option string) (community : string)
        (p : process) (message : string) (status : status)
        (submission_id : option string) :
  fst (create_submission_helper st user_id user_communities highlighted_text
                                source_url explanation community p)
  = Returns (Reply message status, submission_id) ->
  status = FORBIDDEN \/ status = BAD_REQUEST ->
  submission_id = None
  /\ (snd (create_submission_helper st user_id user_communities highlighted_text
                                    source_url explanation community p) = p
      \/ snd (create_submission_helper st user_id user_communities highlighted_text
                                       source_url explanation community p)
         = log_event (EvDatabase "communities.find_one") p).
Proof.
  unfold create_submission_helper. cbv zeta.
  destruct ((community =? web_community) && negb (user_id =? web_admin));
    [intros [= _ _ <-] _; auto|].
  destruct (community =? ""); [intros [= _ _ <-] _; auto|].
  unfold object_id. rewrite bind_run.
  destruct (ObjectId community) as [community_id|]; cbv beta iota delta [ret raise];
    [|discriminate].
  rewrite bind_run, external_run.
  destruct (find_community st community_id) as [found|]; [|discriminate].
  destruct (negb found); [intros [= _ _ <-] _; auto|].
  destruct (negb (py_in community_id user_communities)); [intros [= _ _ <-] _; auto|].
  destruct (negb (arg_truthy explanation) || negb (arg_truthy source_url));
    [intros [= _ _ <-] _; auto|].
  destruct (validate_submission _ explanation source_url) as [validated text].
  destruct (negb validated); [intros [= _ _ <-] _; auto|].
  intros Hrun Hstatus. exfalso.
  match type of Hrun with
  | fst (?c ?q) = _ =>
      assert (Hc : answers (fun a : reply * option string => reply_status (fst a))
                           written_status c)
  end.
  { repeat answers_step; cbn; unfold written_status; auto. }
  specialize (Hc (log_event (EvDatabase "communities.find_one") p)).
  rewrite Hrun in Hc. cbn in Hc.
  destruct Hc as [->| ->], Hstatus; discriminate.
Qed.

(** [alice] submits to a community she is not a member of. *)
Lemma rejected_submission_writes_nothing_witness :
  snd (@create_submission_helper sample_externals sample_store (user_id_of alice)
         (communities_of alice) (Some "") (Some "https://a.example") (Some "a page")
         "63a4c21aee3be6ac5c533a99" (fresh_process None))
  = fresh_process None
  \/ snd (@create_submission_helper sample_externals sample_store (user_id_of alice)
            (communities_of alice) (Some "") (Some "https://a.example") (Some "a page")
            "63a4c21aee3be6ac5c533a99" (fresh_process None))
     = log_event (EvDatabase "communities.find_one") (fresh_process None).
Proof.
  apply (@rejected_submission_writes_nothing sample_externals sample_store
           (user_id_of alice) (communities_of alice) (Some "")
           (Some "https://a.example") (Some "a page") "63a4c21aee3be6ac5c533a99"
           (fresh_process None) "Error: You do not have access to this community."
           FORBIDDEN None).
  - reflexivity.
  - left. reflexivity.
Defined.

(** X9.  The community core cannot fail the creation of a submission.
    Whatever the community-core store does, raising included (the
    [try]/[except] of lines 982-991), [create_submission_helper] makes the
    same calls and gives the same answer. *)
Theorem creation_survives_core_store {E : Externals}
        (st : store) (update : string -> string -> list string -> string -> outcome unit)
        (user_id : string) (user_communities : list string)
        (highlighted_text source_url explanation : option string) (community : string)
        (p : process) :
  create_submission_helper (with_core_update st update) user_id user_communities
                           highlighted_text source_url explanation community p
  = create_submission_helper st user_id user_communities highlighted_text source_url
                             explanation community p.
Proof.
  unfold create_submission_helper. cbv zeta.
  destruct ((community =? web_community) && negb (user_id =? web_admin)); [reflexivity|].
  destruct (community =? ""); [reflexivity|].
  unfold object_id. rewrite !bind_run.
  destruct (ObjectId community) as [community_id|]; cbv beta iota delta [ret raise];
    [|reflexivity].
  rewrite !bind_run, !external_run. cbn [find_community with_core_update].
  destruct (find_community st community_id) as [found|]; [|reflexivity].
  destruct (negb found); [reflexivity|].
  destruct (negb (py_in community_id user_communities)); [reflexivity|].
  destruct (negb (arg_truthy explanation) || negb (arg_truthy source_url)); [reflexivity|].
  destruct (validate_submission _ explanation source_url) as [validated text].
  destruct (negb validated); [reflexivity|].
  rewrite !bind_run, !external_run. cbn [log_submission with_core_update].
  destruct (log_submission st) as [[inserted_id|]|]; [|reflexivity|reflexivity].
  rewrite !bind_run, !external_run. cbn [add_to_index with_core_update].
  destruct (add_to_index st _) as [hashtags|]; [|reflexivity].
  rewrite !bind_run. unfold try_except.
  destruct (py_in core_tag hashtags); [|reflexivity].
  unfold community_core_update. rewrite !external_run.
  cbn [core_update with_core_update scrape_and_index].
  destruct (update _ _ _ _) as [[]|], (core_update st _ _ _ _) as [[]|]; reflexivity.
Qed.

(** X10.  Deleting a submission is not undone when the community core
    fails.  When the update that marks the submission deleted is
    acknowledged and the document is removed from the index, and the
    submission is core content, a community-core store that raises on the
    first update makes DELETE answer the error of lines 576-579 with status
    500, after the record was marked and the document removed. *)
Theorem delete_fails_after_the_write {E : Externals}
        (st : store) (current_user : user) (id oid : string)
        (old_record : submission_doc) (community : string) (rest : list string)
        (p : process) :
  ObjectId id = Some oid ->
  update_acknowledged st = Returns true ->
  delete_document st = Returns tt ->
  find_submission st oid = Returns (Some old_record) ->
  py_in core_tag
        (list_set (extract_hashtags (s_explanation old_record)
                   ++ extract_hashtags (s_highlighted_text old_record))) = true ->
  dict_get (s_communities old_record) (user_id_of current_user)
  = Some (community :: rest) ->
  core_update st community (standardize_url (s_source_url old_record)) [] oid = Raises ->
  submission_DELETE st current_user id None p
  = (Returns submission_failed,
     log_event (EvCoreUpdate community (standardize_url (s_source_url old_record)) [] oid)
       (log_event (EvDatabase "logs.find_one")
          (log_event (EvDatabase "elastic.delete_document")
             (log_event (EvDatabase "logs.update_one") p)))).
Proof.
  intros Hid Hack Hdel Hfind Hcore Hshared Hdown.
  unfold submission_DELETE, try_except, object_id. cbn [arg_truthy negb].
  rewrite Hid. unfold bind, external, ret.
  rewrite Hack, Hdel, Hfind, Hcore, Hshared. cbn [update_each].
  unfold bind, community_core_update, external. rewrite Hdown. reflexivity.
Qed.

(** [alice] deletes her core submission while the community-core store is
    down. *)
Lemma delete_fails_after_the_write_witness :
  @submission_DELETE sample_externals (core_store_down sample_store) alice
                     core_submission_id None (fresh_process None)
  = (Returns submission_failed,
     log_event (EvCoreUpdate community_ml "https://a.example" [] core_submission_id)
       (log_event (EvDatabase "logs.find_one")
          (log_event (EvDatabase "elastic.delete_document")
             (log_event (EvDatabase "logs.update_one") (fresh_process None))))).
Proof.
  apply (@delete_fails_after_the_write sample_externals (core_store_down sample_store)
           alice core_submission_id core_submission_id core_submission community_ml []
           (fresh_process None)); reflexivity.
Defined.

(** X11.  The handler of DELETE makes no ownership check of its own.  For
    every requester, the submitter or not, an acknowledged update is
    followed by the removal of the document from the index; for a
    submission that is not core content the answer is "Deletion
    successful." with status 200.  The requester enters only the filter of
    the database update (line 321), whose acknowledgement is all the
    handler reads. *)
Theorem delete_checks_no_ownership {E : Externals}
        (st : store) (current_user : user) (id oid : string)
        (old_record : submission_doc) (p : process) :
  ObjectId id = Some oid ->
  update_acknowledged st = Returns true ->
  delete_document st = Returns tt ->
  find_submission st oid = Returns (Some old_record) ->
  py_in core_tag
        (list_set (extract_hashtags (s_explanation old_record)
                   ++ extract_hashtags (s_highlighted_text old_record))) = false ->
  submission_DELETE st current_user id None p
  = (Returns (Reply "Deletion successful." OK),
     log_event (EvDatabase "logs.find_one")
       (log_event (EvDatabase "elastic.delete_document")
          (log_event (EvDatabase "logs.update_one") p))).
Proof.
  intros Hid Hack Hdel Hfind Hcore.
  unfold submission_DELETE, try_except, object_id. cbn [arg_truthy negb].
  rewrite Hid. unfold bind, external, ret.
  rewrite Hack, Hdel, Hfind, Hcore. reflexivity.
Qed.

(** [bob] deletes a submission of [alice]. *)
Lemma delete_checks_no_ownership_witness :
  @submission_DELETE sample_externals plain_store bob core_submission_id None
                     (fresh_process None)
  = (Returns (Reply "Deletion successful." OK),
     log_event (EvDatabase "logs.find_one")
       (log_event (EvDatabase "elastic.delete_document")
          (log_event (EvDatabase "logs.update_one") (fresh_process None)))).
Proof.
  apply (@delete_checks_no_ownership sample_externals plain_store bob
           core_submission_id core_submission_id plain_submission (fresh_process None));
    reflexivity.
Defined.

Lemma refused_edit_run {E : Externals}
      (st : store) (current_user : user) (id : string) (request_json : patch_request)
      (p p' : process) (message : string) (status : status) :
  submission_PATCH st current_user id request_json p
  = (Returns (Reply message status), p') ->
  status = BAD_REQUEST \/ status = FORBIDDEN \/ status = NOT_FOUND ->
  p' = p \/ p' = log_event (EvDatabase "logs.find_one") p.
Proof.
  unfold submission_PATCH. cbv zeta. unfold try_except at 1.
  destruct (negb (arg_truthy (patch_community_id request_json))
            && negb (arg_truthy (patch_highlighted_text request_json))
            && negb (arg_truthy (patch_explanation request_json)));
    [intros [= _ _ <-] _; left; reflexivity|].
  rewrite bind_run.
  unfold try_except at 1, object_id at 1. rewrite bind_run.
  destruct (ObjectId id) as [oid|]; cbv beta iota delta [raise];
    [|intros [= _ _ <-] _; left; reflexivity].
  unfold ret at 1. cbv beta iota. rewrite bind_run, external_run.
  destruct (find_submission st oid) as [[submission|]|];
    [| intros [= _ _ <-] _; right; reflexivity | intros [= _ _ <-] _; right; reflexivity].
  unfold ret at 1. cbv beta iota.
  destruct (negb (s_user_id submission =? user_id_of current_user));
    [intros [= _ _ <-] _; right; reflexivity|].
  rewrite bind_run.
  pose (joined :=
          if arg_truthy (patch_community_id request_json)
          then match ObjectId (or_else (patch_community_id request_json) "") with
               | Some community_id =>
                   if negb (py_in community_id (communities_of current_user))
                   then Returns (inl (Reply "Must include a community_id." FORBIDDEN))
                   else Returns (inr (Some community_id,
                                      share_with (s_communities submission)
                                                 (user_id_of current_user) community_id))
               | None => Raises
               end
          else Returns (inr (None, s_communities submission))).
  assert (Hjoin :
    forall q,
      (if arg_truthy (patch_community_id request_json)
       then community_id <- object_id (or_else (patch_community_id request_json) "") ;;
            if negb (py_in community_id (communities_of current_user))
            then ret (inl (Reply "Must include a community_id." FORBIDDEN))
            else ret (inr (Some community_id,
                           share_with (s_communities submission)
                                      (user_id_of current_user) community_id))
       else ret (inr (None, s_communities submission))) q
      = (joined, q)).
  { intros q. unfold joined.
    destruct (arg_truthy (patch_community_id request_json)); [|reflexivity].
    unfold object_id. rewrite bind_run.
    destruct (ObjectId _) as [community_id|]; [|reflexivity].
    cbv beta iota delta [ret]. destruct (negb _); reflexivity. }
  rewrite Hjoin. clearbody joined. clear Hjoin.
  destruct joined as [[resp|[community_id comms]]|];
    [intros [= _ <-] _; right; reflexivity| |intros [= _ _ <-] _; right; reflexivity].
  cbv beta iota.
  destruct (if is_some (patch_highlighted_text request_json)
               || is_some (patch_explanation request_json)
               || is_some (patch_url request_json)
            then validate_submission (patch_highlighted_text request_json)
                                     (patch_explanation request_json)
                                     (patch_url request_json)
            else (true, "")) as [validated text].
  destruct (negb validated); [intros [= _ _ <-] _; right; reflexivity|].
  intros Hrun Hstatus. exfalso.
  match type of Hrun with
  | match ?c ?q with _ => _ end = _ =>
      assert (Hc : answers reply_status written_status c);
        [|specialize (Hc q); destruct (c q) as [[r|] q']]
  end; cbn [fst] in *.
  - repeat answers_step; cbn; unfold written_status; auto.
  - injection Hrun as -> _. cbn in Hc.
    destruct Hc as [Hc|Hc], Hstatus as [?|[?|?]]; congruence.
  - injection Hrun as _ Hfailed _. destruct Hstatus as [?|[?|?]]; congruence.
Qed.

(** X12.  An edit is refused before anything is written.  Whenever PATCH
    answers with status 400, 403 or 404, the handler has at most looked
    the submission up: the record was not updated, the index was not
    touched and the community core was not called.  This covers the
    request without fields, the unknown or malformed id, the requester who
    is not the submitter, the community the requester is not a member of,
    and the edit that does not validate. *)
Theorem refused_edit_writes_nothing {E : Externals}
        (st : store) (current_user : user) (id : string) (request_json : patch_request)
        (p : process) (message : string) (status : status) :
  fst (submission_PATCH st current_user id request_json p)
  = Returns (Reply message status) ->
  status = BAD_REQUEST \/ status = FORBIDDEN \/ status = NOT_FOUND ->
  snd (submission_PATCH st current_user id request_json p) = p
  \/ snd (submission_PATCH st current_user id request_json p)
     = log_event (EvDatabase "logs.find_one") p.
Proof.
  intros Hrun Hstatus.
  destruct (submission_PATCH st current_user id request_json p) as [r p'] eqn:Heq.
  cbn [fst snd] in *. subst r.
  exact (refused_edit_run st current_user id request_json p p' message status Heq Hstatus).
Qed.

(** [bob] tries to edit a submission of [alice]. *)
Lemma refused_edit_writes_nothing_witness :
  snd (@submission_PATCH sample_externals sample_store bob core_submission_id
         (mk_patch None None (Some "mine now") None) (fresh_process None))
  = fresh_process None
  \/ snd (@submission_PATCH sample_externals sample_store bob core_submission_id
            (mk_patch None None (Some "mine now") None) (fresh_process None))
     = log_event (EvDatabase "logs.find_one") (fresh_process None).
Proof.
  apply (@refused_edit_writes_nothing sample_externals sample_store bob
           core_submission_id (mk_patch None None (Some "mine now") None)
           (fresh_process None) "You do not have permission to edit this submission."
           FORBIDDEN).
  - reflexivity.
  - right. left. reflexivity.
Defined.

(** X13.  A requester without an entry cannot take a submission out of a
    community.  When the requester has no entry in the communities of the
    submission, DELETE with a community id reaches line 353,
    [submission_communities[user_id]] on a missing key: the answer is the
    error of lines 576-579 with status 500, and nothing was written; the
    submission was only looked up. *)
Theorem removal_by_a_stranger_fails {E : Externals}
        (st : store) (current_user : user) (id oid community community_id : string)
        (current_submission : submission_doc) (p : process) :
  community <> "" ->
  ObjectId community = Some community_id ->
  ObjectId id = Some oid ->
  find_submission st oid = Returns (Some current_submission) ->
  dict_get (s_communities current_submission) (user_id_of current_user) = None ->
  submission_DELETE st current_user id (Some community) p
  = (Returns submission_failed, log_event (EvDatabase "logs.find_one") p).
Proof.
  intros Hcommunity Hcid Hid Hfind Hstranger.
  unfold submission_DELETE, try_except, object_id. cbn [arg_truthy or_else].
  apply py_not_false in Hcommunity. rewrite Hcommunity. cbn [negb].
  rewrite Hcid, Hid. unfold bind, external, ret, raise.
  rewrite Hfind. cbv beta iota zeta.
  repeat (rewrite Hstranger; cbv beta iota zeta). reflexivity.
Qed.

(** [bob] tries to take [alice]'s submission out of her community. *)
Lemma removal_by_a_stranger_fails_witness :
  @submission_DELETE sample_externals sample_store bob core_submission_id
                     (Some community_ml) (fresh_process None)
  = (Returns submission_failed,
     log_event (EvDatabase "logs.find_one") (fresh_process None)).
Proof.
  apply (@removal_by_a_stranger_fails sample_externals sample_store bob
           core_submission_id core_submission_id community_ml community_ml
           core_submission (fresh_process None)); try reflexivity.
  discriminate.
Defined.

(** X14.  The block on the web community goes by spelling.  Line 956
    compares the form field with the id written in lower case, while the
    membership test of line 963 goes through [ObjectId], which reads
    either case.  So a member of the web community who is not its
    administrator, and who writes the id in any other spelling, is not
    stopped: with an explanation and a url that validate and services that
    answer, the submission is inserted for the web community and the answer
    has status 200. *)
Theorem web_community_block_goes_by_spelling {E : Externals}
        (st : store) (user_id : string) (user_communities : list string)
        (highlighted_text : option string) (source_url explanation community : string)
        (inserted_id : string) (hashtags : list string) (p : process) :
  community <> web_community ->
  ObjectId community = Some web_community ->
  find_community st web_community = Returns true ->
  py_in web_community user_communities = true ->
  explanation <> "" ->
  source_url <> "" ->
  fst (validate_submission (Some (or_else highlighted_text "")) (Some explanation)
                           (Some source_url)) = true ->
  log_submission st = Returns (Some inserted_id) ->
  add_to_index st (mk_submission inserted_id user_id explanation
                                 (or_else highlighted_text "") source_url
                                 [(user_id, [web_community])]) = Returns hashtags ->
  scrape_and_index st source_url = Returns tt ->
  fst (create_submission_helper st user_id user_communities highlighted_text
                                (Some source_url) (Some explanation) community p)
  = Returns (Reply "Context successfully submitted and indexed." OK, Some inserted_id).
Proof.
  intros Hspelling Hid Hfound Hmember Hexplanation Hurl Hvalid Hlog Hindex Hscrape.
  unfold create_submission_helper. cbv zeta.
  apply String.eqb_neq in Hspelling. rewrite Hspelling. cbn [andb].
  assert (Hne : (community =? "") = false).
  { apply String.eqb_neq. intros ->. discriminate. }
  rewrite Hne. unfold object_id. rewrite Hid, bind_run.
  cbv beta iota delta [ret]. rewrite bind_run, external_run, Hfound. cbn [negb].
  rewrite Hmember. cbn [negb arg_truthy].
  apply py_not_false in Hexplanation, Hurl. rewrite Hexplanation, Hurl. cbn [negb orb].
  destruct (validate_submission _ _ _) as [validated message]. cbn [fst] in Hvalid.
  subst validated. cbn [negb or_else].
  rewrite bind_run, external_run, Hlog. cbv beta iota.
  rewrite bind_run, external_run. cbn [or_else] in *. rewrite Hindex.
  cbv beta iota. rewrite bind_run. unfold try_except.
  destruct (py_in core_tag hashtags).
  - unfold community_core_update. rewrite external_run.
    destruct (core_update st _ _ _ _) as [[]|];
      rewrite bind_run, external_run, Hscrape; reflexivity.
  - rewrite bind_run, external_run, Hscrape. reflexivity.
Qed.

(** [carol], a member of the web community, submits to it with the id in
    upper case. *)
Lemma web_community_block_goes_by_spelling_witness :
  fst (@create_submission_helper sample_externals sample_store (user_id_of carol)
         (communities_of carol) (Some "") (Some "https://a.example") (Some "a page")
         web_community_upper (fresh_process None))
  = Returns (Reply "Context successfully submitted and indexed." OK,
             Some core_submission_id).
Proof.
  apply (@web_community_block_goes_by_spelling sample_externals sample_store
           (user_id_of carol) (communities_of carol) (Some "") "https://a.example"
           "a page" web_community_upper core_submission_id [] (fresh_process None));
    try reflexivity; discriminate.
Defined.

Lemma dict_get_set_same {V} (d : dict V) (k : string) (v : V) :
  dict_get (dict_set d k v) k = Some v.
Proof.
  induction d as [|[k' v'] d IH]; simpl.
  - now rewrite String.eqb_refl.
  - destruct (k' =? k) eqn:Hk; simpl; rewrite Hk; [reflexivity|exact IH].
Qed.

Lemma dict_get_set_other {V} (d : dict V) (k k' : string) (v : V) :
  k' <> k -> dict_get (dict_set d k v) k' = dict_get d k'.
Proof.
  intros Hne. induction d as [|[k0 v0] d IH]; simpl.
  - destruct (k =? k') eqn:Hk; [apply String.eqb_eq in Hk; congruence|reflexivity].
  - destruct (k0 =? k) eqn:Hk; simpl.
    + apply String.eqb_eq in Hk. subst k0.
      destruct (k =? k') eqn:Hk'; [apply String.eqb_eq in Hk'; congruence|reflexivity].
    + destruct (k0 =? k'); [reflexivity|exact IH].
Qed.

Lemma py_in_app_last (x : string) (l : list string) : py_in x (l ++ [x]) = true.
Proof.
  unfold py_in. rewrite existsb_app. simpl. rewrite String.eqb_refl.
  now rewrite orb_true_r.
Qed.

(** The list of the user after [share_with]. *)
Lemma share_with_get (d : dict (list string)) (user_id community_id : string) :
  exists shared,
    dict_get (share_with d user_id community_id) user_id = Some shared
    /\ py_in community_id shared = true.
Proof.
  unfold share_with.
  destruct (dict_get d user_id) as [shared|] eqn:Hget; cbn [is_some].
  - rewrite Hget. destruct (py_in community_id shared) eqn:Hin.
    + exists shared. auto.
    + exists (shared ++ [community_id])%list.
      split; [apply dict_get_set_same|apply py_in_app_last].
  - rewrite dict_get_set_same. cbn [py_in existsb].
    exists [community_id]. split; [apply dict_get_set_same|].
    cbn. now rewrite String.eqb_refl.
Qed.

(** X15.  Adding a submission to a community (lines 425-428) is
    idempotent and touches one user's list only: afterwards the community
    is in the list of the user, doing it a second time changes nothing, and
    the lists of the other users are as they were. *)
Theorem sharing_is_idempotent (submission_communities : dict (list string))
        (user_id community_id : string) :
  (exists shared,
      dict_get (share_with submission_communities user_id community_id) user_id
      = Some shared
      /\ py_in community_id shared = true)
  /\ share_with (share_with submission_communities user_id community_id)
                user_id community_id
     = share_with submission_communities user_id community_id
  /\ (forall other, other <> user_id ->
        dict_get (share_with submission_communities user_id community_id) other
        = dict_get submission_communities other).
Proof.
  split; [apply share_with_get|]. split.
  - destruct (share_with_get submission_communities user_id community_id)
      as [shared [Hget Hin]].
    unfold share_with at 1. rewrite Hget. cbn [is_some]. rewrite Hget, Hin.
    reflexivity.
  - intros other Hne. unfold share_with.
    destruct (dict_get submission_communities user_id) as [shared|] eqn:Hget;
      cbn [is_some].
    + rewrite Hget. destruct (py_in community_id shared); [reflexivity|].
      now apply dict_get_set_other.
    + rewrite dict_get_set_same. cbn [py_in existsb].
      rewrite !dict_get_set_other by exact Hne. reflexivity.
Qed.

(* ================================================================== *)
(** * Creating submissions, one and many *)
(* ================================================================== *)

Lemma digit_value (d : nat) : d < 10 -> nat_of_ascii (ascii_of_nat (48 + d)) - 48 = d.
Proof. intros Hd. rewrite nat_ascii_embedding by lia. lia. Qed.

(** Reading the numeral [digits_fuel] writes gives the number back. *)
Lemma nat_of_digits_fuel (fuel : nat) :
  forall n acc, n < fuel ->
    exists k, forall a,
      nat_of_digits (digits_fuel fuel n acc) a = nat_of_digits acc (a * 10 ^ k + n).
Proof.
  induction fuel as [|fuel IH]; intros n acc Hlt; [lia|].
  cbn [digits_fuel].
  assert (Hmod : n mod 10 < 10) by (apply Nat.mod_upper_bound; lia).
  assert (Hdiv : n = 10 * (n / 10) + n mod 10) by (apply Nat.div_mod_eq).
  destruct (Nat.eqb (n / 10) 0) eqn:Hsmall.
  - apply Nat.eqb_eq in Hsmall. exists 1. intros a.
    cbn [nat_of_digits]. rewrite digit_value by exact Hmod.
    f_equal. cbn [Nat.pow]. lia.
  - apply Nat.eqb_neq in Hsmall.
    destruct (IH (n / 10) (String (ascii_of_nat (48 + n mod 10)) acc)) as [k Hk]; [lia|].
    exists (S k). intros a. rewrite Hk. cbn [nat_of_digits].
    rewrite digit_value by exact Hmod. f_equal. cbn [Nat.pow]. lia.
Qed.

Lemma py_str_nat_value (n : nat) : nat_of_digits (py_str_nat n) 0 = n.
Proof.
  unfold py_str_nat.
  destruct (nat_of_digits_fuel (S n) n "" (Nat.lt_succ_diag_r n)) as [k Hk].
  rewrite Hk. reflexivity.
Qed.

Lemma submission_key_inj (i j : nat) : submission_key i = submission_key j -> i = j.
Proof.
  unfold submission_key. cbn [String.append]. intros [= H].
  apply (f_equal (fun s => nat_of_digits s 0)) in H.
  now rewrite !py_str_nat_value in H.
Qed.

Lemma is_OK_true (st : status) : is_OK st = true <-> st = OK.
Proof. destruct st; simpl; split; congruence. Qed.

Lemma dict_set_fresh {V} (d : dict V) (k : string) (v : V) :
  ~ In k (dict_keys d) -> dict_set d k v = (d ++ [(k, v)])%list.
Proof.
  induction d as [|[k' v'] d IH]; simpl; [reflexivity|].
  intros Hfresh. destruct (k' =? k) eqn:Hk.
  - apply String.eqb_eq in Hk. tauto.
  - rewrite IH by tauto. reflexivity.
Qed.

Lemma submission_key_fresh (i : nat) : ~ In (submission_key i) (map submission_key (seq 0 i)).
Proof.
  rewrite in_map_iff. intros [j [Hkey Hin]].
  apply submission_key_inj in Hkey. apply in_seq in Hin. lia.
Qed.

Section Batch.
Context {E : Externals}.
Variable st : store.
Variable current_user : user.
Variable community : string.

(** One round of the loop enters one result, and notes an error exactly
    when the status entered is not OK. *)
Lemma batch_round_enters (submission : batch_item) (i : nat)
      (results : dict batch_entry) (errors : list nat) (p : process) :
  exists entry p1,
    batch_round st current_user community submission i results errors p
    = (Returns (dict_set results (submission_key i) entry,
                if is_OK (e_status entry) then errors else (errors ++ [i])%list), p1).
Proof.
  unfold batch_round. cbv zeta. unfold try_except, field.
  destruct (b_highlighted_text submission) as [highlighted_text|];
    [|eexists (mk_batch_entry _ None INTERNAL_SERVER_ERROR), _; reflexivity].
  rewrite bind_run. cbv beta iota delta [ret].
  destruct (b_source_url submission) as [source_url|];
    [|eexists (mk_batch_entry _ None INTERNAL_SERVER_ERROR), _; reflexivity].
  rewrite bind_run. cbv beta iota.
  destruct (b_explanation submission) as [explanation|];
    [|eexists (mk_batch_entry _ None INTERNAL_SERVER_ERROR), _; reflexivity].
  rewrite bind_run. cbv beta iota. rewrite bind_run.
  destruct (create_submission_helper st _ _ _ _ _ community p)
    as [[[[message status] submission_id]|] p1];
    [|eexists (mk_batch_entry _ None INTERNAL_SERVER_ERROR), _; reflexivity].
  destruct (is_OK status) eqn:Hok.
  - eexists (mk_batch_entry message (Some (str_id submission_id)) status), _.
    cbn [e_status]. rewrite Hok. reflexivity.
  - eexists (mk_batch_entry message None status), _.
    cbn [e_status]. rewrite Hok. reflexivity.
Qed.

Lemma batch_loop_spec (data : list batch_item) :
  forall i results errors p,
    dict_keys results = map submission_key (seq 0 i) ->
    (errors = [] <-> Forall (fun kv => e_status (snd kv) = OK) results) ->
    exists results' errors' p',
      batch_loop st current_user community data i results errors p
      = (Returns (results', errors'), p')
      /\ dict_keys results' = map submission_key (seq 0 (i + List.length data))
      /\ (errors' = [] <-> Forall (fun kv => e_status (snd kv) = OK) results').
Proof.
  induction data as [|submission rest IH]; intros i results errors p Hkeys Herrors.
  - exists results, errors, p. rewrite Nat.add_0_r. auto.
  - cbn [batch_loop]. rewrite bind_run.
    destruct (batch_round_enters submission i results errors p) as [entry [p1 ->]].
    assert (Hfresh : dict_set results (submission_key i) entry
                     = (results ++ [(submission_key i, entry)])%list).
    { apply dict_set_fresh. rewrite Hkeys. apply submission_key_fresh. }
    rewrite Hfresh.
    destruct (IH (S i) (results ++ [(submission_key i, entry)])%list
                 (if is_OK (e_status entry) then errors else (errors ++ [i])%list) p1)
      as [results' [errors' [p' [Hrun [Hkeys' Herrors']]]]].
    + unfold dict_keys in *. rewrite map_app, Hkeys, seq_S, map_app. reflexivity.
    + rewrite Forall_app. destruct (is_OK (e_status entry)) eqn:Hok.
      * apply is_OK_true in Hok. rewrite Herrors. split; [|tauto].
        intros H. split; [exact H|]. constructor; [exact Hok|constructor].
      * split; [intros H; destruct errors; discriminate|].
        intros [_ H]. inversion H as [|? ? Hentry _]. cbn [snd] in Hentry.
        apply is_OK_true in Hentry. congruence.
    + exists results', errors', p'. split; [exact Hrun|].
      split; [|exact Herrors'].
      rewrite Hkeys'. cbn [List.length]. f_equal. f_equal. lia.
Qed.

(** What a batch request comes to. *)
Lemma create_batch_submission_spec (data : list batch_item) (p : process) :
  exists resp,
    fst (create_batch_submission st current_user community data p) = Returns resp
    /\ dict_keys (batch_results resp) = map submission_key (seq 0 (List.length data))
    /\ (batch_status resp = OK
        <-> Forall (fun kv => e_status (snd kv) = OK) (batch_results resp))
    /\ resp = (if is_OK (batch_status resp)
               then BatchSuccess (batch_results resp) OK
               else BatchError (batch_results resp) INTERNAL_SERVER_ERROR).
Proof.
  unfold create_batch_submission. cbv zeta. rewrite bind_run.
  destruct (batch_loop_spec data 0 [] [] p) as [results [errors [p' [-> [Hkeys Herrors]]]]].
  - reflexivity.
  - split; [constructor|reflexivity].
  - destruct errors as [|i errors]; cbn [List.length Nat.eqb].
    + eexists. split; [reflexivity|]. cbn. split; [exact Hkeys|].
      split; [|reflexivity]. split; [intros _; apply Herrors; reflexivity|reflexivity].
    + eexists. split; [reflexivity|]. cbn. split; [exact Hkeys|].
      split; [|reflexivity]. split; [discriminate|].
      intros H. apply Herrors in H. discriminate.
Qed.
End Batch.

(** X16.  A batch reports on every submission.  Whatever happens to the
    single submissions (rejected, failed, or raising an exception, as on
    an object without ["source_url"]), the batch request returns, and its
    result has exactly one entry per submission, under the keys
    "Submission 0", "Submission 1", ... in the order of the request: a
    failure neither stops the loop nor hides a later submission. *)
Theorem batch_reports_every_submission {E : Externals}
        (st : store) (current_user : user) (community : string)
        (data : list batch_item) (p : process) :
  exists resp,
    fst (create_batch_submission st current_user community data p) = Returns resp
    /\ dict_keys (batch_results resp)
       = map submission_key (seq 0 (List.length data)).
Proof.
  destruct (create_batch_submission_spec st current_user community data p)
    as [resp [Hrun [Hkeys _]]].
  exists resp. auto.
Qed.

(** X17.  A batch succeeds only as a whole.  The answer of a batch
    request has status 200 exactly when every entry of its result has
    status 200; as soon as one submission was not created the whole answer
    is an error with status 500, whatever the status of the single entries
    (400, 403 or 500), although the other submissions were created. *)
Theorem batch_succeeds_only_as_a_whole {E : Externals}
        (st : store) (current_user : user) (community : string)
        (data : list batch_item) (p : process) (resp : batch_response) :
  fst (create_batch_submission st current_user community data p) = Returns resp ->
  (batch_status resp = OK
   <-> Forall (fun kv => e_status (snd kv) = OK) (batch_results resp))
  /\ (batch_status resp = OK \/ batch_status resp = INTERNAL_SERVER_ERROR)
  /\ (batch_status resp = OK <-> exists results, resp = BatchSuccess results OK).
Proof.
  intros Hrun.
  destruct (create_batch_submission_spec st current_user community data p)
    as [resp' [Hrun' [_ [Hall Hshape]]]].
  assert (resp' = resp) as -> by congruence.
  split; [exact Hall|].
  destruct (is_OK (batch_status resp)) eqn:Hok.
  - apply is_OK_true in Hok. split; [auto|]. split; [eauto|auto].
  - rewrite Hshape. cbn. split; [auto|]. split; [discriminate|].
    intros [results H]. discriminate.
Qed.

(** The second object of the batch has no ["source_url"]: the first and
    the third submission are created, the answer is an error. *)
Lemma batch_succeeds_only_as_a_whole_witness :
  batch_status
    (BatchError
       [(submission_key 0,
         mk_batch_entry "Context successfully submitted and indexed."
                        (Some core_submission_id) OK);
        (submission_key 1,
         mk_batch_entry "Failed to create submission, please try again later." None
                        INTERNAL_SERVER_ERROR);
        (submission_key 2,
         mk_batch_entry "Context successfully submitted and indexed."
                        (Some core_submission_id) OK)]
       INTERNAL_SERVER_ERROR) = OK
  \/ batch_status
       (BatchError
          [(submission_key 0,
            mk_batch_entry "Context successfully submitted and indexed."
                           (Some core_submission_id) OK);
           (submission_key 1,
            mk_batch_entry "Failed to create submission, please try again later." None
                           INTERNAL_SERVER_ERROR);
           (submission_key 2,
            mk_batch_entry "Context successfully submitted and indexed."
                           (Some core_submission_id) OK)]
          INTERNAL_SERVER_ERROR) = INTERNAL_SERVER_ERROR.
Proof.
  apply (@batch_succeeds_only_as_a_whole sample_externals sample_store alice
           community_ml sample_batch (fresh_process None)).
  vm_compute. reflexivity.
Defined.

(** An answer with status OK of [create_submission_helper] carries the id
    of the record it inserted. *)
Lemma create_submission_helper_inserted {E : Externals}
      (st : store) (user_id : string) (user_communities : list string)
      (highlighted_text source_url explanation : option string) (community : string)
      (p p' : process) (message : string) (submission_id : option string) :
  create_submission_helper st user_id user_communities highlighted_text source_url
                           explanation community p
  = (Returns (Reply message OK, submission_id), p') ->
  exists inserted_id,
    submission_id = Some inserted_id /\ log_submission st = Returns (Some inserted_id).
Proof.
  unfold create_submission_helper. cbv zeta.
  destruct ((community =? web_community) && negb (user_id =? web_admin)); [discriminate|].
  destruct (community =? ""); [discriminate|].
  unfold object_id. rewrite bind_run.
  destruct (ObjectId community) as [community_id|]; cbv beta iota delta [raise];
    [|discriminate].
  unfold ret at 1. cbv beta iota. rewrite bind_run, external_run.
  destruct (find_community st community_id) as [found|]; [|discriminate].
  destruct (negb found); [discriminate|].
  destruct (negb (py_in community_id user_communities)); [discriminate|].
  destruct (negb (arg_truthy explanation) || negb (arg_truthy source_url)); [discriminate|].
  destruct (validate_submission _ explanation source_url) as [validated text].
  destruct (negb validated); [discriminate|].
  rewrite bind_run, external_run.
  destruct (log_submission st) as [[inserted_id|]|]; [|discriminate|discriminate].
  rewrite bind_run, external_run.
  destruct (add_to_index st _) as [hashtags|]; [|discriminate].
  rewrite bind_run.
  match goal with |- context [try_except ?c ?h ?q] => destruct (try_except c h q) as [[[]|] q1] end;
    [|discriminate].
  rewrite bind_run, external_run.
  destruct (scrape_and_index st _) as [[]|]; [|discriminate].
  intros [= _ <- _]. exists inserted_id. auto.
Qed.

(** X18.  A success answer of [create_submission] stands for an inserted
    record: its status is 200 and the submission id it carries is the id
    under which the database acknowledged the insert.  Every other
    outcome, an exception anywhere included, is answered as an error. *)
Theorem submitted_means_inserted {E : Externals}
        (st : store) (current_user : user) (highlighted_text : string)
        (source_url explanation : option string) (community : string)
        (p : process) (message submission_id : string) (status : status) :
  fst (create_submission st current_user highlighted_text source_url explanation
                         community p)
  = Returns (Submitted message submission_id status) ->
  status = OK /\ log_submission st = Returns (Some submission_id).
Proof.
  unfold create_submission, try_except. cbv zeta. rewrite bind_run.
  destruct (create_submission_helper st _ _ _ _ _ community p)
    as [[[[text code] inserted]|] p'] eqn:Hrun; [|discriminate].
  destruct (is_OK code) eqn:Hok; [|discriminate].
  apply is_OK_true in Hok. subst code.
  destruct (create_submission_helper_inserted _ _ _ _ _ _ _ _ _ _ _ Hrun)
    as [inserted_id [-> Hlog]].
  intros [= _ <- <-]. auto.
Qed.

(** [alice] submits a page to her machine-learning community. *)
Lemma submitted_means_inserted_witness :
  OK = OK /\ log_submission sample_store = Returns (Some core_submission_id).
Proof.
  apply (@submitted_means_inserted sample_externals sample_store alice ""
           (Some "https://a.example") (Some "a page") community_ml
           (fresh_process None) "Context successfully submitted and indexed.").
  reflexivity.
Defined.

(* ================================================================== *)
(** * Who sees a submission *)
(* ================================================================== *)

Lemma shares_a_community_true (user_communities : list string)
      (submission : submission_doc) :
  shares_a_community user_communities submission = true ->
  exists community,
    In community user_communities /\ In community (all_communities_of submission).
Proof.
  unfold shares_a_community. rewrite existsb_exists.
  intros [community [Hin Hshared]]. exists community.
  split; [exact Hin|apply py_in_true, Hshared].
Qed.

(** The formatted submission keeps the id of the submission. *)
Lemma format_submission_for_display_id (vs : view_store) (submission : submission_doc)
      (current_user : user) (search_id : string) (p : process) (d : display) :
  fst (format_submission_for_display vs submission current_user search_id p) = Returns d ->
  d_submission_id d = s_id submission.
Proof.
  unfold format_submission_for_display. cbv zeta. unfold bind, external, ret.
  destruct (count_search_clicks vs _); [|discriminate].
  destruct (count_recommendation_clicks vs _); [|discriminate].
  destruct (count_views vs _); [|discriminate].
  destruct (community_table vs); [|discriminate].
  intros [= <-]. reflexivity.
Qed.

(** X19.  A submission is shown only to those who have access to it.
    When GET answers with a submission of the [Logs] collection, the
    submission is not deleted, and the requester is a member of a
    community the submission is in or is its original submitter. *)
Theorem submission_is_shown_only_with_access
        (vs : view_store) (current_user : user) (id oid : string)
        (record : log_record) (p : process)
        (formatted : display) (connections : list (display * string)) :
  ObjectId id = Some oid ->
  find_log vs oid = Returns (Some record) ->
  fst (submission_GET vs current_user id p) = Returns (Shown formatted connections) ->
  l_deleted record = false
  /\ ((exists community,
          In community (communities_of current_user)
          /\ In community (all_communities_of (l_submission record)))
      \/ s_user_id (l_submission record) = user_id_of current_user).
Proof.
  intros Hid Hfind.
  unfold submission_GET. cbv zeta. unfold try_except at 1. rewrite bind_run.
  unfold try_except at 1, object_id. rewrite bind_run, Hid.
  cbv beta iota delta [ret]. rewrite bind_run, external_run, Hfind.
  cbv beta iota.
  destruct (l_deleted record); cbn [negb]; [discriminate|].
  destruct (shares_a_community (communities_of current_user) (l_submission record))
    eqn:Hshares.
  - intros _. split; [reflexivity|]. left. apply shares_a_community_true, Hshares.
  - destruct (s_user_id (l_submission record) =? user_id_of current_user) eqn:Hown;
      [|discriminate].
    intros _. split; [reflexivity|]. right. apply String.eqb_eq, Hown.
Qed.

(** [alice] looks at her core submission. *)
Lemma submission_is_shown_only_with_access_witness :
  l_deleted (mk_log_record core_submission false) = false
  /\ ((exists community,
          In community (communities_of alice)
          /\ In community (all_communities_of core_submission))
      \/ s_user_id core_submission = user_id_of alice).
Proof.
  apply (submission_is_shown_only_with_access sample_view_store alice
           core_submission_id core_submission_id
           (mk_log_record core_submission false) (fresh_process None)
           core_submission_view [(core_submission_view, "itself")]); reflexivity.
Defined.

Lemma filter_connections_visible (vs : view_store) (user_communities : list string)
      (current_user : user) (search_id : string) (all_connections : list connection) :
  forall (connections : list connection) (filtered : list (display * string))
         (p : process) (shown : list (display * string)),
    incl connections all_connections ->
    Forall (visible_connection vs user_communities all_connections) filtered ->
    fst (filter_connections vs user_communities current_user search_id connections
                            filtered p) = Returns shown ->
    Forall (visible_connection vs user_communities all_connections) shown
    /\ List.length shown <= List.length filtered + List.length connections.
Proof.
  induction connections as [|connection rest IH]; intros filtered p shown Hincl Hvisible.
  - cbn. intros [= <-]. split; [exact Hvisible|lia].
  - cbn [filter_connections]. rewrite bind_run, external_run.
    assert (Hrest : incl rest all_connections)
      by (intros c Hc; apply Hincl; right; exact Hc).
    assert (Hskip : forall q,
               fst (filter_connections vs user_communities current_user search_id rest
                                       filtered q) = Returns shown ->
               Forall (visible_connection vs user_communities all_connections) shown
               /\ List.length shown
                  <= List.length filtered + List.length (connection :: rest)).
    { intros q Hrun. destruct (IH filtered q shown Hrest Hvisible Hrun) as [H1 H2].
      split; [exact H1|cbn [List.length]; lia]. }
    destruct (find_log vs (cn_target_id connection)) as [[record|]|] eqn:Hfind;
      [| |discriminate].
    + rewrite bind_run.
      destruct (l_deleted record) eqn:Hdeleted; [apply Hskip|].
      destruct (shares_a_community user_communities (l_submission record)) eqn:Hshares;
        [|apply Hskip].
      rewrite bind_run.
      destruct (format_submission_for_display vs (l_submission record) current_user
                                              search_id _)
        as [[formatted|] p1] eqn:Hformat; [|discriminate].
      cbv beta iota delta [ret]. intros Hrun.
      destruct (IH (filtered ++ [(formatted, cn_description connection)])%list
                   p1 shown Hrest) as [H1 H2]; [|exact Hrun|].
      * apply Forall_app. split; [exact Hvisible|]. constructor; [|constructor].
        exists connection, record. cbn [fst snd].
        split; [apply Hincl; left; reflexivity|].
        split; [reflexivity|]. split; [exact Hfind|]. split; [exact Hdeleted|].
        split; [|apply shares_a_community_true, Hshares].
        eapply format_submission_for_display_id. rewrite Hformat. reflexivity.
      * split; [exact H1|]. rewrite length_app in H2. cbn [List.length] in *. lia.
    + rewrite bind_run. apply Hskip.
Qed.

(** X20.  Connections are filtered by access.  Every connection
    [find_connections] returns stands for a connection of the submission
    whose target is on record, is not deleted and is in a community of the
    requester; it carries the id of that target and the description of the
    connection.  There is at most one entry per connection: connections to
    submissions the requester cannot see are left out, not replaced. *)
Theorem connections_are_filtered_by_access
        (vs : view_store) (submission_id : string) (user_communities : list string)
        (current_user : user) (search_id : string) (p : process)
        (shown : list (display * string)) :
  fst (find_connections vs submission_id user_communities current_user search_id p)
  = Returns shown ->
  exists all_connections,
    find_connections_of vs submission_id = Returns all_connections
    /\ Forall (visible_connection vs user_communities all_connections) shown
    /\ List.length shown <= List.length all_connections.
Proof.
  unfold find_connections. rewrite bind_run, external_run.
  destruct (find_connections_of vs submission_id) as [all_connections|]; [|discriminate].
  cbv zeta. intros Hrun. exists all_connections. split; [reflexivity|].
  eapply (filter_connections_visible vs user_communities current_user search_id
            all_connections all_connections []); [apply incl_refl|constructor|].
  exact Hrun.
Qed.

(** Of the three connections of [alice]'s core submission, one leads to a
    submission of a community she is not in and one to a deleted
    submission: she is shown the third. *)
Lemma connections_are_filtered_by_access_witness :
  exists all_connections,
    find_connections_of sample_view_store core_submission_id = Returns all_connections
    /\ Forall (visible_connection sample_view_store (communities_of alice)
                                  all_connections)
              [(core_submission_view, "itself")]
    /\ List.length [(core_submission_view, "itself")] <= List.length all_connections.
Proof.
  apply (connections_are_filtered_by_access sample_view_store core_submission_id
           (communities_of alice) alice "64d000000000000000000001"
           (fresh_process None)).
  reflexivity.
Defined.

(** What one user shared is among all the communities of the submission. *)
Lemma shared_is_added (submission : submission_doc) (user_id : string)
      (shared : list string) (community : string) :
  dict_get (s_communities submission) user_id = Some shared ->
  py_in community shared = true ->
  py_in community (all_communities_of submission) = true.
Proof.
  unfold all_communities_of. intros Hget Hin. apply In_py_in, in_flat_map.
  apply py_in_true in Hin.
  induction (s_communities submission) as [|[k v] d IH]; simpl in Hget; [discriminate|].
  destruct (k =? user_id).
  - injection Hget as ->. exists (k, shared). split; [left; reflexivity|exact Hin].
  - destruct (IH Hget) as [kv [H1 H2]]. exists kv. split; [right; exact H1|exact H2].
Qed.

(** X21.  What the requester is offered for a submission.  In a formatted
    submission every community of the requester appears once, in the order
    of the requester's community table, with an action: "remove" exactly
    when the requester shared the submission there, "save" exactly when the
    submission is in that community for no user, "view" otherwise.
    ["communities_part_of"] lists, with their names, exactly the
    communities of the table that the submission is in. *)
Theorem formatted_submission_offers_actions
        (vs : view_store) (submission : submission_doc) (current_user : user)
        (search_id : string) (p : process) (formatted : display) :
  fst (format_submission_for_display vs submission current_user search_id p)
  = Returns formatted ->
  exists table,
    community_table vs = Returns table
    /\ dict_keys (d_communities formatted) = dict_keys table
    /\ d_communities_part_of formatted
       = filter (fun kv => py_in (fst kv) (all_communities_of submission)) table
    /\ forall community choice,
         In (community, choice) (d_communities formatted) ->
         (ch_valid_action choice = action_remove
          <-> exists shared,
                dict_get (s_communities submission) (user_id_of current_user)
                = Some shared
                /\ py_in community shared = true)
         /\ (ch_valid_action choice = action_save
             <-> py_in community (all_communities_of submission) = false).
Proof.
  unfold format_submission_for_display. cbv zeta. unfold bind, external, ret.
  destruct (count_search_clicks vs _); [|discriminate].
  destruct (count_recommendation_clicks vs _); [|discriminate].
  destruct (count_views vs _); [|discriminate].
  destruct (community_table vs) as [table|]; [|discriminate].
  intros [= <-]. exists table. split; [reflexivity|]. cbn.
  assert (Haction : forall community,
    let action :=
      choose_action
        match dict_get (s_communities submission) (user_id_of current_user) with
        | Some shared => shared
        | None => []
        end (all_communities_of submission) community in
    (action = action_remove
     <-> exists shared,
           dict_get (s_communities submission) (user_id_of current_user) = Some shared
           /\ py_in community shared = true)
    /\ (action = action_save
        <-> py_in community (all_communities_of submission) = false)).
  { intros community. cbv zeta. unfold choose_action.
    destruct (dict_get (s_communities submission) (user_id_of current_user))
      as [shared|] eqn:Hget.
    - destruct (py_in community shared) eqn:Hshared.
      + rewrite (shared_is_added submission _ shared community Hget Hshared).
        split; split; try discriminate; eauto.
      + destruct (py_in community (all_communities_of submission));
          split; split; try discriminate; try reflexivity.
        all: intros [shared' [[= <-] H]]; congruence.
    - cbn [py_in existsb].
      destruct (py_in community (all_communities_of submission));
        split; split; try discriminate; try reflexivity.
      all: intros [shared' [H _]]; discriminate. }
  split; [|split].
  - unfold dict_keys. rewrite map_map. reflexivity.
  - induction table as [|[community name] table IH]; [reflexivity|].
    cbn [map filter fst snd ch_valid_action ch_name].
    destruct (Haction community) as [_ Hsave]. cbv zeta in Hsave.
    destruct (py_in community (all_communities_of submission)) eqn:Hin.
    + destruct (choose_action _ _ community) eqn:Hchoice; cbn [is_save negb map];
        [now rewrite IH|now rewrite IH|].
      destruct Hsave as [Hsave _]. specialize (Hsave eq_refl). discriminate.
    + destruct Hsave as [_ Hsave]. rewrite (Hsave eq_refl). cbn [is_save negb].
      exact IH.
  - intros community choice Hin. apply in_map_iff in Hin.
    destruct Hin as [[community' name] [[= <- <-] _]]. cbn [ch_valid_action fst].
    apply Haction.
Qed.

(** [alice] is offered to remove her core submission from the
    machine-learning community and to save it to the database community. *)
Lemma formatted_submission_offers_actions_witness :
  exists table,
    community_table sample_view_store = Returns table
    /\ dict_keys (d_communities core_submission_view) = dict_keys table
    /\ d_communities_part_of core_submission_view
       = filter (fun kv => py_in (fst kv) (all_communities_of core_submission)) table
    /\ forall community choice,
         In (community, choice) (d_communities core_submission_view) ->
         (ch_valid_action choice = action_remove
          <-> exists shared,
                dict_get (s_communities core_submission) (user_id_of alice)
                = Some shared
                /\ py_in community shared = true)
         /\ (ch_valid_action choice = action_save
             <-> py_in community (all_communities_of core_submission) = false).
Proof.
  apply (formatted_submission_offers_actions sample_view_store core_submission alice
           "64d000000000000000000001" (fresh_process None)).
  reflexivity.
Defined.

(* ================================================================== *)
(** * Recommendations *)
(* ================================================================== *)

Lemma py_remove_NoDup (x : string) (l : list string) : NoDup l -> ~ In x (py_remove x l).
Proof.
  induction 1 as [|y l Hy Hl IH]; simpl; [tauto|].
  destruct (y =? x) eqn:Hyx.
  - apply String.eqb_eq in Hyx. subst y. exact Hy.
  - apply String.eqb_neq in Hyx. intros [H|H]; [congruence|tauto].
Qed.

Section RecommendationFacts.
Context {E : Externals}.
Variable create_preview_page : list hit -> dict string -> list item.

(** The communities a fresh request asks recommendations for. *)
Lemma requested_without_web (user_communities : list string) :
  NoDup user_communities ->
  ~ In web_community
       (if py_in web_community user_communities
        then py_remove web_community user_communities
        else user_communities).
Proof.
  intros Hnodup. destruct (py_in web_community user_communities) eqn:Hin.
  - apply py_remove_NoDup, Hnodup.
  - apply py_in_false, Hin.
Qed.

Lemma fresh_recommendations_with_recent (w : world) (rw : recommender)
      (recent : string -> list string -> outcome (nat * list hit))
      (user_id_str : string) (toggle : bool) (method recommendation_id : string)
      (page_number : nat) (requested : list string) (communities rc_dict : dict string)
      (p : process) :
  recent user_id_str requested = get_most_recent_submissions rw user_id_str requested ->
  fresh_recommendations create_preview_page w (with_recent rw recent) user_id_str toggle
                        method recommendation_id page_number requested communities
                        rc_dict p
  = fresh_recommendations create_preview_page w rw user_id_str toggle method
                          recommendation_id page_number requested communities rc_dict p.
Proof.
  intros Hsame. unfold fresh_recommendations.
  destruct (method =? "recent").
  - cbn [get_most_recent_submissions with_recent]. rewrite Hsame. reflexivity.
  - reflexivity.
Qed.

Lemma fresh_recommendations_lookups (w : world) (rw : recommender)
      (user_id_str : string) (toggle : bool) (method recommendation_id : string)
      (page_number : nat) (requested : list string) (communities rc_dict : dict string)
      (p : process) :
  fresh_recommendations create_preview_page w
                        (with_lookups rw
                           (found_nothing_on_failure (find_user_submissions rw))
                           (found_nothing_on_failure (find_extension_opens rw)))
                        user_id_str toggle method recommendation_id page_number
                        requested communities rc_dict p
  = fresh_recommendations create_preview_page w rw user_id_str toggle method
                          recommendation_id page_number requested communities rc_dict p.
Proof.
  unfold fresh_recommendations.
  destruct (method =? "recent"); [reflexivity|].
  destruct (method =? "explore_similar_extension"); [|reflexivity].
  rewrite !bind_run. unfold try_except, external, found_nothing_on_failure.
  cbn [find_user_submissions find_extension_opens with_lookups].
  destruct (find_user_submissions rw user_id_str) as [submissions|];
    cbv beta iota delta [ret]; rewrite !bind_run.
  all: destruct (find_extension_opens rw user_id_str) as [opens|]; reflexivity.
Qed.
End RecommendationFacts.

(** X22.  Only two methods are served.  A fresh recommendation request
    whose method is neither "recent" nor "explore_similar_extension" (the
    method "explore_user_submissions" of the docstring, for one) is never
    answered with recommendations: whatever the services do, the answer is
    an error with status 500. *)
Theorem unknown_method_is_never_served {E : Externals}
        (create_preview_page : list hit -> dict string -> list item)
        (w : world) (rw : recommender) (current_user : user) (toggle : bool)
        (req : recommend_request) (p : process) :
  arg_truthy (rq_recommendation_id req) = false ->
  (rq_method req =? "recent") = false ->
  (rq_method req =? "explore_similar_extension") = false ->
  exists message,
    fst (get_recommendations create_preview_page w rw current_user toggle req p)
    = Returns (NotRecommended message INTERNAL_SERVER_ERROR).
Proof.
  intros Hfresh Hrecent Hexplore.
  unfold get_recommendations. cbv zeta. rewrite Hfresh. cbn [negb].
  unfold fresh_recommendations. rewrite Hrecent, Hexplore.
  unfold try_except, Cache, bind, external, ret, raise.
  destruct (rq_page req); try (eexists; reflexivity).
  all: destruct (cache_connects w); try (eexists; reflexivity).
  all: destruct (community_info w); try (eexists; reflexivity).
  all: destruct (log_recommendation_request rw); eexists; reflexivity.
Qed.

(** The method of the docstring. *)
Lemma unknown_method_is_never_served_witness :
  exists message,
    fst (@get_recommendations sample_externals sample_create_page sample_world
           sample_recommender alice true
           (mk_recommend_request "explore_user_submissions" PageAbsent None)
           (fresh_process None))
    = Returns (NotRecommended message INTERNAL_SERVER_ERROR).
Proof.
  apply (@unknown_method_is_never_served sample_externals sample_create_page
           sample_world sample_recommender alice true
           (mk_recommend_request "explore_user_submissions" PageAbsent None)
           (fresh_process None)); reflexivity.
Defined.

(** X23.  The web community is left out of the recent recommendations.
    For a user whose list of communities has no duplicates, the index is
    never asked for the most recent submissions of a list of communities
    that holds the web community: what the index would answer for such a
    list has no influence on any recommendation request. *)
Theorem recent_leaves_out_the_web_community {E : Externals}
        (create_preview_page : list hit -> dict string -> list item)
        (w : world) (rw : recommender)
        (recent : string -> list string -> outcome (nat * list hit))
        (current_user : user) (toggle : bool) (req : recommend_request) (p : process) :
  NoDup (communities_of current_user) ->
  (forall user_id communities,
      ~ In web_community communities ->
      recent user_id communities = get_most_recent_submissions rw user_id communities) ->
  get_recommendations create_preview_page w (with_recent rw recent) current_user toggle
                      req p
  = get_recommendations create_preview_page w rw current_user toggle req p.
Proof.
  intros Hnodup Hsame.
  unfold get_recommendations. cbv zeta. unfold try_except at 1 3.
  rewrite !bind_run.
  destruct (match rq_page req with
            | PageInt z => ret (Z.to_nat (Z.max 0 z))
            | PageMalformed => raise
            | _ => ret 0
            end p) as [[page_number|] p0]; [|reflexivity].
  rewrite !bind_run.
  destruct (try_except (Cache w;; ret (Some tt)) (ret None) p0) as [[[[]|]|] p1];
    [|reflexivity|reflexivity].
  rewrite !bind_run.
  destruct (external EvCommunityInfo (community_info w) p1) as [[communities|] p2];
    [|reflexivity].
  rewrite !bind_run.
  destruct (negb (arg_truthy (rq_recommendation_id req))); [|reflexivity].
  rewrite !bind_run. cbn [log_recommendation_request with_recent].
  destruct (external (EvDatabase "log_recommendation_request")
                     (log_recommendation_request rw) p2) as [[recommendation_id|] p3];
    [|reflexivity].
  rewrite !bind_run.
  rewrite fresh_recommendations_with_recent; [reflexivity|].
  apply Hsame, requested_without_web, Hnodup.
Qed.

(** [carol] is in the web community: an index that fails for every list
    with the web community serves her as the sample index does. *)
Lemma recent_leaves_out_the_web_community_witness :
  @get_recommendations sample_externals sample_create_page sample_world
    (with_recent sample_recommender
       (fun _ communities => if py_in web_community communities
                             then Raises else Returns (2, [hit_A; hit_B])))
    carol true (mk_recommend_request "recent" PageAbsent None) (fresh_process None)
  = @get_recommendations sample_externals sample_create_page sample_world
      sample_recommender carol true (mk_recommend_request "recent" PageAbsent None)
      (fresh_process None).
Proof.
  apply (@recent_leaves_out_the_web_community sample_externals sample_create_page
           sample_world sample_recommender).
  - repeat constructor; simpl; intuition discriminate.
  - intros user_id communities Hout.
    destruct (py_in web_community communities) eqn:Hin; [|reflexivity].
    apply py_in_true in Hin. contradiction.
Defined.

(** X24.  The explore recommendations survive a failed lookup.  A lookup
    of the user's latest submissions or of the user's extension opens that
    raises (lines 862-871 and 880-889) is taken as one that found nothing:
    the request makes the same calls and gets the same answer. *)
Theorem explore_survives_failed_lookups {E : Externals}
        (create_preview_page : list hit -> dict string -> list item)
        (w : world) (rw : recommender) (current_user : user) (toggle : bool)
        (req : recommend_request) (p : process) :
  get_recommendations create_preview_page w
                      (with_lookups rw
                         (found_nothing_on_failure (find_user_submissions rw))
                         (found_nothing_on_failure (find_extension_opens rw)))
                      current_user toggle req p
  = get_recommendations create_preview_page w rw current_user toggle req p.
Proof.
  unfold get_recommendations. cbv zeta. unfold try_except at 1 3.
  rewrite !bind_run.
  destruct (match rq_page req with
            | PageInt z => ret (Z.to_nat (Z.max 0 z))
            | PageMalformed => raise
            | _ => ret 0
            end p) as [[page_number|] p0]; [|reflexivity].
  rewrite !bind_run.
  destruct (try_except (Cache w;; ret (Some tt)) (ret None) p0) as [[[[]|]|] p1];
    [|reflexivity|reflexivity].
  rewrite !bind_run.
  destruct (external EvCommunityInfo (community_info w) p1) as [[communities|] p2];
    [|reflexivity].
  rewrite !bind_run.
  destruct (negb (arg_truthy (rq_recommendation_id req))); [|reflexivity].
  rewrite !bind_run. cbn [log_recommendation_request with_lookups].
  destruct (external (EvDatabase "log_recommendation_request")
                     (log_recommendation_request rw) p2) as [[recommendation_id|] p3];
    [|reflexivity].
  rewrite !bind_run.
  rewrite fresh_recommendations_lookups. reflexivity.
Qed.

(** X25.  A further page of recommendations comes from the cache alone.
    A request that names a recommendation id logs nothing and asks no
    index: its only external calls are the connection to the cache and the
    lookup of the requester's communities, and its answer is the same
    whatever the index of recent submissions, the log of requests and the
    lookups of the explore mode would do. *)
Theorem paging_recommendations_reads_the_cache_only {E : Externals}
        (create_preview_page : list hit -> dict string -> list item)
        (w : world) (rw rw' : recommender) (current_user : user) (toggle : bool)
        (req : recommend_request) (p : process) :
  arg_truthy (rq_recommendation_id req) = true ->
  logs_only paging_event p
            (snd (get_recommendations create_preview_page w rw current_user toggle req p))
  /\ get_recommendations create_preview_page w rw' current_user toggle req p
     = get_recommendations create_preview_page w rw current_user toggle req p.
Proof.
  intros Hpaging. split.
  - assert (Hkeeps : keeps (logs_only paging_event p)
                           (get_recommendations create_preview_page w rw current_user
                                                toggle req)).
    { unfold get_recommendations. cbv zeta. rewrite Hpaging. cbn [negb]. unfold Cache.
      repeat first [ apply keeps_logs_external; unfold paging_event; auto
                   | keeps_step ]. }
    apply Hkeeps, logs_only_start.
  - unfold get_recommendations. cbv zeta. rewrite Hpaging. reflexivity.
Qed.

(** [alice] asks for the second page of her recommendations. *)
Lemma paging_recommendations_reads_the_cache_only_witness :
  logs_only paging_event (fresh_process None)
            (snd (@get_recommendations sample_externals sample_create_page sample_world
                    sample_recommender alice true
                    (mk_recommend_request "recent" (PageInt 1)
                                          (Some "64e000000000000000000001"))
                    (fresh_process None)))
  /\ @get_recommendations sample_externals sample_create_page sample_world
       (with_recent sample_recommender (fun _ _ => Raises)) alice true
       (mk_recommend_request "recent" (PageInt 1) (Some "64e000000000000000000001"))
       (fresh_process None)
     = @get_recommendations sample_externals sample_create_page sample_world
         sample_recommender alice true
         (mk_recommend_request "recent" (PageInt 1) (Some "64e000000000000000000001"))
         (fresh_process None).
Proof.
  apply (@paging_recommendations_reads_the_cache_only sample_externals
           sample_create_page sample_world sample_recommender
           (with_recent sample_recommender (fun _ _ => Raises)) alice true
           (mk_recommend_request "recent" (PageInt 1) (Some "64e000000000000000000001"))
           (fresh_process None)).
  reflexivity.
Defined.
